(** * Quiz grading, module unlocking, enrollments and error responses

    A shallow embedding of the computational core of the course-platform
    backend:

    - [src/services/quiz.service.ts]          (module [QuizService])
    - [src/middlewares/error.middleware.ts]   (module [Http])
    - the module service, [getModulesToUnlock] (module [ModuleService])
    - the Prisma schema, [UserCourseEnrollment] (module [Schema])

    JavaScript numbers that hold database [Int] columns (points, indexes,
    scores, thresholds) are integers, embedded as [Z]; their sums are exact
    below 2^53.  The one place where the grader leaves the integers, the
    percentage [(earnedPoints / totalPoints) * 100], is evaluated in IEEE 754
    binary64 with the Standard Library's [SpecFloat] operations.  Dates are
    milliseconds since the epoch, as [Date.getTime] gives them. *)

From Stdlib Require Import ZArith List String Ascii Bool Lia SpecFloat.
From Stdlib Require Import Permutation Sorted.
From Stdlib Require QArith Qround.
Import ListNotations.
Open Scope string_scope.
Open Scope list_scope.
Open Scope Z_scope.

(* ===================================================================== *)
(** * Part I: definitions                                                 *)
(* ===================================================================== *)

(** ** JavaScript numbers *)

Module JsNumber.

(** binary64: 53 bits of precision, exponent of the infinities 1024. *)
Definition prec : Z := 53.
Definition emax : Z := 1024.

(** The double that an integer literal or an integer-valued variable holds
    (exact for every integer of magnitude below 2^53). *)
Definition of_int (z : Z) : spec_float := binary_normalize prec emax z 0 false.

(** [x / y] and [x * y] on doubles, rounded to nearest, ties to even. *)
Definition div (x y : spec_float) : spec_float := SFdiv prec emax x y.
Definition mul (x y : spec_float) : spec_float := SFmul prec emax x y.

(** [Math.round]: the integer nearest to [x], ties towards +infinity, that
    is [floor (x + 1/2)] computed exactly.  The result is given as an
    integer; on NaN and the infinities, where [Math.round] returns its
    argument, the embedding returns 0 (the grader never reaches them, see
    [percentage_le_100]). *)
Definition Math_round (x : spec_float) : Z :=
  match x with
  | S754_finite s m e =>
      let v := if s then Z.neg m else Z.pos m in
      if 0 <=? e then v * 2 ^ e
      else (v + 2 ^ (- e - 1)) / 2 ^ (- e)
  | _ => 0
  end.

(** The value of a double is at most [c * 2^k], and it is not negative. *)
Definition SF_le (x : spec_float) (c k : Z) : Prop :=
  match x with
  | S754_zero false => True
  | S754_finite false m e => e <= k /\ Z.pos m <= c * 2 ^ (k - e)
  | _ => False
  end.

(** What [n] applications of [shr_1] do to a record whose mantissa is not
    negative. *)
Definition shifted (n : Z) (a b : shr_record) : Prop :=
  0 <= shr_m a ->
  shr_m b = shr_m a / 2 ^ n /\
  (shr_r a = false -> shr_s a = false -> shr_m a mod 2 ^ n = 0 ->
   shr_r b = false /\ shr_s b = false).

(** A bound [c * 2^kB] that is itself a double: [c] fits the mantissa and
    [kB] is an exponent of the format. *)
Definition representable (c kB : Z) : Prop :=
  0 < c < 2 ^ 53 /\ -1074 <= kB <= 971.

End JsNumber.

(** ** Small list utilities standing for the array methods the code uses *)

Section ArrayMethods.
Context {A : Type}.

(** [xs.sort] by a key, ascending and stable: the order an [orderBy ... 'asc']
    query delivers. *)
Fixpoint insert_by (le : A -> A -> bool) (x : A) (l : list A) : list A :=
  match l with
  | [] => [x]
  | y :: l' => if le x y then x :: l else y :: insert_by le x l'
  end.

Definition order_by (le : A -> A -> bool) (l : list A) : list A :=
  fold_right (insert_by le) [] l.

End ArrayMethods.

(** [ids.includes(id)] on arrays of strings. *)
Definition includes (ids : list string) (id : string) : bool :=
  existsb (String.eqb id) ids.

(** [ids.join(', ')]. *)
Definition join (sep : string) (ids : list string) : string :=
  String.concat sep ids.

(** Whether [needle] occurs in [hay]. *)
Definition mentions (hay needle : string) : bool :=
  match String.index 0 needle hay with
  | Some _ => true
  | None => false
  end.

(** ** Errors and the error middleware *)

Module Http.

(** The [errors] member of an error response. *)
Inductive Details : Type :=
| NoDetails                                  (* null *)
| Issues (issues : list (string * string))   (* validation issues: path, message *)
| Field (target : option string)             (* { field: err.meta?.target } *)
| TheError (name message : string).          (* the error object itself *)

(** What can reach the middleware: an [ApiError] thrown by the application,
    a known-request error of the ORM, or any other [Error], told apart by
    its [name]. *)
Inductive Error : Type :=
| ApiError (message : string) (statusCode : Z) (errors : Details)
| PrismaClientKnownRequestError (code : string) (message : string)
    (target : option string)
| OtherError (name : string) (message : string).

Definition error_name (err : Error) : string :=
  match err with
  | ApiError _ _ _ => "ApiError"
  | PrismaClientKnownRequestError _ _ _ => "PrismaClientKnownRequestError"
  | OtherError name _ => name
  end.

Definition error_message (err : Error) : string :=
  match err with
  | ApiError message _ _ => message
  | PrismaClientKnownRequestError _ message _ => message
  | OtherError _ message => message
  end.

(** [res.status(statusCode).json({ success: false, message, errors })]. *)
Record Response : Type := mkResponse {
  status : Z;
  message : string;
  errors : Details
}.

(** [ApiResponse.error], with its default arguments spelled out at the calls. *)
Definition ApiResponse_error (message : string) (statusCode : Z)
  (errors : Details) : Response :=
  mkResponse statusCode message errors.

(** The four ORM error codes the middleware answers itself. *)
Definition prisma_response (code : string) (target : option string)
  : option Response :=
  if String.eqb code "P2002" then
    Some (ApiResponse_error "Duplicate value for a unique field" 409 (Field target))
  else if String.eqb code "P2025" then
    Some (ApiResponse_error "Record not found" 404 NoDetails)
  else if String.eqb code "P2003" then
    Some (ApiResponse_error "Foreign key constraint failed" 400 NoDetails)
  else if String.eqb code "P2016" then
    Some (ApiResponse_error "Record not found or no permissions" 404 NoDetails)
  else None.

(** The checks on [err.name] and the default response. [NODE_ENV] is
    [process.env.NODE_ENV], absent when the variable is not set. *)
Definition by_name (NODE_ENV : option string) (err : Error) : Response :=
  let name := error_name err in
  if String.eqb name "ValidationError" then
    ApiResponse_error "Validation error" 400 (TheError name (error_message err))
  else if String.eqb name "JsonWebTokenError" then
    ApiResponse_error "Invalid token" 401 NoDetails
  else if String.eqb name "TokenExpiredError" then
    ApiResponse_error "Token expired" 401 NoDetails
  else
    ApiResponse_error
      (match NODE_ENV with
       | Some env => if String.eqb env "development" then error_message err
                     else "Internal server error"
       | None => "Internal server error"
       end)
      500 NoDetails.

Definition errorMiddleware (NODE_ENV : option string) (err : Error) : Response :=
  match err with
  | ApiError message statusCode errors =>
      ApiResponse_error message statusCode errors
  | PrismaClientKnownRequestError code _ target =>
      match prisma_response code target with
      | Some res => res
      | None => by_name NODE_ENV err
      end
  | OtherError _ _ => by_name NODE_ENV err
  end.

End Http.

(** ** The quiz service *)

Module QuizService.
Import Http JsNumber.

Record QuizRow : Type := mkQuizRow {
  quiz_id : string;
  quiz_moduleId : string;
  passingScore : Z;
  isDeleted : bool
}.

Record QuizQuestion : Type := mkQuizQuestion {
  question_id : string;
  quizId : string;
  question : string;
  options : list string;
  correctOptionIndex : Z;
  explanation : option string;
  points : Z
}.

(** One element of the [answers] array of a submission. *)
Record Answer : Type := mkAnswer {
  questionId : string;
  selectedOptionIndex : Z
}.

Record QuizAnswer : Type := mkQuizAnswer {
  answer_questionId : string;
  answer_selectedOptionIndex : Z;
  isCorrect : bool
}.

Record QuizAttempt : Type := mkQuizAttempt {
  attempt_userId : string;
  attempt_quizId : string;
  score : Z;
  passed : bool;
  attempt_answers : list QuizAnswer
}.

(** The tables the service reads and writes. *)
Record Db : Type := mkDb {
  quiz : list QuizRow;
  quizQuestion : list QuizQuestion;
  quizAttempt : list QuizAttempt
}.

(** A quiz as [getQuizById] returns it: the row and, when asked for, its
    questions in ascending order of their ids. *)
Record Quiz : Type := mkQuiz {
  row : QuizRow;
  questions : list QuizQuestion
}.

(** An asynchronous operation on the database: it runs from a state of the
    tables to a value or a thrown error, and to the state it leaves.  A
    [throw] ends the operation where it stands: what was written before
    it stays written. *)
Definition M (A : Type) : Type := Db -> (Error + A) * Db.

Definition ret {A : Type} (a : A) : M A := fun db => (inr a, db).
Definition throw {A : Type} (err : Error) : M A := fun db => (inl err, db).
Definition bind {A B : Type} (m : M A) (k : A -> M B) : M B :=
  fun db =>
    match m db with
    | (inl err, db') => (inl err, db')
    | (inr a, db') => k a db'
    end.

Notation "x <- m ;; k" := (bind m (fun x => k))
  (at level 61, m at next level, right associativity).

(** *** The queries and writes of the ORM *)

(** [prisma.quiz.findFirst({ where: { id, isDeleted: false } })]. *)
Definition quiz_findFirst (id : string) : M (option QuizRow) :=
  fun db =>
    (inr (find (fun r => String.eqb (quiz_id r) id && negb (isDeleted r)) (quiz db)),
     db).

(** The [questions] relation of a quiz, [orderBy: { id: 'asc' }]. *)
Definition quizQuestion_findMany (quiz : string) : M (list QuizQuestion) :=
  fun db =>
    (inr (order_by (fun a b => String.leb (question_id a) (question_id b))
            (filter (fun q => String.eqb (quizId q) quiz) (quizQuestion db))),
     db).

(** [prisma.quizQuestion.findUnique({ where: { id } })]. *)
Definition quizQuestion_findUnique (id : string) : M (option QuizQuestion) :=
  fun db =>
    (inr (find (fun q => String.eqb (question_id q) id) (quizQuestion db)), db).

(** [prisma.quizQuestion.create]. *)
Definition quizQuestion_create (created : QuizQuestion) : M QuizQuestion :=
  fun db =>
    (inr created, mkDb (quiz db) (quizQuestion db ++ [created]) (quizAttempt db)).

(** The row with the given primary key, replaced. *)
Fixpoint update_where (id : string) (f : QuizQuestion -> QuizQuestion)
  (rows : list QuizQuestion) : list QuizQuestion :=
  match rows with
  | [] => []
  | q :: rest =>
      if String.eqb (question_id q) id then f q :: rest
      else q :: update_where id f rest
  end.

(** [prisma.quizQuestion.update({ where: { id }, data })], for a row that
    exists; [change] is the effect of [data], [updated] the row returned. *)
Definition quizQuestion_update (id : string)
  (change : QuizQuestion -> QuizQuestion) (updated : QuizQuestion)
  : M QuizQuestion :=
  fun db =>
    (inr updated,
     mkDb (quiz db) (update_where id change (quizQuestion db)) (quizAttempt db)).

(** [prisma.quizQuestion.delete({ where: { id } })], for a row that exists. *)
Definition quizQuestion_delete (id : string) (deleted : QuizQuestion)
  : M QuizQuestion :=
  fun db =>
    (inr deleted,
     mkDb (quiz db)
       (filter (fun q => negb (String.eqb (question_id q) id)) (quizQuestion db))
       (quizAttempt db)).

(** [prisma.quizAttempt.create] with its nested answer rows: one write. *)
Definition quizAttempt_create (created : QuizAttempt) : M QuizAttempt :=
  fun db =>
    (inr created, mkDb (quiz db) (quizQuestion db) (quizAttempt db ++ [created])).

(** *** The service *)

Definition getQuizById (id : string) (includeQuestions : bool) : M (option Quiz) :=
  found <- quiz_findFirst id ;;
  match found with
  | Some r =>
      if includeQuestions then
        qs <- quizQuestion_findMany (quiz_id r) ;;
        ret (Some (mkQuiz r qs))
      else ret (Some (mkQuiz r []))
  | None => ret None
  end.

(** The body of a question-creation request. *)
Record QuestionData : Type := mkQuestionData {
  d_question : string;
  d_options : list string;
  d_correctOptionIndex : Z;
  d_explanation : option string;
  d_points : Z
}.

(** [createQuizQuestion]; [id] is the identifier the datastore generates for
    the new row. *)
Definition createQuizQuestion (id : string) (quizId : string)
  (data : QuestionData) : M QuizQuestion :=
  found <- getQuizById quizId false ;;
  match found with
  | None => throw (ApiError "Quiz not found" 404 NoDetails)
  | Some _ =>
      if (d_correctOptionIndex data <? 0)
         || (Z.of_nat (List.length (d_options data)) <=? d_correctOptionIndex data)
      then throw (ApiError
        "Invalid correctOptionIndex, must be a valid index in the options array"
        400 NoDetails)
      else
        quizQuestion_create
          (mkQuizQuestion id quizId (d_question data) (d_options data)
             (d_correctOptionIndex data) (d_explanation data) (d_points data))
  end.

(** The body of a question update: every member is optional. *)
Record QuestionUpdate : Type := mkQuestionUpdate {
  u_question : option string;
  u_options : option (list string);
  u_correctOptionIndex : option Z;
  u_explanation : option string;
  u_points : option Z
}.

Definition or_keep {A : Type} (new : option A) (old : A) : A :=
  match new with Some a => a | None => old end.

(** The members present in [data] replace the stored ones. *)
Definition apply_update (data : QuestionUpdate) (q : QuizQuestion) : QuizQuestion :=
  mkQuizQuestion (question_id q) (quizId q)
    (or_keep (u_question data) (question q))
    (or_keep (u_options data) (options q))
    (or_keep (u_correctOptionIndex data) (correctOptionIndex q))
    (match u_explanation data with Some e => Some e | None => explanation q end)
    (or_keep (u_points data) (points q)).

(** The three-way check of [updateQuizQuestion]; [Some message] is the
    rejection.  An options array, even an empty one, counts as present. *)
Definition update_check (stored : QuizQuestion) (data : QuestionUpdate)
  : option string :=
  match u_options data, u_correctOptionIndex data with
  | Some opts, Some idx =>
      if (idx <? 0) || (Z.of_nat (List.length opts) <=? idx)
      then Some "Invalid correctOptionIndex, must be a valid index in the options array"
      else None
  | Some opts, None =>
      if Z.of_nat (List.length opts) <=? correctOptionIndex stored
      then Some "Updating options would make existing correctOptionIndex invalid"
      else None
  | None, Some idx =>
      if (idx <? 0) || (Z.of_nat (List.length (options stored)) <=? idx)
      then Some "Invalid correctOptionIndex for existing options"
      else None
  | None, None => None
  end.

Definition updateQuizQuestion (id : string) (data : QuestionUpdate)
  : M QuizQuestion :=
  found <- quizQuestion_findUnique id ;;
  match found with
  | None => throw (ApiError "Question not found" 404 NoDetails)
  | Some stored =>
      match update_check stored data with
      | Some msg => throw (ApiError msg 400 NoDetails)
      | None => quizQuestion_update id (apply_update data) (apply_update data stored)
      end
  end.

Definition deleteQuizQuestion (id : string) : M QuizQuestion :=
  found <- quizQuestion_findUnique id ;;
  match found with
  | None => throw (ApiError "Question not found" 404 NoDetails)
  | Some stored => quizQuestion_delete id stored
  end.

(** One turn of the loop of [calculateQuizScore]; the accumulator is
    [(totalPoints, earnedPoints)]. *)
Definition score_step (answers : list Answer) (acc : Z * Z) (q : QuizQuestion)
  : Z * Z :=
  let totalPoints := fst acc + points q in
  match find (fun a => String.eqb (questionId a) (question_id q)) answers with
  | Some answer =>
      if selectedOptionIndex answer =? correctOptionIndex q
      then (totalPoints, snd acc + points q)
      else (totalPoints, snd acc)
  | None => (totalPoints, snd acc)
  end.

Definition tally (qs : list QuizQuestion) (answers : list Answer) : Z * Z :=
  fold_left (score_step answers) qs (0, 0).

Definition totalPoints (q : Quiz) (answers : list Answer) : Z :=
  fst (tally (questions q) answers).

Definition earnedPoints (q : Quiz) (answers : list Answer) : Z :=
  snd (tally (questions q) answers).

(** [(earnedPoints / totalPoints) * 100], in doubles. *)
Definition percentage (earned total : Z) : spec_float :=
  mul (div (of_int earned) (of_int total)) (of_int 100).

(** [calculateQuizScore]: it touches no table. *)
Definition calculateQuizScore (q : Quiz) (answers : list Answer) : Z :=
  let '(total, earned) := tally (questions q) answers in
  if 0 <? total then Math_round (percentage earned total) else 0.

(** The answer rows of the nested create; reading [correctOptionIndex] of a
    question that [find] did not deliver is a [TypeError]. *)
Fixpoint answer_rows (qs : list QuizQuestion) (answers : list Answer)
  : option (list QuizAnswer) :=
  match answers with
  | [] => Some []
  | a :: rest =>
      match find (fun q => String.eqb (question_id q) (questionId a)) qs,
            answer_rows qs rest with
      | Some q, Some rows =>
          Some (mkQuizAnswer (questionId a) (selectedOptionIndex a)
                  (correctOptionIndex q =? selectedOptionIndex a) :: rows)
      | _, _ => None
      end
  end.

(** [submitQuizAttempt].  After the attempt is created the code only reads
    the learner's module progress, which changes nothing. *)
Definition submitQuizAttempt (quizId userId : string) (answers : list Answer)
  : M QuizAttempt :=
  found <- getQuizById quizId true ;;
  match found with
  | None => throw (ApiError "Quiz not found" 404 NoDetails)
  | Some q =>
      let questionIds := map question_id (questions q) in
      let answeredQuestionIds := map questionId answers in
      if negb (Nat.eqb (List.length questionIds) (List.length answeredQuestionIds)) then
        throw (ApiError "All questions must be answered" 400 NoDetails)
      else
        let invalidQuestionIds :=
          filter (fun id => negb (includes questionIds id)) answeredQuestionIds in
        if Nat.ltb 0 (List.length invalidQuestionIds) then
          throw (ApiError
            ("Invalid question IDs: " ++ join ", " invalidQuestionIds)%string
            400 NoDetails)
        else
          let score := calculateQuizScore q answers in
          let passed := passingScore (row q) <=? score in
          match answer_rows (questions q) answers with
          | None =>
              throw (OtherError "TypeError"
                "Cannot read properties of undefined (reading 'correctOptionIndex')")
          | Some rows =>
              quizAttempt_create (mkQuizAttempt userId quizId score passed rows)
          end
  end.

(** The ids among the answers that are not ids of the quiz. *)
Definition invalid_ids (q : Quiz) (answers : list Answer) : list string :=
  filter (fun id => negb (includes (map question_id (questions q)) id))
    (map questionId answers).

(** The databases that question operations can produce, starting without
    questions; other operations leave the question table as it is. *)
Inductive reachable : Db -> Prop :=
| reach_init : forall db, quizQuestion db = [] -> reachable db
| reach_create : forall db id quizId data created db',
    reachable db ->
    createQuizQuestion id quizId data db = (inr created, db') ->
    reachable db'
| reach_update : forall db id data updated db',
    reachable db ->
    updateQuizQuestion id data db = (inr updated, db') ->
    reachable db'
| reach_delete : forall db id deleted db',
    reachable db ->
    deleteQuizQuestion id db = (inr deleted, db') ->
    reachable db'
| reach_other : forall db db',
    reachable db ->
    quizQuestion db' = quizQuestion db ->
    reachable db'.

(** The bound on the stored index. *)
Definition index_in_bounds (q : QuizQuestion) : Prop :=
  0 <= correctOptionIndex q < Z.of_nat (List.length (options q)).

Definition bounded (db : Db) : Prop :=
  Forall index_in_bounds (quizQuestion db).

(** The spec's words for the two sums: a question is answered correctly
    when the answer given to it selects its correct option (the first such
    answer, should the submission repeat a question). *)
Definition correct (answers : list Answer) (q : QuizQuestion) : bool :=
  match find (fun a => String.eqb (questionId a) (question_id q)) answers with
  | Some answer => selectedOptionIndex answer =? correctOptionIndex q
  | None => false
  end.

Definition sum_points (qs : list QuizQuestion) : Z :=
  fold_right Z.add 0 (map points qs).

(** The spec's formula for the score: [100 * earned / total] rounded to the
    nearest integer, halves upwards, in exact arithmetic. *)
Definition round_half_up_percent (earned total : Z) : Z :=
  (200 * earned + total) / (2 * total).

End QuizService.

(** ** The module service: which modules are due *)

Module ModuleService.

Inductive ModuleStatus : Type :=
| DRAFT
| ACTIVE
| OtherStatus (name : string).

Definition is_ACTIVE (s : ModuleStatus) : bool :=
  match s with ACTIVE => true | _ => false end.

Record ModuleRow : Type := mkModuleRow {
  module_id : string;
  courseId : string;
  durationInDays : Z;
  status : ModuleStatus;
  order : Z;
  isDeleted : bool
}.

(** An enrollment as the service reads it. *)
Record Enrollment : Type := mkEnrollment {
  enrollment_id : string;
  userId : string;
  enrollment_courseId : string;
  enrollmentDate : Z;
  expiryDate : Z;
  isActive : bool
}.

Record Db : Type := mkDb {
  module : list ModuleRow;
  userCourseEnrollment : list Enrollment
}.

(** The [include] of the query in [getModulesToUnlock]: the modules of a
    course that are not deleted and ACTIVE, in ascending [order]. *)
Definition course_modules (db : Db) (course : string) : list ModuleRow :=
  order_by (fun a b => order a <=? order b)
    (filter (fun m => String.eqb (courseId m) course
                      && negb (isDeleted m) && is_ACTIVE (status m))
       (module db)).

(** The [findMany] of [getModulesToUnlock]: the enrollments with
    [isActive: true], each with the modules of its course. *)
Definition findMany_active (db : Db) : list (Enrollment * list ModuleRow) :=
  map (fun e => (e, course_modules db (enrollment_courseId e)))
    (filter isActive (userCourseEnrollment db)).

Definition MS_PER_DAY : Z := 86400000.

(** One element of the evaluator's result. *)
Record UnlockState : Type := mkUnlockState {
  unlock_module : ModuleRow;
  unlockedAt : Z;
  isUnlocked : bool
}.

(** Modelled from the spec: the body of the loop of [getModulesToUnlock] is
    missing from the source, which ends after the query.  Following the
    spec's unlock rule, a module's [unlockedAt] is the enrollment date plus
    [durationInDays] days, and it is unlocked when [now >= unlockedAt],
    provided the enrollment is active and not expired and the module is
    ACTIVE. *)
Definition unlock_state (now : Z) (enrollment : Enrollment) (m : ModuleRow)
  : UnlockState :=
  let unlockedAt := enrollmentDate enrollment + durationInDays m * MS_PER_DAY in
  mkUnlockState m unlockedAt
    (isActive enrollment
     && negb (expiryDate enrollment <? now)
     && is_ACTIVE (status m)
     && (unlockedAt <=? now)).

(** Modelled from the spec: the evaluator of section 4.1, over the modules
    in ascending [order]. *)
Definition computeUnlockedModules (now : Z) (enrollment : Enrollment)
  (modules : list ModuleRow) : list UnlockState :=
  map (unlock_state now enrollment)
    (order_by (fun a b => order a <=? order b) modules).

(** [getModulesToUnlock]: the query as the source has it, then, modelled
    from the spec, the unlocked modules of every enrollment it returns. *)
Definition getModulesToUnlock (now : Z) (db : Db)
  : list (Enrollment * UnlockState) :=
  flat_map
    (fun em => map (pair (fst em))
                 (filter isUnlocked (computeUnlockedModules now (fst em) (snd em))))
    (findMany_active db).

End ModuleService.

(** ** The enrollment table of the Prisma schema *)

Module Schema.
Import Http.

Inductive PaymentPlan : Type :=
| THREE_MONTH | SIX_MONTH | ONE_YEAR | SINGLE_MODULE.

(** [model UserCourseEnrollment]: a row names a user and a module. *)
Record UserCourseEnrollment : Type := mkUserCourseEnrollment {
  id : string;
  userId : string;
  moduleId : string;
  enrollmentDate : Z;
  expiryDate : Z;
  isActive : bool;
  paymentPlan : PaymentPlan;
  createdAt : Z;
  updatedAt : Z
}.

Definition Table : Type := list UserCourseEnrollment.


Definition same_key (a b : UserCourseEnrollment) : bool :=
  String.eqb (userId a) (userId b) && String.eqb (moduleId a) (moduleId b).

(** A row collides with a table on [@id] or on the unique pair. *)
Definition collides (t : Table) (r : UserCourseEnrollment) : bool :=
  existsb (fun x => String.eqb (id x) (id r) || same_key x r) t.

Definition P2002 : Error :=
  PrismaClientKnownRequestError "P2002" "Unique constraint failed" None.
Definition P2025 : Error :=
  PrismaClientKnownRequestError "P2025" "Record to update not found" None.

(** [prisma.userCourseEnrollment.create]. *)
Definition create (t : Table) (r : UserCourseEnrollment) : Error + Table :=
  if collides t r then inl P2002 else inr (t ++ [r]).

(** [prisma.userCourseEnrollment.update({ where: { id }, data })]; [change]
    is the effect of [data] on the stored row. *)
Definition update (t : Table) (i : string)
  (change : UserCourseEnrollment -> UserCourseEnrollment) : Error + Table :=
  match find (fun x => String.eqb (id x) i) t with
  | None => inl P2025
  | Some r =>
      if collides (filter (fun x => negb (String.eqb (id x) i)) t) (change r)
      then inl P2002
      else inr (map (fun x => if String.eqb (id x) i then change r else x) t)
  end.

(** [prisma.userCourseEnrollment.delete({ where: { id } })]. *)
Definition delete (t : Table) (i : string) : Error + Table :=
  match find (fun x => String.eqb (id x) i) t with
  | None => inl P2025
  | Some _ => inr (filter (fun x => negb (String.eqb (id x) i)) t)
  end.


(** The tables that writes accepted by the datastore produce from the empty
    table. *)
Inductive reachable : Table -> Prop :=
| from_empty : reachable []
| from_create : forall t r t',
    reachable t -> create t r = inr t' -> reachable t'
| from_update : forall t i change t',
    reachable t -> update t i change = inr t' -> reachable t'
| from_delete : forall t i t',
    reachable t -> delete t i = inr t' -> reachable t'.

End Schema.

(** ** Sample data for the scenarios *)

Module Scenario.
Import QuizService.

Definition two_options : list string := ["yes"; "no"].

Definition mk_question (id quiz : string) (pts : Z) : QuizQuestion :=
  mkQuizQuestion id quiz "?" two_options 0 None pts.

(** A quiz of two questions worth 5 points each, passing score 50. *)
Definition db_5_5 : Db :=
  mkDb [mkQuizRow "quiz-1" "module-1" 50 false]
       [mk_question "q1" "quiz-1" 5; mk_question "q2" "quiz-1" 5]
       [].

(** A quiz of two questions worth 23 and 17 points, passing score 58. *)
Definition db_23_17 : Db :=
  mkDb [mkQuizRow "quiz-1" "module-1" 58 false]
       [mk_question "q1" "quiz-1" 23; mk_question "q2" "quiz-1" 17]
       [].

Definition quiz_23_17 : Quiz :=
  mkQuiz (mkQuizRow "quiz-1" "module-1" 58 false)
         [mk_question "q1" "quiz-1" 23; mk_question "q2" "quiz-1" 17].

(** The first question right, the second wrong. *)
Definition first_only : list Answer := [mkAnswer "q1" 0; mkAnswer "q2" 1].

(** A quiz of four questions of one point each, passing score 50. *)
Definition db_four : Db :=
  mkDb [mkQuizRow "quiz-1" "module-1" 50 false]
       [mk_question "q1" "quiz-1" 1; mk_question "q2" "quiz-1" 1;
        mk_question "q3" "quiz-1" 1; mk_question "q4" "quiz-1" 1]
       [].

(** Answers to three of the four questions: "q4" is missing. *)
Definition three_of_four : list Answer :=
  [mkAnswer "q1" 0; mkAnswer "q2" 0; mkAnswer "q3" 0].

(** Four answers, the first question answered twice and "q4" not at all. *)
Definition q1_twice : list Answer :=
  [mkAnswer "q1" 0; mkAnswer "q1" 0; mkAnswer "q2" 0; mkAnswer "q3" 0].

(** Four answers, one of them to a question of another quiz. *)
Definition one_foreign : list Answer :=
  [mkAnswer "q1" 0; mkAnswer "q2" 0; mkAnswer "q3" 0; mkAnswer "q9" 0].

(** A new question whose correct index, 5, lies outside its two options. *)
Definition index_5_of_2 : QuestionData :=
  mkQuestionData "?" two_options 5 None 1.

End Scenario.

Module UnlockScenario.
Import ModuleService.

(** An enrollment that starts at day 0 and runs for a year. *)
Definition enrolled_day_0 : Enrollment :=
  mkEnrollment "e1" "u1" "course-1" 0 (365 * MS_PER_DAY) true.

(** The same enrollment, deactivated. *)
Definition deactivated : Enrollment :=
  mkEnrollment "e1" "u1" "course-1" 0 (365 * MS_PER_DAY) false.

(** An ACTIVE module that unlocks after 7 days, and a DRAFT one. *)
Definition week_one : ModuleRow :=
  mkModuleRow "m1" "course-1" 7 ACTIVE 1 false.
Definition draft : ModuleRow :=
  mkModuleRow "m2" "course-1" 7 DRAFT 2 false.

Definition day (n : Z) : Z := n * MS_PER_DAY.

End UnlockScenario.

Module EnrollmentScenario.
Import Schema.

Definition first_enrollment : UserCourseEnrollment :=
  mkUserCourseEnrollment "e1" "u1" "m1" 0 100 true THREE_MONTH 0 0.

(** A second active enrollment of the same user in the same module. *)
Definition second_enrollment : UserCourseEnrollment :=
  mkUserCourseEnrollment "e2" "u1" "m1" 50 200 true ONE_YEAR 50 50.

End EnrollmentScenario.

Module CourseScenario.
Import ModuleService Schema.





End CourseScenario.

Module PointsScenario.
Import QuizService.





End PointsScenario.

Module ErrorScenario.
Import Http.

(** What registration throws for an email that is in use. *)
Definition duplicate_email : Error :=
  ApiError "User with this email already exists" 400 NoDetails.

End ErrorScenario.

(** ** Pagination ([utils/pagination]) *)

Module Pagination.
Import JsNumber.
Import QArith Qround.
Local Open Scope Z_scope.

Definition DEFAULT_PAGE : Z := 1.
Definition DEFAULT_LIMIT : Z := 10.
Definition MAX_LIMIT : Z := 100.

(** The pagination members of a request.  A member is a [number] that may
    be missing: [None] stands for [undefined] and for NaN, which the code
    treats alike, both being falsy and not above 0; [Some q] is a finite
    number, whole or not. *)
Record Options : Type := mkOptions {
  o_page : option Q;
  o_limit : option Q
}.

Record PaginationOptions : Type := mkPaginationOptions {
  page : Z;
  limit : Z
}.

(** [x && x > 0 ? Math.floor(x) : fallback]. *)
Definition floor_if_positive (x : option Q) (fallback : Z) : Z :=
  match x with
  | Some q => if Qle_bool q 0 then fallback else Qfloor q
  | None => fallback
  end.

Definition normalizePaginationOptions (options : Options) : PaginationOptions :=
  let page := floor_if_positive (o_page options) DEFAULT_PAGE in
  let limit := floor_if_positive (o_limit options) DEFAULT_LIMIT in
  let limit := Z.min limit MAX_LIMIT in
  mkPaginationOptions page limit.

(** [getPrismaSkipTake].  The product is that of the integers as long as it
    stays below 2^53 in magnitude, which it does for every page below 2^46,
    the limit being at most 100; beyond, the doubles round. *)
Definition getPrismaSkipTake (options : PaginationOptions) : Z * Z :=
  let skip := (page options - 1) * limit options in
  (skip, limit options).

(** [Math.ceil] as it appears in a JSON response: the least integer not
    below [x]; NaN and the infinities are serialised as [null], here
    [None]. *)
Definition Math_ceil (x : spec_float) : option Z :=
  match x with
  | S754_zero _ => Some 0
  | S754_finite s m e =>
      let v := if s then Z.neg m else Z.pos m in
      Some (if 0 <=? e then v * 2 ^ e else - ((- v) / 2 ^ (- e)))
  | _ => None
  end.

Record PaginatedResponse (T : Type) : Type := mkPaginatedResponse {
  data : list T;
  total : Z;
  response_page : Z;
  response_limit : Z;
  pages : option Z
}.
Arguments mkPaginatedResponse {T}.
Arguments data {T}.
Arguments total {T}.
Arguments response_page {T}.
Arguments response_limit {T}.
Arguments pages {T}.

(** [createPaginatedResponse]: [pages] is [Math.ceil(total / limit)], the
    quotient being a division of doubles. *)
Definition createPaginatedResponse {T : Type} (data : list T) (total : Z)
  (options : PaginationOptions) : PaginatedResponse T :=
  mkPaginatedResponse data total (page options) (limit options)
    (Math_ceil (div (of_int total) (of_int (limit options)))).

End Pagination.

(** ** The quiz service, continued: deletion and listings *)

Module QuizQueries.
Import Http JsNumber QuizService Pagination.

(** [prisma.quiz.update({ where: { id }, data })]: the row with the primary
    key [id] is replaced; the ORM raises P2025 when there is none. *)
Fixpoint replace_quiz (id : string) (change : QuizRow -> QuizRow)
  (rows : list QuizRow) : list QuizRow :=
  match rows with
  | [] => []
  | r :: rest =>
      if String.eqb (quiz_id r) id then change r :: rest
      else r :: replace_quiz id change rest
  end.

Definition quiz_update (id : string) (change : QuizRow -> QuizRow) : M QuizRow :=
  fun db =>
    match find (fun r => String.eqb (quiz_id r) id) (quiz db) with
    | None => (inl Schema.P2025, db)
    | Some r =>
        (inr (change r),
         mkDb (replace_quiz id change (quiz db)) (quizQuestion db) (quizAttempt db))
    end.

(** The [data] of a soft delete, on the columns the rows carry. *)
Definition mark_deleted (r : QuizRow) : QuizRow :=
  mkQuizRow (quiz_id r) (quiz_moduleId r) (passingScore r) true.

(** [deleteQuiz]. *)
Definition deleteQuiz (id : string) : M QuizRow :=
  found <- getQuizById id false ;;
  match found with
  | None => throw (ApiError "Quiz not found" 404 NoDetails)
  | Some _ => quiz_update id mark_deleted
  end.

(** [getQuizQuestions]. *)
Definition getQuizQuestions (quizId : string) : M (list QuizQuestion) :=
  found <- getQuizById quizId false ;;
  match found with
  | None => throw (ApiError "Quiz not found" 404 NoDetails)
  | Some _ => quizQuestion_findMany quizId
  end.

(** The query of [getQuizAttempts]. *)
Record GetQuizAttemptsQuery : Type := mkGetQuizAttemptsQuery {
  query_userId : option string;
  query_passed : option bool;
  query_page : option QArith_base.Q;
  query_limit : option QArith_base.Q
}.

(** The [where] of [getQuizAttempts]: the quiz, the learner when [userId]
    is a string that is not empty, the outcome when [passed] is given. *)
Definition attempt_matches (quizId : string) (params : GetQuizAttemptsQuery)
  (a : QuizAttempt) : bool :=
  String.eqb (attempt_quizId a) quizId
  && match query_userId params with
     | Some u =>
         if String.eqb u EmptyString then true
         else String.eqb (attempt_userId a) u
     | None => true
     end
  && match query_passed params with
     | Some p => Bool.eqb (passed a) p
     | None => true
     end.

Section Datastore.

(** The order that [orderBy: { attemptedAt: 'desc' }] gives to the rows it
    is handed; the timestamps are the datastore's own. *)
Variable newest_first : list QuizAttempt -> list QuizAttempt.

(** The error with which the ORM refuses a negative [skip]. *)
Variable negative_skip : Error.

(** [prisma.quizAttempt.count({ where })]. *)
Definition quizAttempt_count (where_ : QuizAttempt -> bool) : M Z :=
  fun db => (inr (Z.of_nat (List.length (filter where_ (quizAttempt db)))), db).

(** [prisma.quizAttempt.findMany({ where, skip, take, orderBy })]. *)
Definition quizAttempt_findMany (where_ : QuizAttempt -> bool) (skip take : Z)
  : M (list QuizAttempt) :=
  fun db =>
    if skip <? 0 then (inl negative_skip, db)
    else
      (inr (firstn (Z.to_nat take)
              (skipn (Z.to_nat skip)
                 (newest_first (filter where_ (quizAttempt db))))),
       db).

(** [getQuizAttempts]. *)
Definition getQuizAttempts (quizId : string) (params : GetQuizAttemptsQuery)
  : M (PaginatedResponse QuizAttempt) :=
  found <- getQuizById quizId false ;;
  match found with
  | None => throw (ApiError "Quiz not found" 404 NoDetails)
  | Some _ =>
      let paginationOptions :=
        normalizePaginationOptions
          (mkOptions (query_page params) (query_limit params)) in
      let '(skip, take) := getPrismaSkipTake paginationOptions in
      let where_ := attempt_matches quizId params in
      total <- quizAttempt_count where_ ;;
      attempts <- quizAttempt_findMany where_ skip take ;;
      ret (createPaginatedResponse attempts total paginationOptions)
  end.


End Datastore.

End QuizQueries.

(** ** The module service, continued: status, deletion, notifications *)

Module ModuleAdmin.
Import Http ModuleService.

Record Content : Type := mkContent {
  content_id : string;
  content_moduleId : string;
  content_isDeleted : bool
}.

(** A row of [prisma.notification]. *)
Record Notification : Type := mkNotification {
  notification_userId : string;
  notification_type : string;
  notification_title : string;
  notification_message : string;
  linkUrl : string;
  isRead : bool
}.

(** The tables these operations touch: those of [ModuleService], the
    contents, the quizzes and the notifications. *)
Record Db : Type := mkDb {
  core : ModuleService.Db;
  content : list Content;
  quiz : list QuizService.QuizRow;
  notification : list Notification
}.

Definition M (A : Type) : Type := Db -> (Error + A) * Db.

Definition ret {A : Type} (a : A) : M A := fun db => (inr a, db).
Definition throw {A : Type} (err : Error) : M A := fun db => (inl err, db).
Definition bind {A B : Type} (m : M A) (k : A -> M B) : M B :=
  fun db =>
    match m db with
    | (inl err, db') => (inl err, db')
    | (inr a, db') => k a db'
    end.

(** [try { await m } catch (error) { handler }], the handler only logging:
    the outcome is kept, an error becomes [None]. *)
Definition try_catch {A : Type} (m : M A) : M (option A) :=
  fun db =>
    match m db with
    | (inl _, db') => (inr None, db')
    | (inr a, db') => (inr (Some a), db')
    end.

Notation "x <~ m ;; k" := (bind m (fun x => k))
  (at level 61, m at next level, right associativity).

(** [getModuleById]: the module with this id that is not deleted. *)
Definition getModuleById (id : string) : M (option ModuleRow) :=
  fun db =>
    (inr (find (fun m => String.eqb (module_id m) id && negb (isDeleted m))
            (module (core db))),
     db).

Fixpoint replace_module (id : string) (change : ModuleRow -> ModuleRow)
  (rows : list ModuleRow) : list ModuleRow :=
  match rows with
  | [] => []
  | m :: rest =>
      if String.eqb (module_id m) id then change m :: rest
      else m :: replace_module id change rest
  end.

(** [prisma.module.update({ where: { id }, data })]: P2025 without a row of
    this id. *)
Definition module_update (id : string) (change : ModuleRow -> ModuleRow)
  : M ModuleRow :=
  fun db =>
    match find (fun m => String.eqb (module_id m) id) (module (core db)) with
    | None => (inl Schema.P2025, db)
    | Some m =>
        (inr (change m),
         mkDb (ModuleService.mkDb (replace_module id change (module (core db)))
                 (userCourseEnrollment (core db)))
              (content db) (quiz db) (notification db))
    end.

Definition set_status (s : ModuleStatus) (m : ModuleRow) : ModuleRow :=
  mkModuleRow (module_id m) (courseId m) (durationInDays m) s (order m)
    (isDeleted m).

Definition set_deleted (m : ModuleRow) : ModuleRow :=
  mkModuleRow (module_id m) (courseId m) (durationInDays m) (status m)
    (order m) true.

(** [deleteModule]: a soft delete, without a look at the module first. *)
Definition deleteModule (id : string) : M unit :=
  _ <~ module_update id set_deleted ;; ret tt.

Definition contentCount (moduleId : string) (db : Db) : nat :=
  List.length
    (filter (fun c => String.eqb (content_moduleId c) moduleId
                      && negb (content_isDeleted c)) (content db)).

Definition quizCount (moduleId : string) (db : Db) : nat :=
  List.length
    (filter (fun q => String.eqb (QuizService.quiz_moduleId q) moduleId
                      && negb (QuizService.isDeleted q)) (quiz db)).

(** [isReadyToActivate]: [{ ready, reason }]. *)
Definition isReadyToActivate (moduleId : string) : M (bool * option string) :=
  fun db =>
    (inr (if Nat.eqb (contentCount moduleId db) 0
             && Nat.eqb (quizCount moduleId db) 0
          then (false, Some "Module must have at least one content item or quiz")
          else (true, None)),
     db).

Definition status_eqb (a b : ModuleStatus) : bool :=
  match a, b with
  | DRAFT, DRAFT => true
  | ACTIVE, ACTIVE => true
  | OtherStatus x, OtherStatus y => String.eqb x y
  | _, _ => false
  end.

(** [`${reason}`] of a reason that may be [undefined]. *)
Definition reason_text (reason : option string) : string :=
  match reason with Some r => r | None => "undefined" end.

(** [updateStatus]. *)
Definition updateStatus (id : string) (status' : ModuleStatus) : M ModuleRow :=
  existing <~ getModuleById id ;;
  match existing with
  | None => throw (ApiError "Module not found" 404 NoDetails)
  | Some existingModule =>
      _ <~ (if status_eqb status' ACTIVE
               && negb (status_eqb (status existingModule) ACTIVE)
            then
              readyCheck <~ isReadyToActivate id ;;
              if negb (fst readyCheck) then
                throw (ApiError
                  ("Module not ready to be activated: "
                   ++ reason_text (snd readyCheck))%string 400 NoDetails)
              else ret tt
            else ret tt) ;;
      module_update id (set_status status')
  end.

Section Notifications.

(** The titles of the module and of its course, which the rows here do not
    carry. *)
Variable module_title : string -> string.
Variable course_title : string -> string.

(** Whether the datastore refuses to create a notification, and with which
    error. *)
Variable refused : Notification -> option Error.

(** [NotificationService.sendNotification] for a notification of a valid
    type: the row is created unread, unless the datastore refuses it. *)
Definition sendNotification (n : Notification) : M Notification :=
  fun db =>
    match refused n with
    | Some err => (inl err, db)
    | None =>
        (inr n, mkDb (core db) (content db) (quiz db) (notification db ++ [n]))
    end.

(** The double quote of the message template. *)
Definition quote : string := String (ascii_of_nat 34) EmptyString.

(** [NotificationService.sendModuleUnlockNotification]. *)
Definition sendModuleUnlockNotification (user : string) (m : ModuleRow)
  : M Notification :=
  sendNotification
    (mkNotification user "CONTENT_UNLOCK" "New Module Unlocked"
       ("The module " ++ quote ++ module_title (module_id m) ++ quote
        ++ " in course " ++ quote ++ course_title (courseId m) ++ quote
        ++ " is now available.")%string
       ("/courses/" ++ courseId m ++ "/modules/" ++ module_id m)%string
       false).

(** The loop of [sendModuleUnlockNotifications]: a failed notification is
    logged and the loop goes on. *)
Fixpoint notify_all (m : ModuleRow) (enrollments : list Enrollment)
  (notificationCount : Z) : M Z :=
  match enrollments with
  | [] => ret notificationCount
  | enrollment :: rest =>
      sent <~ try_catch (sendModuleUnlockNotification (userId enrollment) m) ;;
      notify_all m rest
        (match sent with
         | Some _ => notificationCount + 1
         | None => notificationCount
         end)
  end.

(** The enrollments [sendModuleUnlockNotifications] reads: the active ones
    of the module's course. *)
Definition active_enrollments (course : string) (db : Db) : list Enrollment :=
  filter (fun e => String.eqb (enrollment_courseId e) course && isActive e)
    (userCourseEnrollment (core db)).

(** [sendModuleUnlockNotifications]. *)
Definition sendModuleUnlockNotifications (moduleId : string) : M Z :=
  found <~ getModuleById moduleId ;;
  match found with
  | None => throw (ApiError "Module not found" 404 NoDetails)
  | Some m =>
      fun db => notify_all m (active_enrollments (courseId m) db) 0 db
  end.

(** The controller [updateModuleStatus], up to the module it answers with:
    the status is updated, then, for ACTIVE, the notifications are sent,
    their failure being logged only. *)
Definition updateModuleStatus (id : string) (status' : ModuleStatus)
  : M ModuleRow :=
  updatedModule <~ updateStatus id status' ;;
  _ <~ (if status_eqb status' ACTIVE
        then try_catch (sendModuleUnlockNotifications id)
        else ret None) ;;
  ret updatedModule.

End Notifications.

End ModuleAdmin.

(** ** Proof steps *)

(** Reads a failed test [(i <? 0) || (n <=? i)] as the two bounds on [i]. *)
Ltac within_bounds E :=
  apply orb_false_iff in E;
  let E1 := fresh "Elo" in
  let E2 := fresh "Ehi" in
  destruct E as [E1 E2]; apply Z.ltb_ge in E1; apply Z.leb_gt in E2.

(* ===================================================================== *)
(** * Part II: properties                                                 *)
(* ===================================================================== *)

(** ** Rounding of doubles *)

Import JsNumber.

(** *** The number of binary digits *)

Section Digits.

(** [digits2_pos] is the size of a positive number, one more than its
    binary logarithm. *)
Lemma digits2_pos_size (p : positive) : digits2_pos p = Pos.size p.
Proof. induction p; simpl; congruence. Qed.

Lemma Zdigits2_log2 (m : Z) : 0 < m -> Zdigits2 m = Z.log2 m + 1.
Proof.
  destruct m as [|p|p]; try lia. intros _. simpl Zdigits2.
  rewrite digits2_pos_size.
  destruct p; simpl; rewrite ?Pos2Z.inj_succ; lia.
Qed.

Lemma Zdigits2_bounds (m : Z) :
  0 < m -> 2 ^ (Zdigits2 m - 1) <= m < 2 ^ Zdigits2 m.
Proof.
  intros Hm. rewrite (Zdigits2_log2 m Hm).
  replace (Z.log2 m + 1 - 1) with (Z.log2 m) by lia.
  pose proof (Z.log2_spec m Hm). unfold Z.succ in *. lia.
Qed.

Lemma Zdigits2_nonneg (m : Z) : 0 <= Zdigits2 m.
Proof. destruct m; simpl; lia. Qed.

Lemma Zdigits2_le (m j : Z) : 0 <= m < 2 ^ j -> 0 <= j -> Zdigits2 m <= j.
Proof.
  intros [Hm Hlt] Hj.
  destruct (Z.eq_dec m 0) as [->|Hne]; [simpl; lia|].
  assert (Hpos : 0 < m) by lia.
  pose proof (Zdigits2_bounds m Hpos) as [Hlo _].
  assert (2 ^ (Zdigits2 m - 1) < 2 ^ j) by lia.
  apply Z.pow_lt_mono_r_iff in H; lia.
Qed.

End Digits.

(** *** Shifting a mantissa to the right *)

Section Shift.

(** One step halves the mantissa; an exact record with an even mantissa
    stays exact. *)
Lemma shifted_1 (a : shr_record) : shifted 1 a (shr_1 a).
Proof.
  destruct a as [m r s]. unfold shifted. simpl shr_m. simpl shr_r. simpl shr_s.
  intros Hm. change (2 ^ 1) with 2.
  destruct m as [|[p|p|]|p]; try lia; cbn [shr_1 shr_m shr_r shr_s].
  - split; [reflexivity|]. intros -> ->. auto.
  - split.
    + rewrite Pos2Z.inj_xI. apply Z.div_unique with (r := 1); lia.
    + intros _ _ H. rewrite Pos2Z.inj_xI in H.
      rewrite Z.add_comm, Z.mul_comm, Z.mod_add in H by lia. discriminate.
  - split.
    + rewrite Pos2Z.inj_xO. apply Z.div_unique with (r := 0); lia.
    + intros -> ->. auto.
  - split; [reflexivity|]. intros _ _ H. discriminate.
Qed.

Lemma shifted_trans (n k : Z) (a b c : shr_record) :
  0 <= n -> 0 <= k ->
  shifted n a b -> shifted k b c -> shifted (n + k) a c.
Proof.
  unfold shifted. intros Hn Hk Hab Hbc Ha.
  destruct (Hab Ha) as [Hb Hexact].
  assert (Hb0 : 0 <= shr_m b).
  { rewrite Hb. apply Z.div_pos; [lia | apply Z.pow_pos_nonneg; lia]. }
  destruct (Hbc Hb0) as [Hc Hexact'].
  assert (Hpn : 0 < 2 ^ n) by (apply Z.pow_pos_nonneg; lia).
  assert (Hpk : 0 < 2 ^ k) by (apply Z.pow_pos_nonneg; lia).
  split.
  - rewrite Hc, Hb, Z.pow_add_r, Z.div_div by lia. reflexivity.
  - intros Hr Hs Hmod.
    rewrite Z.pow_add_r in Hmod by lia.
    rewrite Z.rem_mul_r in Hmod by lia.
    pose proof (Z.mod_pos_bound (shr_m a) (2 ^ n) Hpn).
    pose proof (Z.mod_pos_bound (shr_m a / 2 ^ n) (2 ^ k) Hpk).
    assert (shr_m a mod 2 ^ n = 0) by nia.
    assert ((shr_m a / 2 ^ n) mod 2 ^ k = 0) by nia.
    destruct (Hexact Hr Hs) as [Hr' Hs']; [assumption|].
    apply Hexact'; [assumption | assumption | rewrite Hb; assumption].
Qed.

Lemma shifted_iter (p : positive) :
  forall a, shifted (Z.pos p) a (iter_pos shr_1 p a).
Proof.
  induction p as [p IH|p IH|]; intros a; cbn [iter_pos].
  - replace (Z.pos p~1) with (1 + (Z.pos p + Z.pos p)) by lia.
    apply shifted_trans with (b := shr_1 a); try lia; [apply shifted_1|].
    apply shifted_trans with (b := iter_pos shr_1 p (shr_1 a)); try lia; apply IH.
  - replace (Z.pos p~0) with (Z.pos p + Z.pos p) by lia.
    apply shifted_trans with (b := iter_pos shr_1 p a); try lia; apply IH.
  - apply shifted_1.
Qed.

End Shift.

(** *** Shifting to the exponent of the format *)

Section Rounding.

Lemma location_eq_dec (l : location) : {l = loc_Exact} + {l <> loc_Exact}.
Proof. destruct l; [left; reflexivity | right; discriminate]. Qed.

Lemma shr_m_of_loc (m : Z) (l : location) : shr_m (shr_record_of_loc m l) = m.
Proof. destruct l as [|[]]; reflexivity. Qed.

Lemma loc_of_shr_of_loc (m : Z) (l : location) :
  loc_of_shr_record (shr_record_of_loc m l) = l.
Proof. destruct l as [|[]]; reflexivity. Qed.

Lemma loc_exact_bits (mrs : shr_record) :
  shr_r mrs = false -> shr_s mrs = false -> loc_of_shr_record mrs = loc_Exact.
Proof. destruct mrs as [m r s]; simpl; intros -> ->; reflexivity. Qed.

Lemma of_loc_exact_bits (m : Z) (l : location) :
  l = loc_Exact ->
  shr_r (shr_record_of_loc m l) = false /\ shr_s (shr_record_of_loc m l) = false.
Proof. intros ->; split; reflexivity. Qed.

Lemma fexp_eq (e : Z) : fexp prec emax e = Z.max (e - 53) (-1074).
Proof. reflexivity. Qed.

(** Shifting to the exponent of the format keeps a mantissa under a
    representable bound, strictly so when bits were lost. *)
Lemma shr_fexp_le (m e : Z) (l : location) (c kB : Z) :
  representable c kB -> e <= kB -> 0 <= m ->
  m <= c * 2 ^ (kB - e) ->
  (l <> loc_Exact -> m < c * 2 ^ (kB - e)) ->
  exists mrs' e',
    shr_fexp prec emax m e l = (mrs', e') /\
    e <= e' <= kB /\
    0 <= shr_m mrs' <= c * 2 ^ (kB - e') /\
    (loc_of_shr_record mrs' <> loc_Exact -> shr_m mrs' < c * 2 ^ (kB - e')).
Proof.
  intros [[Hc0 Hc] [HkB HkB']] He Hm Hle Hlt.
  unfold shr_fexp, shr. rewrite fexp_eq.
  set (n := Z.max (Zdigits2 m + e - 53) (-1074) - e).
  assert (Hpow : 0 < 2 ^ (kB - e)) by (apply Z.pow_pos_nonneg; lia).
  assert (Hn : n <= kB - e).
  { assert (Hd : Zdigits2 m <= 53 + (kB - e)).
    { apply Zdigits2_le; [|lia]. split; [assumption|].
      rewrite Z.pow_add_r by lia. nia. }
    unfold n. lia. }
  destruct n as [|p|p] eqn:En.
  - exists (shr_record_of_loc m l), e.
    rewrite shr_m_of_loc, loc_of_shr_of_loc. repeat split; try lia; assumption.
  - exists (iter_pos shr_1 p (shr_record_of_loc m l)), (e + Z.pos p).
    pose proof (shifted_iter p (shr_record_of_loc m l)) as Hsh.
    unfold shifted in Hsh. rewrite shr_m_of_loc in Hsh.
    destruct (Hsh Hm) as [Hq Hexact]. clear Hsh.
    set (C := c * 2 ^ (kB - (e + Z.pos p))).
    assert (Hp2 : 0 < 2 ^ Z.pos p) by (apply Z.pow_pos_nonneg; lia).
    assert (HC : c * 2 ^ (kB - e) = C * 2 ^ Z.pos p).
    { unfold C. rewrite <- Z.mul_assoc, <- Z.pow_add_r by lia.
      f_equal. f_equal. lia. }
    rewrite HC in Hle, Hlt.
    assert (Hq0 : 0 <= m / 2 ^ Z.pos p) by (apply Z.div_pos; lia).
    assert (HqC : m / 2 ^ Z.pos p <= C).
    { apply Z.div_le_upper_bound; lia. }
    split; [reflexivity|]. split; [lia|]. rewrite Hq. split; [lia|].
    intros Hloc.
    apply Z.div_lt_upper_bound; [lia|]. rewrite Z.mul_comm.
    destruct (location_eq_dec l) as [Hl|Hl]; [|auto].
    destruct (Z.eq_dec (m mod 2 ^ Z.pos p) 0) as [Hmod|Hmod].
    + exfalso. apply Hloc.
      destruct (of_loc_exact_bits m l Hl) as [Hr Hs].
      destruct (Hexact Hr Hs Hmod) as [Hr' Hs'].
      apply loc_exact_bits; assumption.
    + assert (m <> C * 2 ^ Z.pos p).
      { intros Heq. apply Hmod. rewrite Heq. apply Z.mod_mul. lia. }
      lia.
  - exists (shr_record_of_loc m l), e.
    rewrite shr_m_of_loc, loc_of_shr_of_loc. repeat split; try lia; assumption.
Qed.

End Rounding.

(** *** Rounding to nearest stays below a double *)

Section RoundAux.

Lemma round_nearest_even_le (m C : Z) (l : location) :
  0 <= m -> m <= C -> (l <> loc_Exact -> m < C) ->
  0 <= round_nearest_even m l <= C.
Proof.
  intros Hm Hle Hlt. destruct l as [|[]]; cbn [round_nearest_even].
  - lia.
  - assert (m < C) by (apply Hlt; discriminate).
    destruct (Z.even m); lia.
  - lia.
  - assert (m < C) by (apply Hlt; discriminate). lia.
Qed.

(** Rounding to nearest never crosses a double: what lies at or below a
    representable bound is rounded to a double at or below it. *)
Lemma binary_round_aux_le (mx ex : Z) (lx : location) (c kB : Z) :
  representable c kB -> ex <= kB -> 0 <= mx ->
  mx <= c * 2 ^ (kB - ex) ->
  (lx <> loc_Exact -> mx < c * 2 ^ (kB - ex)) ->
  SF_le (binary_round_aux prec emax false mx ex lx) c kB.
Proof.
  intros Hrep Hex Hmx Hle Hlt. unfold binary_round_aux.
  destruct (shr_fexp_le mx ex lx c kB Hrep Hex Hmx Hle Hlt)
    as (mrs' & e' & -> & He' & Hm' & Hlt').
  pose proof (round_nearest_even_le (shr_m mrs') (c * 2 ^ (kB - e'))
                (loc_of_shr_record mrs') (proj1 Hm') (proj2 Hm') Hlt') as Hr.
  destruct (shr_fexp_le (round_nearest_even (shr_m mrs') (loc_of_shr_record mrs'))
              e' loc_Exact c kB Hrep (proj2 He') (proj1 Hr) (proj2 Hr))
    as (mrs'' & e'' & -> & He'' & Hm'' & _); [congruence|].
  destruct (shr_m mrs'') as [|m|m] eqn:Em.
  - exact I.
  - destruct Hrep as [_ [_ HkB]].
    replace (e'' <=? emax - prec) with true
      by (symmetry; apply Z.leb_le; unfold emax, prec; lia).
    simpl. lia.
  - lia.
Qed.

End RoundAux.

(** *** Integers as doubles *)

Section Integers.

Lemma iter_xO_pow (p k : positive) :
  Z.pos (Pos.iter xO p k) = Z.pos p * 2 ^ Z.pos k.
Proof.
  induction k as [|k IH] using Pos.peano_ind.
  - simpl. lia.
  - rewrite Pos.iter_succ, Pos2Z.inj_xO, IH, Pos2Z.inj_succ, Z.pow_succ_r by lia.
    lia.
Qed.

Lemma Zdigits2_mul_pow2 (m k : Z) :
  0 < m -> 0 <= k -> Zdigits2 (m * 2 ^ k) = Zdigits2 m + k.
Proof.
  intros Hm Hk.
  assert (0 < 2 ^ k) by (apply Z.pow_pos_nonneg; lia).
  rewrite !Zdigits2_log2 by nia.
  rewrite Z.log2_mul_pow2 by lia. lia.
Qed.

(** A mantissa of full width at an exponent of the format is already
    rounded. *)
Lemma binary_round_aux_canonical (m : positive) (e : Z) :
  Zdigits2 (Z.pos m) = 53 -> -1074 <= e <= 971 ->
  binary_round_aux prec emax false (Z.pos m) e loc_Exact = S754_finite false m e.
Proof.
  intros Hd He. unfold binary_round_aux, shr_fexp. rewrite fexp_eq, Hd.
  replace (Z.max (53 + e - 53) (-1074) - e) with 0 by lia.
  cbn [shr shr_record_of_loc shr_m loc_of_shr_record round_nearest_even].
  unfold shr_fexp. rewrite fexp_eq, Hd.
  replace (Z.max (53 + e - 53) (-1074) - e) with 0 by lia.
  cbn [shr shr_record_of_loc shr_m].
  replace (e <=? emax - prec) with true
    by (symmetry; apply Z.leb_le; unfold emax, prec; lia).
  reflexivity.
Qed.

(** The double of a positive integer below 2^53 holds that integer: its
    mantissa is the integer shifted to full width. *)
Lemma of_int_spec (z : Z) :
  0 < z < 2 ^ 53 ->
  exists m e,
    of_int z = S754_finite false m e /\
    -52 <= e <= 0 /\
    Z.pos m = z * 2 ^ (- e) /\
    Zdigits2 (Z.pos m) = 53.
Proof.
  intros [Hz Hlt]. destruct z as [|p|p]; try lia.
  assert (Hd1 : 1 <= Zdigits2 (Z.pos p)).
  { rewrite Zdigits2_log2 by lia. pose proof (Z.log2_nonneg (Z.pos p)). lia. }
  assert (Hd2 : Zdigits2 (Z.pos p) <= 53) by (apply Zdigits2_le; lia).
  unfold of_int, binary_normalize, binary_round, shl_align.
  rewrite fexp_eq. change (Z.pos (digits2_pos p)) with (Zdigits2 (Z.pos p)).
  replace (Z.max (Zdigits2 (Z.pos p) + 0 - 53) (-1074) - 0)
    with (Zdigits2 (Z.pos p) - 53) by lia.
  destruct (Zdigits2 (Z.pos p) - 53) as [|k|k] eqn:Ek; try lia.
  - exists p, 0. rewrite binary_round_aux_canonical by lia.
    repeat split; try lia.
  - exists (Pos.iter xO p k), (Z.max (Zdigits2 (Z.pos p) + 0 - 53) (-1074)).
    assert (He : Z.max (Zdigits2 (Z.pos p) + 0 - 53) (-1074) = - Z.pos k) by lia.
    rewrite He.
    assert (Hdig : Zdigits2 (Z.pos (Pos.iter xO p k)) = 53).
    { rewrite iter_xO_pow, Zdigits2_mul_pow2 by lia. lia. }
    rewrite binary_round_aux_canonical by (try assumption; lia).
    repeat split; try lia.
    + rewrite iter_xO_pow. reflexivity.
Qed.

Lemma of_int_0 : of_int 0 = S754_zero false.
Proof. reflexivity. Qed.

Lemma of_int_100 : of_int 100 = S754_finite false 7036874417766400 (-46).
Proof. vm_compute. reflexivity. Qed.

End Integers.

(** *** Quotient, product and [Math.round] *)

Section Percentage.

(** A division without remainder is exact. *)
Lemma new_location_0 (n : Z) : new_location n 0 = loc_Exact.
Proof.
  unfold new_location, new_location_even, new_location_odd.
  destruct (Z.even n); reflexivity.
Qed.

(** The raw quotient of two mantissas of full width: the dividend is
    shifted by 53 bits. *)
Lemma SFdiv_core_full_width (m1 m2 : positive) (e1 e2 : Z) :
  Zdigits2 (Z.pos m1) = 53 -> Zdigits2 (Z.pos m2) = 53 ->
  -52 <= e1 <= 0 -> -52 <= e2 <= 0 ->
  SFdiv_core_binary prec emax (Z.pos m1) e1 (Z.pos m2) e2 =
  (Z.pos m1 * 2 ^ 53 / Z.pos m2, e1 - e2 - 53,
   new_location (Z.pos m2) ((Z.pos m1 * 2 ^ 53) mod Z.pos m2)).
Proof.
  intros H1 H2 He1 He2. unfold SFdiv_core_binary.
  rewrite H1, H2, fexp_eq.
  replace (Z.min (Z.max (53 + e1 - (53 + e2) - 53) (-1074)) (e1 - e2))
    with (e1 - e2 - 53) by lia.
  replace (e1 - e2 - (e1 - e2 - 53)) with 53 by lia.
  cbv iota beta.
  rewrite Z.shiftl_mul_pow2 by lia.
  unfold Z.div, Z.modulo.
  destruct (Z.div_eucl (Z.pos m1 * 2 ^ 53) (Z.pos m2)) as [q r].
  reflexivity.
Qed.

(** The quotient of two integers [0 < a <= b < 2^53], as doubles, is at
    most 1. *)
Lemma div_le_1 (a b : Z) :
  0 < a <= b -> b < 2 ^ 53 -> SF_le (div (of_int a) (of_int b)) 1 0.
Proof.
  intros [Ha Hab] Hb.
  destruct (of_int_spec a) as (m1 & e1 & -> & He1 & Hm1 & Hd1); [lia|].
  destruct (of_int_spec b) as (m2 & e2 & -> & He2 & Hm2 & Hd2); [lia|].
  unfold div, SFdiv. rewrite SFdiv_core_full_width by assumption.
  cbn [xorb].
  set (C := 2 ^ (0 - (e1 - e2 - 53))).
  assert (HC : 0 < C) by (apply Z.pow_pos_nonneg; lia).
  assert (Hnum : Z.pos m1 * 2 ^ 53 <= Z.pos m2 * C).
  { rewrite Hm1, Hm2. unfold C.
    rewrite <- !Z.mul_assoc, <- !Z.pow_add_r by lia.
    replace (- e2 + (0 - (e1 - e2 - 53))) with (- e1 + 53) by lia.
    apply Z.mul_le_mono_nonneg_r; [|lia].
    apply Z.pow_nonneg; lia. }
  apply binary_round_aux_le.
  - unfold representable. lia.
  - lia.
  - apply Z.div_pos; lia.
  - rewrite Z.mul_1_l. apply Z.div_le_upper_bound; lia.
  - intros Hloc. rewrite Z.mul_1_l.
    apply Z.div_lt_upper_bound; [lia|].
    destruct (Z.eq_dec ((Z.pos m1 * 2 ^ 53) mod Z.pos m2) 0) as [Hr|Hr].
    + exfalso. apply Hloc. rewrite Hr. apply new_location_0.
    + pose proof (Z.mod_pos_bound (Z.pos m1 * 2 ^ 53) (Z.pos m2) ltac:(lia)).
      pose proof (Z.div_mod (Z.pos m1 * 2 ^ 53) (Z.pos m2) ltac:(lia)).
      assert (Z.pos m1 * 2 ^ 53 <> Z.pos m2 * C).
      { intros Heq. apply Hr. rewrite Heq, Z.mul_comm. apply Z.mod_mul. lia. }
      lia.
Qed.

(** A double that is at most 1, times 100, is at most 100. *)
Lemma mul_100_le (x : spec_float) :
  SF_le x 1 0 -> SF_le (mul x (of_int 100)) 25 2.
Proof.
  rewrite of_int_100. destruct x as [[]|[]| |[] m e]; unfold SF_le; try tauto.
  intros [He Hm]. unfold mul, SFmul. cbn [xorb].
  assert (Hp : 0 < 2 ^ (0 - e)) by (apply Z.pow_pos_nonneg; lia).
  apply binary_round_aux_le.
  - unfold representable. lia.
  - lia.
  - lia.
  - rewrite Pos2Z.inj_mul.
    replace (2 - (e + -46)) with (48 + (0 - e)) by lia.
    rewrite Z.pow_add_r by lia. change (2 ^ 48) with 281474976710656.
    rewrite Z.mul_1_l in Hm. set (P := 2 ^ (0 - e)) in *. lia.
  - intros H. exfalso. apply H. reflexivity.
Qed.

Lemma Math_round_le_100 (x : spec_float) :
  SF_le x 25 2 -> 0 <= Math_round x <= 100.
Proof.
  destruct x as [[]|[]| |[] m e]; unfold SF_le; try tauto; try (simpl; lia).
  intros [He Hm]. unfold Math_round.
  destruct (0 <=? e) eqn:E.
  - apply Z.leb_le in E.
    assert (Hp : 0 < 2 ^ e) by (apply Z.pow_pos_nonneg; lia).
    split; [lia|].
    replace 100 with (25 * 2 ^ (2 - e) * 2 ^ e).
    + apply Z.mul_le_mono_nonneg_r; lia.
    + rewrite <- Z.mul_assoc, <- Z.pow_add_r by lia.
      replace (2 - e + e) with 2 by lia. reflexivity.
  - apply Z.leb_gt in E.
    assert (Hp : 0 < 2 ^ (- e - 1)) by (apply Z.pow_pos_nonneg; lia).
    assert (Hk : 2 ^ (- e) = 2 * 2 ^ (- e - 1)).
    { rewrite <- Z.pow_succ_r by lia. f_equal. lia. }
    assert (Hb : 25 * 2 ^ (2 - e) = 100 * 2 ^ (- e)).
    { replace (2 - e) with (2 + - e) by lia. rewrite Z.pow_add_r by lia.
      change (2 ^ 2) with 4. lia. }
    split.
    + apply Z.div_pos; lia.
    + assert ((Z.pos m + 2 ^ (- e - 1)) / 2 ^ (- e) < 101); [|lia].
      apply Z.div_lt_upper_bound; lia.
Qed.

End Percentage.

(** ** Ordered query results *)

Section OrderBy.
Context {A : Type} (le : A -> A -> bool).

Lemma insert_by_In (x y : A) (l : list A) :
  In y (insert_by le x l) <-> y = x \/ In y l.
Proof.
  induction l as [|z l IH]; simpl.
  - intuition congruence.
  - destruct (le x z); simpl; rewrite ?IH; intuition congruence.
Qed.

Lemma order_by_In (y : A) (l : list A) : In y (order_by le l) <-> In y l.
Proof.
  induction l as [|x l IH]; simpl; [tauto|].
  rewrite insert_by_In, IH. intuition congruence.
Qed.

Lemma insert_by_length (x : A) (l : list A) :
  List.length (insert_by le x l) = S (List.length l).
Proof.
  induction l as [|z l IH]; simpl; [reflexivity|].
  destruct (le x z); simpl; congruence.
Qed.

Lemma order_by_length (l : list A) :
  List.length (order_by le l) = List.length l.
Proof.
  induction l as [|x l IH]; simpl; [reflexivity|].
  rewrite insert_by_length. congruence.
Qed.

End OrderBy.

(** ** The grader *)

Import Http QuizService.

Section Tally.
Variable answers : list Answer.

Lemma score_step_correct (acc : Z * Z) (q : QuizQuestion) :
  score_step answers acc q =
  (fst acc + points q, if correct answers q then snd acc + points q else snd acc).
Proof.
  unfold score_step, correct.
  destruct (find _ answers) as [a|]; [|reflexivity].
  destruct (selectedOptionIndex a =? correctOptionIndex q); reflexivity.
Qed.

Lemma fold_score_step (qs : list QuizQuestion) (acc : Z * Z) :
  fold_left (score_step answers) qs acc =
  (fst acc + sum_points qs, snd acc + sum_points (filter (correct answers) qs)).
Proof.
  revert acc. induction qs as [|q qs IH]; intros acc; simpl.
  - unfold sum_points; simpl. destruct acc; simpl; f_equal; lia.
  - rewrite IH, score_step_correct. unfold sum_points in *. simpl.
    destruct (correct answers q); simpl; f_equal; lia.
Qed.

(** The loop adds up the points of all questions, and those of the
    questions answered correctly. *)
Lemma tally_sums (qs : list QuizQuestion) :
  tally qs answers = (sum_points qs, sum_points (filter (correct answers) qs)).
Proof. unfold tally. rewrite fold_score_step. reflexivity. Qed.

Lemma sum_filter_le (f : QuizQuestion -> bool) (qs : list QuizQuestion) :
  (forall q, In q qs -> 0 <= points q) ->
  0 <= sum_points (filter f qs) <= sum_points qs.
Proof.
  unfold sum_points. induction qs as [|q qs IH]; intros Hpos; simpl; [lia|].
  assert (0 <= points q) by (apply Hpos; left; reflexivity).
  assert (0 <= fold_right Z.add 0 (map points (filter f qs))
          <= fold_right Z.add 0 (map points qs))
    by (apply IH; intros; apply Hpos; right; assumption).
  destruct (f q); simpl; lia.
Qed.

(** With points that are not negative, the points earned lie between 0 and
    the total. *)
Lemma tally_bounds (qs : list QuizQuestion) :
  (forall q, In q qs -> 0 <= points q) ->
  0 <= snd (tally qs answers) <= fst (tally qs answers).
Proof.
  intros Hpos. rewrite tally_sums. simpl. apply sum_filter_le. assumption.
Qed.

End Tally.

(** [Math.round((earned / total) * 100)] stays within 0 and 100, whatever
    the rounding of the quotient and of the product. *)
Lemma percentage_le_100 (earned total : Z) :
  0 <= earned <= total -> 0 < total < 2 ^ 53 ->
  0 <= Math_round (percentage earned total) <= 100.
Proof.
  intros [He Het] [Ht Hlt]. apply Math_round_le_100. unfold percentage.
  destruct (Z.eq_dec earned 0) as [->|Hne].
  - destruct (of_int_spec total) as (m & e & -> & _); [lia|].
    rewrite of_int_0, of_int_100. exact I.
  - apply mul_100_le, div_le_1; lia.
Qed.

(** ** Scores *)

Section Scores.
Import Scenario.

(** C1, at a tie: with 23 of 40 points earned the exact percentage is
    57.5, which rounds half up to 58; the grader divides first, the
    quotient 23/40 is the double just below 0.575, its product with 100 is
    the double just below 57.5, and the score is 57. The two sums are the
    sums of the points of all questions and of those answered correctly. *)
Theorem C1_tie_rounds_down :
  totalPoints quiz_23_17 first_only = 40 /\
  earnedPoints quiz_23_17 first_only = 23 /\
  round_half_up_percent 23 40 = 58 /\
  calculateQuizScore quiz_23_17 first_only = 57.
Proof. vm_compute. repeat split; reflexivity. Qed.

(** The product for 23 of 40 points is one unit in the last place below
    57.5, which is [115 * 2^46] at the exponent -47. *)
Example percentage_23_40 :
  percentage 23 40 = S754_finite false 8092405580431359 (-47) /\
  8092405580431359 + 1 = 115 * 2 ^ 46.
Proof. split; vm_compute; reflexivity. Qed.

(** The parts of the scoring rule that hold on every quiz: the two sums,
    and the score 0 of a quiz without points. *)
Lemma score_sums (q : Quiz) (answers : list Answer) :
  totalPoints q answers = sum_points (questions q) /\
  earnedPoints q answers = sum_points (filter (correct answers) (questions q)) /\
  (totalPoints q answers = 0 -> calculateQuizScore q answers = 0).
Proof.
  unfold totalPoints, earnedPoints, calculateQuizScore.
  rewrite tally_sums. simpl. repeat split.
  intros ->. reflexivity.
Qed.

Lemma calculateQuizScore_range (q : Quiz) (answers : list Answer) :
  (forall x, In x (questions q) -> 0 <= points x) ->
  totalPoints q answers < 2 ^ 53 ->
  0 <= calculateQuizScore q answers <= 100.
Proof.
  intros Hpos Hlt. unfold calculateQuizScore, totalPoints in *.
  pose proof (tally_bounds answers (questions q) Hpos) as Hb.
  destruct (tally (questions q) answers) as [total earned]. simpl in *.
  destruct (0 <? total) eqn:E; [|lia].
  apply Z.ltb_lt in E. apply percentage_le_100; lia.
Qed.

End Scores.

(** ** Submissions *)

Section Submissions.
Import Scenario.

(** [getQuizById] reads: it neither throws nor writes. *)
Lemma getQuizById_reads (id : string) (includeQuestions : bool) (db : Db) :
  exists found, getQuizById id includeQuestions db = (inr found, db).
Proof.
  unfold getQuizById, bind, quiz_findFirst, quizQuestion_findMany, ret.
  destruct (find _ (quiz db)) as [r|]; [|eexists; reflexivity].
  destruct includeQuestions; eexists; reflexivity.
Qed.

Lemma includes_find (qs : list QuizQuestion) (id : string) :
  includes (map question_id qs) id = true ->
  exists q, find (fun q => String.eqb (question_id q) id) qs = Some q.
Proof.
  unfold includes. induction qs as [|q qs IH]; simpl; [discriminate|].
  rewrite (String.eqb_sym id). destruct (String.eqb (question_id q) id).
  - intros _. exists q. reflexivity.
  - simpl. exact IH.
Qed.

Lemma filter_empty {A : Type} (f : A -> bool) (l : list A) :
  Nat.ltb 0 (List.length (filter f l)) = false ->
  forall x, In x l -> f x = false.
Proof.
  intros H x Hx. destruct (f x) eqn:E; [|reflexivity].
  assert (Hin : In x (filter f l)) by (apply filter_In; split; assumption).
  destruct (filter f l); [contradiction|discriminate].
Qed.

(** Once every answered id is an id of the quiz, the answer rows can be
    built: the lookup of the question never fails. *)
Lemma answer_rows_defined (qs : list QuizQuestion) (answers : list Answer) :
  (forall a, In a answers -> includes (map question_id qs) (questionId a) = true) ->
  exists rows, answer_rows qs answers = Some rows.
Proof.
  induction answers as [|a rest IH]; intros Hall; simpl.
  - exists []. reflexivity.
  - destruct (includes_find qs (questionId a)) as [q ->].
    { apply Hall. left. reflexivity. }
    destruct IH as [rows ->].
    { intros b Hb. apply Hall. right. assumption. }
    eexists. reflexivity.
Qed.

(** A submission for a quiz that is not found. *)
Lemma submitQuizAttempt_unknown (db : Db) (quizId userId : string)
  (answers : list Answer) :
  getQuizById quizId true db = (inr None, db) ->
  submitQuizAttempt quizId userId answers db =
  (inl (ApiError "Quiz not found" 404 NoDetails), db).
Proof.
  intros Hq. unfold submitQuizAttempt, bind. rewrite Hq. reflexivity.
Qed.

(** The three ways a submission to an existing quiz ends. *)
Lemma submitQuizAttempt_cases (db : Db) (quizId userId : string)
  (answers : list Answer) (q : Quiz) :
  getQuizById quizId true db = (inr (Some q), db) ->
  (List.length (questions q) <> List.length answers /\
   submitQuizAttempt quizId userId answers db =
   (inl (ApiError "All questions must be answered" 400 NoDetails), db))
  \/
  (List.length (questions q) = List.length answers /\
   invalid_ids q answers <> [] /\
   submitQuizAttempt quizId userId answers db =
   (inl (ApiError ("Invalid question IDs: " ++ join ", " (invalid_ids q answers))%string
           400 NoDetails), db))
  \/
  (List.length (questions q) = List.length answers /\
   invalid_ids q answers = [] /\
   exists rows,
     answer_rows (questions q) answers = Some rows /\
     let attempt :=
       mkQuizAttempt userId quizId (calculateQuizScore q answers)
         (passingScore (row q) <=? calculateQuizScore q answers) rows in
     submitQuizAttempt quizId userId answers db =
     (inr attempt, mkDb (quiz db) (quizQuestion db) (quizAttempt db ++ [attempt]))).
Proof.
  intros Hq. unfold submitQuizAttempt, bind. rewrite Hq.
  rewrite !length_map. fold (invalid_ids q answers).
  destruct (Nat.eqb (List.length (questions q)) (List.length answers)) eqn:Elen; simpl.
  - apply Nat.eqb_eq in Elen. right.
    destruct (Nat.ltb 0 (List.length (invalid_ids q answers))) eqn:Einv.
    + left. repeat split; [assumption|].
      intros Hnil. rewrite Hnil in Einv. discriminate.
    + right. split; [assumption|]. split.
      { destruct (invalid_ids q answers); [reflexivity|discriminate]. }
      destruct (answer_rows_defined (questions q) answers) as [rows Hrows].
      { intros a Ha.
        pose proof (filter_empty _ _ Einv (questionId a)
                      (in_map questionId _ _ Ha)) as H.
        apply negb_false_iff in H. exact H. }
      exists rows. split; [assumption|]. rewrite Hrows. reflexivity.
  - left. split; [|reflexivity]. apply Nat.eqb_neq. assumption.
Qed.

End Submissions.

(** ** Error messages that list ids *)

Section Messages.

Lemma substring_middle (a s b : string) :
  substring (String.length a) (String.length s) (a ++ s ++ b) = s.
Proof.
  induction a as [|c a IH]; simpl.
  - induction s as [|c s IH]; simpl.
    + destruct b; reflexivity.
    + rewrite IH. reflexivity.
  - exact IH.
Qed.

Lemma mentions_middle (a s b : string) : mentions (a ++ s ++ b) s = true.
Proof.
  unfold mentions. destruct (String.index 0 s (a ++ s ++ b)) eqn:E; [reflexivity|].
  exfalso. destruct s as [|c s].
  - apply index_correct4 in E. inversion E.
  - apply (index_correct3 _ (String.length a) _ _ E);
      [discriminate | apply Nat.le_0_l | apply substring_middle].
Qed.

Lemma append_assoc (a b c : string) : ((a ++ b) ++ c = a ++ (b ++ c))%string.
Proof. induction a as [|x a IH]; simpl; [reflexivity|]. rewrite IH. reflexivity. Qed.

Lemma append_empty_r (a : string) : (a ++ "" = a)%string.
Proof. induction a as [|x a IH]; simpl; [reflexivity|]. rewrite IH. reflexivity. Qed.

(** A joined list holds each of its elements. *)
Lemma join_holds (sep id : string) (ids : list string) :
  In id ids -> exists a b, join sep ids = (a ++ id ++ b)%string.
Proof.
  unfold join. induction ids as [|x ids IH]; [contradiction|].
  intros [->|Hin].
  - destruct ids as [|y ids].
    + exists "", "". simpl. rewrite append_empty_r. reflexivity.
    + exists "", (sep ++ String.concat sep (y :: ids))%string. reflexivity.
  - destruct ids as [|y ids]; [contradiction|].
    destruct (IH Hin) as (a & b & Hab).
    exists (x ++ sep ++ a)%string, b.
    change (String.concat sep (x :: y :: ids))
      with (x ++ sep ++ String.concat sep (y :: ids))%string.
    rewrite Hab, !append_assoc. reflexivity.
Qed.

Lemma message_names_ids (prefix id : string) (ids : list string) :
  In id ids -> mentions (prefix ++ join ", " ids) id = true.
Proof.
  intros Hin. destruct (join_holds ", " id ids Hin) as (a & b & ->).
  rewrite <- append_assoc. apply mentions_middle.
Qed.

End Messages.

(** ** Claims about submissions *)

Section SubmissionClaims.
Import Scenario.

(** C2, counterexample: three answers for a quiz of four questions are
    rejected with status 400, but the message is the fixed text
    "All questions must be answered" and does not name the missing
    question "q4". *)
Lemma C2_missing_question_not_named :
  exists msg,
    submitQuizAttempt "quiz-1" "u1" three_of_four db_four =
    (inl (ApiError msg 400 NoDetails), db_four) /\
    mentions msg "q4" = false.
Proof. eexists. split; [cbv; reflexivity | reflexivity]. Qed.

(** A submission that repeats one question and omits another has the right
    number of answers and only ids of the quiz: it is accepted and graded,
    the omitted question counting as wrong. *)
Lemma repeated_question_is_graded :
  exists attempt db',
    submitQuizAttempt "quiz-1" "u1" q1_twice db_four = (inr attempt, db') /\
    score attempt = 75.
Proof. eexists. eexists. split; [cbv; reflexivity | reflexivity]. Qed.

(** C2 as amended: a submission whose number of answers differs from the
    number of questions is rejected with status 400 and the fixed message
    "All questions must be answered"; one of the right length that
    carries ids foreign to the quiz is rejected with status 400 and a
    message that lists exactly those ids, each of which occurs in it. In
    both cases nothing is graded or stored. *)
Theorem C2_incomplete_submission_rejected
  (db : Db) (quizId userId : string) (answers : list Answer) (q : Quiz) :
  getQuizById quizId true db = (inr (Some q), db) ->
  (List.length answers <> List.length (questions q) ->
   submitQuizAttempt quizId userId answers db =
   (inl (ApiError "All questions must be answered" 400 NoDetails), db))
  /\
  (List.length answers = List.length (questions q) ->
   invalid_ids q answers <> [] ->
   let msg := ("Invalid question IDs: " ++ join ", " (invalid_ids q answers))%string in
   submitQuizAttempt quizId userId answers db =
   (inl (ApiError msg 400 NoDetails), db) /\
   forall id, In id (invalid_ids q answers) -> mentions msg id = true).
Proof.
  intros Hq.
  destruct (submitQuizAttempt_cases db quizId userId answers q Hq)
    as [[Hlen H]|[(Hlen & Hinv & H)|(Hlen & Hinv & _)]].
  - split; [intros _; exact H | intros Heq; congruence].
  - split; [intros Hne; congruence|]. intros _ _. split; [exact H|].
    intros id Hin. apply message_names_ids. assumption.
  - split; [intros Hne; congruence | intros _ Hne; contradiction].
Qed.

Lemma C2_incomplete_submission_rejected_witness :
  getQuizById "quiz-1" true db_four =
    (inr (Some (mkQuiz (mkQuizRow "quiz-1" "module-1" 50 false) (quizQuestion db_four))),
     db_four) /\
  submitQuizAttempt "quiz-1" "u1" one_foreign db_four =
    (inl (ApiError "Invalid question IDs: q9" 400 NoDetails), db_four) /\
  mentions "Invalid question IDs: q9" "q9" = true.
Proof.
  split; [reflexivity|].
  pose proof (C2_incomplete_submission_rejected db_four "quiz-1" "u1" one_foreign
                (mkQuiz (mkQuizRow "quiz-1" "module-1" 50 false) (quizQuestion db_four))
                eq_refl) as [_ H].
  destruct (H eq_refl ltac:(discriminate)) as [Hsub Hnames].
  split; [exact Hsub|]. apply Hnames. left. reflexivity.
Defined.

(** The tie as a learner meets it: the quiz asks for 58, the exact
    percentage 57.5 rounds half up to 58, and the attempt is stored with
    score 57 and not passed. *)
Example tie_is_stored_as_failed :
  getQuizById "quiz-1" true db_23_17 = (inr (Some quiz_23_17), db_23_17) /\
  exists attempt db',
    submitQuizAttempt "quiz-1" "u1" first_only db_23_17 = (inr attempt, db') /\
    score attempt = 57 /\ passed attempt = false /\
    passingScore (row quiz_23_17) <= round_half_up_percent 23 40.
Proof.
  split; [reflexivity|]. eexists. eexists.
  split; [cbv; reflexivity|]. repeat split. vm_compute. discriminate.
Qed.

(** What an accepted submission stores. *)
Lemma accepted_attempt (db : Db) (quizId userId : string)
  (answers : list Answer) (q : Quiz) (attempt : QuizAttempt) (db' : Db) :
  getQuizById quizId true db = (inr (Some q), db) ->
  submitQuizAttempt quizId userId answers db = (inr attempt, db') ->
  score attempt = calculateQuizScore q answers /\
  passed attempt = (passingScore (row q) <=? score attempt) /\
  db' = mkDb (quiz db) (quizQuestion db) (quizAttempt db ++ [attempt]).
Proof.
  intros Hq Hsub.
  destruct (submitQuizAttempt_cases db quizId userId answers q Hq)
    as [[_ H]|[(_ & _ & H)|(_ & _ & rows & _ & H)]];
    rewrite H in Hsub; try discriminate.
  injection Hsub as <- <-. simpl. repeat split.
Qed.

(** C3: an attempt is stored as passed exactly when its score reaches the
    quiz's passing score, the threshold included; two questions worth 5
    points each, passing score 50, the first answered correctly and the
    second not, give score 50 and passed. *)
Theorem C3_passed_iff_score_reaches_threshold :
  (forall db quizId userId answers q attempt db',
     getQuizById quizId true db = (inr (Some q), db) ->
     submitQuizAttempt quizId userId answers db = (inr attempt, db') ->
     score attempt = calculateQuizScore q answers /\
     (passed attempt = true <-> passingScore (row q) <= score attempt))
  /\
  (exists attempt db',
     submitQuizAttempt "quiz-1" "u1" first_only db_5_5 = (inr attempt, db') /\
     score attempt = 50 /\ passed attempt = true).
Proof.
  split.
  - intros db quizId userId answers q attempt db' Hq Hsub.
    destruct (accepted_attempt _ _ _ _ _ _ _ Hq Hsub) as (Hs & Hp & _).
    split; [exact Hs|]. rewrite Hp. apply Z.leb_le.
  - eexists. eexists. split; [cbv; reflexivity | split; reflexivity].
Qed.

Lemma C3_passed_iff_score_reaches_threshold_witness :
  exists attempt db',
    submitQuizAttempt "quiz-1" "u1" first_only db_5_5 = (inr attempt, db') /\
    score attempt = 50 /\
    (passed attempt = true <-> 50 <= score attempt).
Proof.
  eexists. eexists. split; [cbv; reflexivity|]. split; [reflexivity|].
  refine (proj2 (proj1 C3_passed_iff_score_reaches_threshold
                   db_5_5 "quiz-1" "u1" first_only
                   (mkQuiz (mkQuizRow "quiz-1" "module-1" 50 false) (quizQuestion db_5_5))
                   _ _ eq_refl eq_refl)).
Defined.




(** C7: whenever [submitQuizAttempt] fails, the database is the one it was
    given: no attempt and no answer rows are stored. The failures are those
    of the three checks: 404 for an unknown quiz, 400 for a wrong number of
    answers, 400 for foreign question ids. *)
Theorem C7_rejection_stores_nothing
  (db : Db) (quizId userId : string) (answers : list Answer)
  (err : Error) (db' : Db) :
  submitQuizAttempt quizId userId answers db = (inl err, db') ->
  db' = db /\
  (err = ApiError "Quiz not found" 404 NoDetails \/
   err = ApiError "All questions must be answered" 400 NoDetails \/
   exists ids, ids <> [] /\
     err = ApiError ("Invalid question IDs: " ++ join ", " ids)%string 400 NoDetails).
Proof.
  intros Hsub. destruct (getQuizById_reads quizId true db) as [[q|] Hq].
  - destruct (submitQuizAttempt_cases db quizId userId answers q Hq)
      as [[_ H]|[(_ & Hinv & H)|(_ & _ & rows & _ & H)]];
      rewrite H in Hsub; try discriminate.
    + injection Hsub as <- <-. auto.
    + injection Hsub as <- <-. split; [reflexivity|].
      right. right. exists (invalid_ids q answers). auto.
  - rewrite (submitQuizAttempt_unknown db quizId userId answers Hq) in Hsub.
    injection Hsub as <- <-. auto.
Qed.

Lemma C7_rejection_stores_nothing_witness :
  submitQuizAttempt "quiz-1" "u1" three_of_four db_four =
    (inl (ApiError "All questions must be answered" 400 NoDetails), db_four) /\
  db_four = db_four.
Proof.
  split; [reflexivity|].
  exact (proj1 (C7_rejection_stores_nothing db_four "quiz-1" "u1" three_of_four
                  (ApiError "All questions must be answered" 400 NoDetails)
                  db_four eq_refl)).
Defined.

End SubmissionClaims.

(** ** The stored index of the correct option *)

Section CorrectOptionIndex.
Import Scenario.

Lemma createQuizQuestion_bounded db id quizId data created db' :
  createQuizQuestion id quizId data db = (inr created, db') ->
  bounded db -> bounded db'.
Proof.
  unfold createQuizQuestion, bind, bounded.
  destruct (getQuizById_reads quizId false db) as [[q|] ->]; [|discriminate].
  destruct ((d_correctOptionIndex data <? 0)
            || (Z.of_nat (List.length (d_options data)) <=? d_correctOptionIndex data))
    eqn:E; [discriminate|].
  unfold quizQuestion_create. intros H Hb. injection H as _ <-. simpl.
  apply Forall_app. split; [assumption|]. constructor; [|constructor].
  within_bounds E. unfold index_in_bounds. simpl. lia.
Qed.

(** An update that passes the check leaves the index within the options,
    provided the stored index was. *)
Lemma update_check_bounded (stored : QuizQuestion) (data : QuestionUpdate) :
  index_in_bounds stored ->
  update_check stored data = None ->
  index_in_bounds (apply_update data stored).
Proof.
  unfold update_check, index_in_bounds, apply_update. simpl.
  intros Hs.
  destruct (u_options data) as [opts|], (u_correctOptionIndex data) as [idx|];
    simpl; try (intros _; exact Hs).
  - destruct ((idx <? 0) || (Z.of_nat (List.length opts) <=? idx)) eqn:E;
      [discriminate|]. intros _.
    within_bounds E. lia.
  - destruct (Z.of_nat (List.length opts) <=? correctOptionIndex stored) eqn:E;
      [discriminate|]. intros _. apply Z.leb_gt in E. lia.
  - destruct ((idx <? 0) || (Z.of_nat (List.length (options stored)) <=? idx)) eqn:E;
      [discriminate|]. intros _.
    within_bounds E. lia.
Qed.

(** Conversely an update that would leave the index outside the options
    does not pass the check. *)
Lemma update_check_rejects (stored : QuizQuestion) (data : QuestionUpdate) :
  index_in_bounds stored ->
  ~ index_in_bounds (apply_update data stored) ->
  exists msg, update_check stored data = Some msg.
Proof.
  intros Hs Hout. destruct (update_check stored data) as [msg|] eqn:E.
  - exists msg. reflexivity.
  - exfalso. apply Hout. apply update_check_bounded; assumption.
Qed.

Lemma update_where_Forall (P : QuizQuestion -> Prop) id f rows stored :
  find (fun q => String.eqb (question_id q) id) rows = Some stored ->
  Forall P rows -> P (f stored) -> Forall P (update_where id f rows).
Proof.
  induction rows as [|q rest IH]; simpl; [discriminate|].
  intros Hfind Hall Hf. inversion Hall as [|q0 rest0 Hq Hrest]; subst.
  destruct (String.eqb (question_id q) id).
  - injection Hfind as ->. constructor; assumption.
  - constructor; [assumption|]. apply IH; assumption.
Qed.

Lemma updateQuizQuestion_bounded db id data updated db' :
  updateQuizQuestion id data db = (inr updated, db') ->
  bounded db -> bounded db'.
Proof.
  unfold updateQuizQuestion, bind, quizQuestion_findUnique, bounded.
  destruct (find _ (quizQuestion db)) as [stored|] eqn:Hfind; [|discriminate].
  destruct (update_check stored data) eqn:Hcheck; [discriminate|].
  unfold quizQuestion_update. intros H Hb. injection H as _ <-. simpl.
  apply update_where_Forall with (stored := stored); try assumption.
  apply update_check_bounded; [|assumption].
  apply find_some in Hfind. destruct Hfind as [Hin _].
  rewrite Forall_forall in Hb. apply Hb. assumption.
Qed.

Lemma deleteQuizQuestion_bounded db id deleted db' :
  deleteQuizQuestion id db = (inr deleted, db') ->
  bounded db -> bounded db'.
Proof.
  unfold deleteQuizQuestion, bind, quizQuestion_findUnique, bounded.
  destruct (find _ (quizQuestion db)) as [stored|]; [|discriminate].
  unfold quizQuestion_delete. intros H Hb. injection H as _ <-. simpl.
  rewrite Forall_forall in *. intros x Hx.
  apply filter_In in Hx. apply Hb. tauto.
Qed.

Lemma reachable_bounded (db : Db) : reachable db -> bounded db.
Proof.
  induction 1 as [db Hnil|db id quizId data created db' _ IH Hc
                 |db id data updated db' _ IH Hu
                 |db id deleted db' _ IH Hd
                 |db db' _ IH Hsame].
  - unfold bounded. rewrite Hnil. constructor.
  - eapply createQuizQuestion_bounded; eassumption.
  - eapply updateQuizQuestion_bounded; eassumption.
  - eapply deleteQuizQuestion_bounded; eassumption.
  - unfold bounded in *. rewrite Hsame. assumption.
Qed.

(** C10: every question stored by the question operations has its correct
    index within its options; [createQuizQuestion] on an existing quiz
    answers an index outside the submitted options with status 400, and
    [updateQuizQuestion] on an existing question answers with status 400
    any update that would leave the index outside the options; both leave
    the database as it was. *)
Theorem C10_correct_index_within_options :
  (forall db, reachable db ->
     forall q, In q (quizQuestion db) -> index_in_bounds q)
  /\
  (forall db id quizId data q,
     getQuizById quizId false db = (inr (Some q), db) ->
     ~ (0 <= d_correctOptionIndex data < Z.of_nat (List.length (d_options data))) ->
     createQuizQuestion id quizId data db =
     (inl (ApiError
        "Invalid correctOptionIndex, must be a valid index in the options array"
        400 NoDetails), db))
  /\
  (forall db id data stored,
     reachable db ->
     quizQuestion_findUnique id db = (inr (Some stored), db) ->
     ~ index_in_bounds (apply_update data stored) ->
     exists msg,
       updateQuizQuestion id data db = (inl (ApiError msg 400 NoDetails), db)).
Proof.
  split; [|split].
  - intros db Hreach q Hin.
    pose proof (reachable_bounded db Hreach) as Hb. unfold bounded in Hb.
    rewrite Forall_forall in Hb. apply Hb. assumption.
  - intros db id quizId data q Hquiz Hout. unfold createQuizQuestion, bind.
    rewrite Hquiz.
    destruct ((d_correctOptionIndex data <? 0)
              || (Z.of_nat (List.length (d_options data)) <=? d_correctOptionIndex data))
      eqn:E; [reflexivity|].
    exfalso. apply Hout.
    within_bounds E. lia.
  - intros db id data stored Hreach Hfind Hout.
    assert (Hs : index_in_bounds stored).
    { pose proof (reachable_bounded db Hreach) as Hb. unfold bounded in Hb.
      rewrite Forall_forall in Hb. apply Hb.
      unfold quizQuestion_findUnique in Hfind. injection Hfind as Hfind.
      apply find_some in Hfind. tauto. }
    destruct (update_check_rejects stored data Hs Hout) as [msg Hmsg].
    exists msg. unfold updateQuizQuestion, bind. rewrite Hfind, Hmsg. reflexivity.
Qed.

Lemma C10_correct_index_within_options_witness :
  getQuizById "quiz-1" false db_5_5 =
    (inr (Some (mkQuiz (mkQuizRow "quiz-1" "module-1" 50 false) [])), db_5_5) /\
  ~ (0 <= d_correctOptionIndex index_5_of_2
       < Z.of_nat (List.length (d_options index_5_of_2))) /\
  createQuizQuestion "q3" "quiz-1" index_5_of_2 db_5_5 =
  (inl (ApiError
     "Invalid correctOptionIndex, must be a valid index in the options array"
     400 NoDetails), db_5_5).
Proof.
  assert (H2 : ~ (0 <= d_correctOptionIndex index_5_of_2
                    < Z.of_nat (List.length (d_options index_5_of_2))))
    by (simpl; lia).
  split; [reflexivity|]. split; [exact H2|].
  exact (proj1 (proj2 C10_correct_index_within_options)
           db_5_5 "q3" "quiz-1" index_5_of_2
           (mkQuiz (mkQuizRow "quiz-1" "module-1" 50 false) []) eq_refl H2).
Defined.

End CorrectOptionIndex.

(** The database of the first scenario arises from two creations. *)
Example db_5_5_reachable : reachable Scenario.db_5_5.
Proof.
  pose (db0 := QuizService.mkDb [mkQuizRow "quiz-1" "module-1" 50 false] [] []).
  assert (H0 : reachable db0) by (apply reach_init; reflexivity).
  pose (data := mkQuestionData "?" Scenario.two_options 0 None 5).
  pose (db1 := QuizService.mkDb [mkQuizRow "quiz-1" "module-1" 50 false]
                 [Scenario.mk_question "q1" "quiz-1" 5] []).
  assert (H1 : reachable db1).
  { apply reach_create with (db := db0) (id := "q1") (quizId := "quiz-1")
      (data := data) (created := Scenario.mk_question "q1" "quiz-1" 5);
      [exact H0|reflexivity]. }
  apply reach_create with (db := db1) (id := "q2") (quizId := "quiz-1")
    (data := data) (created := Scenario.mk_question "q2" "quiz-1" 5);
    [exact H1|reflexivity].
Qed.

(** ** The error middleware *)

Section ErrorResponses.

(** C9, counterexample: a duplicate is not always answered 409.  The
    registration of an email that is in use throws an [ApiError] carrying
    400, and the middleware answers with the status the error carries. *)
Lemma C9_duplicate_email_answered_400 :
  let res := errorMiddleware (Some "production") ErrorScenario.duplicate_email in
  status res = 400 /\ status res <> 409 /\
  message res = "User with this email already exists".
Proof. simpl. split; [reflexivity|]. split; [discriminate|reflexivity]. Qed.

(** Outside development mode an [ApiError] that carries status 500, as the
    storage service throws around a failed upload, is answered with its own
    detailed message, where the default branch would give the generic
    one. *)
Lemma detailed_500_outside_development :
  let res := errorMiddleware (Some "production")
               (ApiError "Failed to upload file: connect ETIMEDOUT" 500 NoDetails) in
  status res = 500 /\ message res <> "Internal server error".
Proof. simpl. split; [reflexivity|discriminate]. Qed.

Lemma by_name_default (NODE_ENV : option string) (err : Error) :
  status (by_name NODE_ENV err) = 500 ->
  NODE_ENV <> Some "development" ->
  message (by_name NODE_ENV err) = "Internal server error".
Proof.
  unfold by_name.
  destruct (String.eqb (error_name err) "ValidationError"); [discriminate|].
  destruct (String.eqb (error_name err) "JsonWebTokenError"); [discriminate|].
  destruct (String.eqb (error_name err) "TokenExpiredError"); [discriminate|].
  intros _ Hdev. simpl. destruct NODE_ENV as [env|]; [|reflexivity].
  destruct (String.eqb_spec env "development"); [congruence|reflexivity].
Qed.

Lemma by_name_status (NODE_ENV : option string) (err : Error) :
  In (status (by_name NODE_ENV err)) [400; 401; 500].
Proof.
  unfold by_name.
  destruct (String.eqb (error_name err) "ValidationError"); [simpl; auto|].
  destruct (String.eqb (error_name err) "JsonWebTokenError"); [simpl; auto|].
  destruct (String.eqb (error_name err) "TokenExpiredError"); simpl; auto.
Qed.

(** An error of none of the three names the middleware knows gets the
    default response. *)
Lemma by_name_other (NODE_ENV : option string) (err : Error) :
  ~ In (error_name err)
      ["ValidationError"; "JsonWebTokenError"; "TokenExpiredError"] ->
  status (by_name NODE_ENV err) = 500 /\
  (NODE_ENV = Some "development" ->
   message (by_name NODE_ENV err) = error_message err) /\
  (NODE_ENV <> Some "development" ->
   message (by_name NODE_ENV err) = "Internal server error").
Proof.
  intros Hname. unfold by_name.
  destruct (String.eqb_spec (error_name err) "ValidationError") as [E|_];
    [exfalso; apply Hname; rewrite E; simpl; auto|].
  destruct (String.eqb_spec (error_name err) "JsonWebTokenError") as [E|_];
    [exfalso; apply Hname; rewrite E; simpl; auto|].
  destruct (String.eqb_spec (error_name err) "TokenExpiredError") as [E|_];
    [exfalso; apply Hname; rewrite E; simpl; auto|].
  simpl. split; [reflexivity|]. split.
  - intros ->. reflexivity.
  - intros Hdev. destruct NODE_ENV as [env|]; [|reflexivity].
    destruct (String.eqb_spec env "development"); [congruence|reflexivity].
Qed.

(** C9 as amended: an [ApiError] is answered with the status it carries, in
    every mode, and with the details and, below 500, the message it
    carries; of the other errors, the ORM's code P2002 gives 409, P2025 and
    P2016 give 404, P2003 gives 400, an error named ValidationError gives
    400, JsonWebTokenError and TokenExpiredError give 401, and every
    remaining error gives 500, with the error's own message in development
    mode and the generic "Internal server error" otherwise; so that no
    other status than 400, 401, 404, 409 and 500 arises for an error that
    is not an [ApiError]. *)
Theorem C9_status_by_kind_of_error (NODE_ENV : option string) :
  (forall msg code details,
     status (errorMiddleware NODE_ENV (ApiError msg code details)) = code /\
     errors (errorMiddleware NODE_ENV (ApiError msg code details)) = details /\
     (code < 500 ->
      message (errorMiddleware NODE_ENV (ApiError msg code details)) = msg))
  /\
  (forall msg target,
     status (errorMiddleware NODE_ENV (PrismaClientKnownRequestError "P2002" msg target)) = 409 /\
     status (errorMiddleware NODE_ENV (PrismaClientKnownRequestError "P2025" msg target)) = 404 /\
     status (errorMiddleware NODE_ENV (PrismaClientKnownRequestError "P2016" msg target)) = 404 /\
     status (errorMiddleware NODE_ENV (PrismaClientKnownRequestError "P2003" msg target)) = 400)
  /\
  (forall msg,
     status (errorMiddleware NODE_ENV (OtherError "ValidationError" msg)) = 400 /\
     status (errorMiddleware NODE_ENV (OtherError "JsonWebTokenError" msg)) = 401 /\
     status (errorMiddleware NODE_ENV (OtherError "TokenExpiredError" msg)) = 401)
  /\
  (forall err,
     (forall msg code details, err <> ApiError msg code details) ->
     (forall code msg target,
        err = PrismaClientKnownRequestError code msg target ->
        ~ In code ["P2002"; "P2025"; "P2003"; "P2016"]) ->
     ~ In (error_name err)
         ["ValidationError"; "JsonWebTokenError"; "TokenExpiredError"] ->
     status (errorMiddleware NODE_ENV err) = 500 /\
     (NODE_ENV = Some "development" ->
      message (errorMiddleware NODE_ENV err) = error_message err) /\
     (NODE_ENV <> Some "development" ->
      message (errorMiddleware NODE_ENV err) = "Internal server error"))
  /\
  (forall err,
     (forall msg code details, err <> ApiError msg code details) ->
     In (status (errorMiddleware NODE_ENV err)) [400; 401; 404; 409; 500] /\
     (status (errorMiddleware NODE_ENV err) = 500 ->
      NODE_ENV <> Some "development" ->
      message (errorMiddleware NODE_ENV err) = "Internal server error")).
Proof.
  split; [|split; [|split; [|split]]].
  - intros msg code details. repeat split.
  - intros msg target. repeat split.
  - intros msg. repeat split.
  - intros err Hnot Hcode Hname.
    destruct err as [msg code details|code msg target|name msg].
    + exfalso. eapply Hnot. reflexivity.
    + specialize (Hcode code msg target eq_refl).
      cbn [errorMiddleware]. unfold prisma_response.
      destruct (String.eqb_spec code "P2002") as [E|_];
        [exfalso; apply Hcode; rewrite E; simpl; auto|].
      destruct (String.eqb_spec code "P2025") as [E|_];
        [exfalso; apply Hcode; rewrite E; simpl; auto|].
      destruct (String.eqb_spec code "P2003") as [E|_];
        [exfalso; apply Hcode; rewrite E; simpl; auto|].
      destruct (String.eqb_spec code "P2016") as [E|_];
        [exfalso; apply Hcode; rewrite E; simpl; auto 6|].
      apply by_name_other. exact Hname.
    + cbn [errorMiddleware]. apply by_name_other. exact Hname.
  - intros err Hnot. destruct err as [msg code details|code msg target|name msg].
    + exfalso. eapply Hnot. reflexivity.
    + cbn [errorMiddleware]. unfold prisma_response.
      destruct (String.eqb code "P2002"); [simpl; split; [auto 6|discriminate]|].
      destruct (String.eqb code "P2025"); [simpl; split; [auto 6|discriminate]|].
      destruct (String.eqb code "P2003"); [simpl; split; [auto 6|discriminate]|].
      destruct (String.eqb code "P2016"); [simpl; split; [auto 6|discriminate]|].
      split; [|apply by_name_default].
      pose proof (by_name_status NODE_ENV
                    (PrismaClientKnownRequestError code msg target)) as H.
      simpl in H |- *. intuition.
    + cbn [errorMiddleware]. split; [|apply by_name_default].
      pose proof (by_name_status NODE_ENV (OtherError name msg)) as H.
      simpl in H |- *. intuition.
Qed.

Lemma C9_status_by_kind_of_error_witness :
  let err := OtherError "TypeError" "Cannot read properties of undefined" in
  (forall msg code details, err <> ApiError msg code details) /\
  Some "production" <> Some "development" /\
  status (errorMiddleware (Some "production") err) = 500 /\
  message (errorMiddleware (Some "production") err) = "Internal server error".
Proof.
  intros err.
  assert (H1 : forall msg code details, err <> ApiError msg code details)
    by (intros; discriminate).
  assert (H2 : forall code msg target,
             err = PrismaClientKnownRequestError code msg target ->
             ~ In code ["P2002"; "P2025"; "P2003"; "P2016"])
    by (intros; discriminate).
  assert (H3 : ~ In (error_name err)
                 ["ValidationError"; "JsonWebTokenError"; "TokenExpiredError"]).
  { simpl. intros [H|[H|[H|[]]]]; discriminate. }
  assert (H4 : Some "production" <> Some "development") by discriminate.
  destruct (proj1 (proj2 (proj2 (proj2 (C9_status_by_kind_of_error
                                          (Some "production")))))
              err H1 H2 H3) as (Hs & _ & Hm).
  split; [exact H1|]. split; [exact H4|]. split; [exact Hs|exact (Hm H4)].
Defined.

End ErrorResponses.

(** ** Unlocking modules *)

Section Unlocking.
Import ModuleService UnlockScenario.

Lemma computeUnlockedModules_In now e ms s :
  In s (computeUnlockedModules now e ms) <->
  exists m, In m ms /\ s = unlock_state now e m.
Proof.
  unfold computeUnlockedModules. rewrite in_map_iff. split.
  - intros (m & <- & Hm). exists m. rewrite order_by_In in Hm. auto.
  - intros (m & Hm & ->). exists m. rewrite order_by_In. auto.
Qed.

Lemma is_ACTIVE_true (st : ModuleStatus) : is_ACTIVE st = true <-> st = ACTIVE.
Proof. destruct st; simpl; split; congruence. Qed.

Lemma isUnlocked_true now e m :
  isUnlocked (unlock_state now e m) = true <->
  isActive e = true /\ now <= expiryDate e /\ status m = ACTIVE /\
  enrollmentDate e + durationInDays m * MS_PER_DAY <= now.
Proof.
  unfold unlock_state. simpl.
  rewrite !andb_true_iff, negb_true_iff, Z.ltb_ge, Z.leb_le, is_ACTIVE_true.
  tauto.
Qed.

(** What [getModulesToUnlock] returns: the due ACTIVE modules of the
    courses of the active, unexpired enrollments. *)
Lemma getModulesToUnlock_In now db e s :
  In (e, s) (getModulesToUnlock now db) ->
  In e (userCourseEnrollment db) /\
  exists m, In m (module db) /\ s = unlock_state now e m /\
            courseId m = enrollment_courseId e /\ isDeleted m = false /\
            isUnlocked s = true.
Proof.
  unfold getModulesToUnlock, findMany_active. rewrite in_flat_map.
  intros ([e' ms] & Hem & Hin). simpl in Hin.
  apply in_map_iff in Hem. destruct Hem as (e0 & Heq & He0).
  injection Heq as -> <-.
  apply in_map_iff in Hin. destruct Hin as (s' & Heq & Hs').
  injection Heq as <- <-.
  apply filter_In in He0. destruct He0 as [He0 _].
  apply filter_In in Hs'. destruct Hs' as [Hs' Hun].
  apply computeUnlockedModules_In in Hs'. destruct Hs' as (m & Hm & ->).
  unfold course_modules in Hm. rewrite order_by_In in Hm.
  apply filter_In in Hm. destruct Hm as [Hm Hcond].
  rewrite !andb_true_iff, negb_true_iff in Hcond.
  destruct Hcond as [[Hc Hd] _]. apply String.eqb_eq in Hc.
  split; [assumption|]. exists m. auto.
Qed.





(** C5: for an enrollment that is not active, or whose expiry date has
    passed, the evaluator reports every module locked, whatever its unlock
    date; and [getModulesToUnlock] returns modules of active, unexpired
    enrollments only. *)
Theorem C5_inactive_or_expired_all_locked :
  (forall now e ms s,
     isActive e = false \/ expiryDate e < now ->
     In s (computeUnlockedModules now e ms) ->
     isUnlocked s = false)
  /\
  (forall now db e s,
     In (e, s) (getModulesToUnlock now db) ->
     isActive e = true /\ now <= expiryDate e).
Proof.
  split.
  - intros now e ms s Hoff Hs.
    apply computeUnlockedModules_In in Hs. destruct Hs as (m & _ & ->).
    destruct (isUnlocked (unlock_state now e m)) eqn:E; [|reflexivity].
    apply isUnlocked_true in E. destruct Hoff as [Hoff|Hoff]; [|lia].
    destruct E as [E _]. congruence.
  - intros now db e s Hin.
    apply getModulesToUnlock_In in Hin.
    destruct Hin as (_ & m & _ & -> & _ & _ & Hun).
    apply isUnlocked_true in Hun. tauto.
Qed.

Lemma C5_inactive_or_expired_all_locked_witness :
  (isActive deactivated = false \/ expiryDate deactivated < day 30) /\
  In (unlock_state (day 30) deactivated week_one)
     (computeUnlockedModules (day 30) deactivated [week_one; draft]) /\
  isUnlocked (unlock_state (day 30) deactivated week_one) = false.
Proof.
  assert (H1 : isActive deactivated = false \/ expiryDate deactivated < day 30)
    by (left; reflexivity).
  assert (H2 : In (unlock_state (day 30) deactivated week_one)
                 (computeUnlockedModules (day 30) deactivated [week_one; draft]))
    by (left; reflexivity).
  split; [exact H1|]. split; [exact H2|].
  exact (proj1 C5_inactive_or_expired_all_locked
           (day 30) deactivated [week_one; draft] _ H1 H2).
Defined.

End Unlocking.

(** ** One enrollment per user and module *)

Section Enrollments.
Import Schema EnrollmentScenario.













(** The datastore refuses a second enrollment of a user in a module. *)
Example second_enrollment_refused :
  create [first_enrollment] second_enrollment = inl P2002.
Proof. reflexivity. Qed.


End Enrollments.

(* ===================================================================== *)
(** * Part III: further properties of the services                        *)
(* ===================================================================== *)

(** ** Full marks and no marks *)

Section FullMarks.
Import Scenario.

(** A double divided by itself is 1. *)
Lemma div_self (a : Z) :
  0 < a < 2 ^ 53 ->
  div (of_int a) (of_int a) = S754_finite false 4503599627370496 (-52).
Proof.
  intros Ha.
  destruct (of_int_spec a Ha) as (m & e & -> & He & Hm & Hd).
  unfold div, SFdiv. rewrite SFdiv_core_full_width by assumption.
  rewrite Z.mul_comm, Z.div_mul, Z.mod_mul by lia.
  replace (e - e - 53) with (-53) by lia.
  rewrite new_location_0. vm_compute. reflexivity.
Qed.

Lemma percentage_full (total : Z) :
  0 < total < 2 ^ 53 -> Math_round (percentage total total) = 100.
Proof.
  intros Ht. unfold percentage. rewrite (div_self total Ht).
  vm_compute. reflexivity.
Qed.

Lemma percentage_none (total : Z) :
  0 < total < 2 ^ 53 -> Math_round (percentage 0 total) = 0.
Proof.
  intros Ht. unfold percentage.
  destruct (of_int_spec total Ht) as (m & e & -> & _).
  reflexivity.
Qed.

Lemma sum_points_all (f : QuizQuestion -> bool) (qs : list QuizQuestion) :
  (forall x, In x qs -> f x = true) ->
  sum_points (filter f qs) = sum_points qs.
Proof.
  intros Hall. rewrite (forallb_filter_id f qs); [reflexivity|].
  apply forallb_forall. assumption.
Qed.

Lemma sum_points_none (f : QuizQuestion -> bool) (qs : list QuizQuestion) :
  (forall x, In x qs -> f x = false) ->
  sum_points (filter f qs) = 0.
Proof.
  induction qs as [|q qs IH]; intros Hnone; simpl; [reflexivity|].
  rewrite (Hnone q) by (left; reflexivity).
  apply IH. intros x Hx. apply Hnone. right. assumption.
Qed.

(** X1: when every question of the quiz is answered with its correct option
    the score is exactly 100, and when none is the score is exactly 0: the
    two roundings of the percentage lose nothing at the ends of the scale. *)
Theorem X1_full_marks_score_100 (q : Quiz) (answers : list Answer) :
  0 < totalPoints q answers < 2 ^ 53 ->
  ((forall x, In x (questions q) -> correct answers x = true) ->
   calculateQuizScore q answers = 100)
  /\
  ((forall x, In x (questions q) -> correct answers x = false) ->
   calculateQuizScore q answers = 0).
Proof.
  unfold totalPoints, calculateQuizScore. rewrite tally_sums. simpl.
  intros Ht. split; intros Hall.
  - rewrite sum_points_all by assumption.
    replace (0 <? sum_points (questions q)) with true
      by (symmetry; apply Z.ltb_lt; lia).
    apply percentage_full. assumption.
  - rewrite sum_points_none by assumption.
    replace (0 <? sum_points (questions q)) with true
      by (symmetry; apply Z.ltb_lt; lia).
    apply percentage_none. assumption.
Qed.

Lemma X1_full_marks_score_100_witness :
  0 < totalPoints quiz_23_17 [mkAnswer "q1" 0; mkAnswer "q2" 0] < 2 ^ 53 /\
  (forall x, In x (questions quiz_23_17) ->
     correct [mkAnswer "q1" 0; mkAnswer "q2" 0] x = true) /\
  calculateQuizScore quiz_23_17 [mkAnswer "q1" 0; mkAnswer "q2" 0] = 100.
Proof.
  assert (Ht : 0 < totalPoints quiz_23_17 [mkAnswer "q1" 0; mkAnswer "q2" 0] < 2 ^ 53)
    by (vm_compute; split; reflexivity).
  assert (Hc : forall x, In x (questions quiz_23_17) ->
                 correct [mkAnswer "q1" 0; mkAnswer "q2" 0] x = true)
    by (intros x [<-|[<-|[]]]; reflexivity).
  split; [exact Ht|]. split; [exact Hc|].
  exact (proj1 (X1_full_marks_score_100 quiz_23_17 _ Ht) Hc).
Defined.

End FullMarks.

(** ** More on submissions *)

Section MoreSubmissions.
Import Scenario.

(** What [getQuizById] with its questions returns. *)
Lemma getQuizById_true_inv (id : string) (db : Db) (q : Quiz) :
  getQuizById id true db = (inr (Some q), db) ->
  exists r,
    find (fun r => String.eqb (quiz_id r) id && negb (isDeleted r)) (quiz db) = Some r /\
    quiz_id r = id /\
    q = mkQuiz r
          (order_by (fun a b => String.leb (question_id a) (question_id b))
             (filter (fun x => String.eqb (quizId x) (quiz_id r)) (quizQuestion db))).
Proof.
  unfold getQuizById, bind, quiz_findFirst, quizQuestion_findMany, ret.
  destruct (find _ (quiz db)) as [r|] eqn:Hfind; [|discriminate].
  intros H. injection H as <-. exists r. repeat split.
  apply find_some in Hfind. destruct Hfind as [_ Hr].
  apply andb_true_iff in Hr. apply String.eqb_eq. tauto.
Qed.

Lemma includes_In (ids : list string) (id : string) :
  includes ids id = true <-> In id ids.
Proof.
  unfold includes. rewrite existsb_exists. split.
  - intros (x & Hx & Heq). apply String.eqb_eq in Heq. congruence.
  - intros Hin. exists id. split; [assumption|apply String.eqb_refl].
Qed.

Lemma invalid_ids_nil (q : Quiz) (answers : list Answer) :
  invalid_ids q answers = [] ->
  incl (map questionId answers) (map question_id (questions q)).
Proof.
  unfold invalid_ids. intros Hnil id Hid.
  destruct (includes (map question_id (questions q)) id) eqn:E.
  - apply includes_In. assumption.
  - exfalso.
    assert (Hin : In id (filter
              (fun id => negb (includes (map question_id (questions q)) id))
              (map questionId answers))).
    { apply filter_In. rewrite E. auto. }
    rewrite Hnil in Hin. contradiction.
Qed.

(** X2: a quiz without questions accepts the empty submission only; the
    attempt has score 0, no answer rows, and is passed exactly when the
    passing score is 0 or less.  Any other submission is rejected with
    status 400. *)
Theorem X2_quiz_without_questions
  (db : Db) (quizId userId : string) (answers : list Answer) (q : Quiz) :
  getQuizById quizId true db = (inr (Some q), db) ->
  questions q = [] ->
  (answers <> [] ->
   submitQuizAttempt quizId userId answers db =
   (inl (ApiError "All questions must be answered" 400 NoDetails), db))
  /\
  (answers = [] ->
   exists attempt db',
     submitQuizAttempt quizId userId answers db = (inr attempt, db') /\
     score attempt = 0 /\ attempt_answers attempt = [] /\
     passed attempt = (passingScore (row q) <=? 0)).
Proof.
  intros Hq Hnone.
  destruct (submitQuizAttempt_cases db quizId userId answers q Hq)
    as [[Hlen H]|[(Hlen & Hinv & _)|(Hlen & _ & rows & Hrows & H)]];
    rewrite Hnone in *; simpl in Hlen.
  - split; [intros _; exact H|]. intros ->. simpl in Hlen. congruence.
  - destruct answers; [|discriminate]. exfalso. apply Hinv. reflexivity.
  - destruct answers; [|discriminate]. split; [congruence|]. intros _.
    simpl in Hrows. injection Hrows as <-.
    eexists. eexists. split; [exact H|]. simpl.
    unfold calculateQuizScore, tally. rewrite Hnone. simpl. auto.
Qed.

Lemma X2_quiz_without_questions_witness :
  let db := QuizService.mkDb [mkQuizRow "quiz-0" "module-1" 0 false] [] [] in
  let q := mkQuiz (mkQuizRow "quiz-0" "module-1" 0 false) [] in
  getQuizById "quiz-0" true db = (inr (Some q), db) /\
  questions q = [] /\
  exists attempt db',
    submitQuizAttempt "quiz-0" "u1" [] db = (inr attempt, db') /\
    score attempt = 0 /\ attempt_answers attempt = [] /\
    passed attempt = true.
Proof.
  intros db q. split; [reflexivity|]. split; [reflexivity|].
  exact (proj2 (X2_quiz_without_questions db "quiz-0" "u1" [] q eq_refl eq_refl)
           eq_refl).
Defined.

(** X3: no operation of the quiz service changes or removes a stored
    attempt: whatever the outcome, the attempts after the operation are
    those before it followed by at most one new attempt, and only a
    submission adds one. *)
Theorem X3_attempts_are_kept :
  (forall quizId userId answers db r db',
     submitQuizAttempt quizId userId answers db = (r, db') ->
     quiz db' = quiz db /\ quizQuestion db' = quizQuestion db /\
     (quizAttempt db' = quizAttempt db \/
      exists attempt, r = inr attempt /\
        quizAttempt db' = quizAttempt db ++ [attempt]))
  /\
  (forall id quizId data db r db',
     createQuizQuestion id quizId data db = (r, db') ->
     quizAttempt db' = quizAttempt db /\ quiz db' = quiz db)
  /\
  (forall id data db r db',
     updateQuizQuestion id data db = (r, db') ->
     quizAttempt db' = quizAttempt db /\ quiz db' = quiz db)
  /\
  (forall id db r db',
     deleteQuizQuestion id db = (r, db') ->
     quizAttempt db' = quizAttempt db /\ quiz db' = quiz db).
Proof.
  split; [|split; [|split]].
  - intros quizId userId answers db r db' Hsub.
    destruct (getQuizById_reads quizId true db) as [[q|] Hq].
    + destruct (submitQuizAttempt_cases db quizId userId answers q Hq)
        as [[_ H]|[(_ & _ & H)|(_ & _ & rows & _ & H)]];
        rewrite H in Hsub; injection Hsub as <- <-; simpl; auto.
      split; [reflexivity|]. split; [reflexivity|]. right. eauto.
    + rewrite (submitQuizAttempt_unknown db quizId userId answers Hq) in Hsub.
      injection Hsub as <- <-. auto.
  - intros id quizId data db r db'. unfold createQuizQuestion, bind.
    destruct (getQuizById_reads quizId false db) as [[q|] ->].
    + destruct ((d_correctOptionIndex data <? 0)
                || (Z.of_nat (List.length (d_options data)) <=? d_correctOptionIndex data));
        intros H; injection H as <- <-; auto.
    + intros H; injection H as <- <-; auto.
  - intros id data db r db'.
    unfold updateQuizQuestion, bind, quizQuestion_findUnique.
    destruct (find _ (quizQuestion db)) as [stored|].
    + destruct (update_check stored data);
        intros H; injection H as <- <-; auto.
    + intros H; injection H as <- <-; auto.
  - intros id db r db'.
    unfold deleteQuizQuestion, bind, quizQuestion_findUnique.
    destruct (find _ (quizQuestion db)) as [stored|];
      intros H; injection H as <- <-; auto.
Qed.

Lemma X3_attempts_are_kept_witness :
  exists r db',
    submitQuizAttempt "quiz-1" "u1" first_only db_5_5 = (r, db') /\
    quiz db' = quiz db_5_5 /\ quizQuestion db' = quizQuestion db_5_5.
Proof.
  eexists. eexists. split; [cbv; reflexivity|].
  pose proof (proj1 X3_attempts_are_kept "quiz-1" "u1" first_only db_5_5 _ _ eq_refl)
    as (H1 & H2 & _).
  split; [exact H1|exact H2].
Defined.

(** The answer rows follow the answers one by one. *)
Lemma answer_rows_Forall2 (qs : list QuizQuestion) (answers : list Answer)
  (rows : list QuizAnswer) :
  answer_rows qs answers = Some rows ->
  Forall2
    (fun a r =>
       answer_questionId r = questionId a /\
       answer_selectedOptionIndex r = selectedOptionIndex a /\
       exists x,
         find (fun x => String.eqb (question_id x) (questionId a)) qs = Some x /\
         isCorrect r = (correctOptionIndex x =? selectedOptionIndex a))
    answers rows.
Proof.
  revert rows. induction answers as [|a rest IH]; intros rows; simpl.
  - intros H. injection H as <-. constructor.
  - destruct (find _ qs) as [x|] eqn:Hfind; [|discriminate].
    destruct (answer_rows qs rest) as [rows'|]; [|discriminate].
    intros H. injection H as <-. constructor; [|apply IH; reflexivity].
    simpl. repeat split. exists x. auto.
Qed.

(** X4: an accepted submission stores one answer row per submitted answer,
    in the order of the submission; each row repeats the answer's question
    id and selected option and is flagged correct exactly when the selected
    option is the correct option of the question with that id. *)
Theorem X4_answer_rows_follow_answers
  (db : Db) (quizId userId : string) (answers : list Answer) (q : Quiz)
  (attempt : QuizAttempt) (db' : Db) :
  getQuizById quizId true db = (inr (Some q), db) ->
  submitQuizAttempt quizId userId answers db = (inr attempt, db') ->
  List.length (attempt_answers attempt) = List.length (questions q) /\
  Forall2
    (fun a r =>
       answer_questionId r = questionId a /\
       answer_selectedOptionIndex r = selectedOptionIndex a /\
       exists x,
         In x (questions q) /\ question_id x = questionId a /\
         (isCorrect r = true <-> selectedOptionIndex a = correctOptionIndex x))
    answers (attempt_answers attempt).
Proof.
  intros Hq Hsub.
  destruct (submitQuizAttempt_cases db quizId userId answers q Hq)
    as [[_ H]|[(_ & _ & H)|(Hlen & _ & rows & Hrows & H)]];
    rewrite H in Hsub; try discriminate.
  injection Hsub as <- _. simpl.
  pose proof (answer_rows_Forall2 _ _ _ Hrows) as Hall.
  split.
  - rewrite Hlen. symmetry. eapply Forall2_length. eassumption.
  - eapply Forall2_impl; [|exact Hall].
    intros a r (H1 & H2 & x & Hfind & Hc). repeat split; try assumption.
    exists x. apply find_some in Hfind. destruct Hfind as [Hin Hid].
    apply String.eqb_eq in Hid. repeat split; try assumption.
    + rewrite Hc. intros E. apply Z.eqb_eq in E. congruence.
    + rewrite Hc. intros E. apply Z.eqb_eq. congruence.
Qed.

Lemma X4_answer_rows_follow_answers_witness :
  exists attempt db',
    submitQuizAttempt "quiz-1" "u1" first_only db_5_5 = (inr attempt, db') /\
    List.length (attempt_answers attempt) = 2%nat.
Proof.
  eexists. eexists. split; [cbv; reflexivity|].
  exact (proj1 (X4_answer_rows_follow_answers db_5_5 "quiz-1" "u1" first_only
                  (mkQuiz (mkQuizRow "quiz-1" "module-1" 50 false) (quizQuestion db_5_5))
                  _ _ eq_refl eq_refl)).
Defined.

(** X5: when an accepted submission names no question twice, every
    question of the quiz has an answer: the two checks together then
    amount to "all questions must be answered". *)
Theorem X5_distinct_answers_cover_the_quiz
  (db : Db) (quizId userId : string) (answers : list Answer) (q : Quiz)
  (attempt : QuizAttempt) (db' : Db) :
  getQuizById quizId true db = (inr (Some q), db) ->
  submitQuizAttempt quizId userId answers db = (inr attempt, db') ->
  NoDup (map questionId answers) ->
  forall x, In x (questions q) ->
    exists a, In a answers /\ questionId a = question_id x.
Proof.
  intros Hq Hsub Hnd x Hx.
  destruct (submitQuizAttempt_cases db quizId userId answers q Hq)
    as [[_ H]|[(_ & _ & H)|(Hlen & Hinv & _)]];
    try (rewrite H in Hsub; discriminate).
  assert (Hincl : incl (map question_id (questions q)) (map questionId answers)).
  { apply NoDup_length_incl; [assumption| |apply invalid_ids_nil; assumption].
    rewrite !length_map. lia. }
  assert (Hin : In (question_id x) (map questionId answers)).
  { apply Hincl. apply in_map. assumption. }
  apply in_map_iff in Hin. destruct Hin as (a & Ha & Hina). eauto.
Qed.

Lemma X5_distinct_answers_cover_the_quiz_witness :
  exists attempt db',
    submitQuizAttempt "quiz-1" "u1" first_only db_5_5 = (inr attempt, db') /\
    NoDup (map questionId first_only) /\
    exists a, In a first_only /\ questionId a = "q2".
Proof.
  assert (Hnd : NoDup (map questionId first_only)).
  { simpl. constructor; [simpl; intuition discriminate|].
    constructor; [simpl; tauto|constructor]. }
  eexists. eexists. split; [cbv; reflexivity|]. split; [exact Hnd|].
  exact (X5_distinct_answers_cover_the_quiz db_5_5 "quiz-1" "u1" first_only
           (mkQuiz (mkQuizRow "quiz-1" "module-1" 50 false) (quizQuestion db_5_5))
           _ _ eq_refl eq_refl Hnd (mk_question "q2" "quiz-1" 5)
           (or_intror (or_introl eq_refl))).
Defined.

Lemma insert_by_Permutation {A : Type} (le : A -> A -> bool) (x : A) (l : list A) :
  Permutation (insert_by le x l) (x :: l).
Proof.
  induction l as [|y l IH]; simpl; [reflexivity|].
  destruct (le x y); [reflexivity|].
  rewrite IH. apply perm_swap.
Qed.

(** An ordered query result holds the rows it orders, each once. *)
Lemma order_by_Permutation {A : Type} (le : A -> A -> bool) (l : list A) :
  Permutation (order_by le l) l.
Proof.
  induction l as [|x l IH]; simpl; [reflexivity|].
  rewrite insert_by_Permutation. constructor. assumption.
Qed.

Lemma sum_points_Permutation (l l' : list QuizQuestion) :
  Permutation l l' -> sum_points l = sum_points l'.
Proof.
  unfold sum_points. induction 1; simpl; lia.
Qed.

(** X6: a question created in a quiz shows up among the questions the quiz
    is loaded with, beside the earlier ones; the quiz's total of points
    grows by the new question's points; and a submission with as many
    answers as the quiz had questions before is from then on rejected with
    status 400. *)
Theorem X6_created_question_counts
  (db : Db) (id quizId : string) (data : QuestionData) (q : Quiz)
  (created : QuizQuestion) (db' : Db) :
  getQuizById quizId true db = (inr (Some q), db) ->
  createQuizQuestion id quizId data db = (inr created, db') ->
  exists q',
    getQuizById quizId true db' = (inr (Some q'), db') /\
    row q' = row q /\
    Permutation (questions q') (created :: questions q) /\
    (forall answers,
       totalPoints q' answers = totalPoints q answers + d_points data) /\
    (forall userId answers,
       List.length answers = List.length (questions q) ->
       submitQuizAttempt quizId userId answers db' =
       (inl (ApiError "All questions must be answered" 400 NoDetails), db')).
Proof.
  intros Hq Hcreate.
  destruct (getQuizById_true_inv quizId db q Hq) as (r & Hfind & Hid & ->).
  assert (Hfalse : getQuizById quizId false db = (inr (Some (mkQuiz r [])), db)).
  { unfold getQuizById, bind, quiz_findFirst, ret. rewrite Hfind. reflexivity. }
  unfold createQuizQuestion, bind in Hcreate. rewrite Hfalse in Hcreate.
  destruct ((d_correctOptionIndex data <? 0)
            || (Z.of_nat (List.length (d_options data)) <=? d_correctOptionIndex data));
    [discriminate|].
  unfold quizQuestion_create in Hcreate. injection Hcreate as <- <-.
  set (created := mkQuizQuestion id quizId (d_question data) (d_options data)
                    (d_correctOptionIndex data) (d_explanation data) (d_points data)).
  set (le := fun a b => String.leb (question_id a) (question_id b)).
  set (mine := fun x => String.eqb (QuizService.quizId x) (quiz_id r)).
  set (db' := QuizService.mkDb (quiz db) (quizQuestion db ++ [created]) (quizAttempt db)).
  assert (Hq' : getQuizById quizId true db' =
                (inr (Some (mkQuiz r (order_by le (filter mine (quizQuestion db) ++ [created])))),
                 db')).
  { unfold getQuizById, bind, quiz_findFirst, quizQuestion_findMany, ret.
    unfold db'. cbn [quiz]. rewrite Hfind. cbn [quizQuestion].
    unfold mine, created. rewrite filter_app.
    cbn [filter QuizService.quizId]. rewrite Hid, String.eqb_refl. reflexivity. }
  assert (Hperm : Permutation (order_by le (filter mine (quizQuestion db) ++ [created]))
                    (created :: order_by le (filter mine (quizQuestion db)))).
  { rewrite !order_by_Permutation. rewrite Permutation_app_comm. reflexivity. }
  eexists. split; [exact Hq'|]. split; [reflexivity|]. split; [exact Hperm|]. split.
  - intros answers. unfold totalPoints. rewrite !tally_sums. simpl.
    rewrite (sum_points_Permutation _ _ Hperm). unfold sum_points. simpl. lia.
  - intros userId answers Hlen.
    destruct (submitQuizAttempt_cases db' quizId userId answers _ Hq')
      as [[_ H]|[(Hlen' & _)|(Hlen' & _)]]; [exact H| |];
      simpl in Hlen'; apply Permutation_length in Hperm;
      simpl in Hlen, Hperm; lia.
Qed.

Lemma X6_created_question_counts_witness :
  let data := mkQuestionData "?" two_options 1 None 3 in
  exists created db' q',
    createQuizQuestion "q3" "quiz-1" data db_5_5 = (inr created, db') /\
    getQuizById "quiz-1" true db' = (inr (Some q'), db') /\
    totalPoints q' first_only =
    totalPoints (mkQuiz (mkQuizRow "quiz-1" "module-1" 50 false) (quizQuestion db_5_5))
      first_only + 3.
Proof.
  intros data.
  destruct (X6_created_question_counts db_5_5 "q3" "quiz-1" data
              (mkQuiz (mkQuizRow "quiz-1" "module-1" 50 false) (quizQuestion db_5_5))
              _ _ eq_refl eq_refl) as (q' & Hq' & _ & _ & Htot & _).
  eexists. eexists. exists q'. split; [reflexivity|]. split; [exact Hq'|].
  apply Htot.
Defined.

(** A thrown [ApiError] with status 400 or 404 reaches the client as it
    is. *)
Lemma client_error_passes (NODE_ENV : option string) (msg : string) (code : Z) :
  code = 400 \/ code = 404 ->
  let res := errorMiddleware NODE_ENV (ApiError msg code NoDetails) in
  (status res = 400 \/ status res = 404) /\ message res = msg.
Proof. intros H. simpl. auto. Qed.

(** X7: whatever the quiz service throws for a request, on submitting an
    attempt or on creating, updating or deleting a question, the error
    middleware answers it with status 400 or 404 and the service's own
    message, in every mode: none of these failures becomes a 500. *)
Theorem X7_quiz_errors_are_400_or_404 (NODE_ENV : option string) :
  forall (db db' : Db) (err : Error),
    (exists quizId userId answers,
       submitQuizAttempt quizId userId answers db = (inl err, db')) \/
    (exists id quizId data,
       createQuizQuestion id quizId data db = (inl err, db')) \/
    (exists id data, updateQuizQuestion id data db = (inl err, db')) \/
    (exists id, deleteQuizQuestion id db = (inl err, db')) ->
    (status (errorMiddleware NODE_ENV err) = 400 \/
     status (errorMiddleware NODE_ENV err) = 404) /\
    message (errorMiddleware NODE_ENV err) = error_message err.
Proof.
  intros db db' err
    [(quizId & userId & answers & H)|[(id & quizId & data & H)
    |[(id & data & H)|(id & H)]]].
  - destruct (getQuizById_reads quizId true db) as [[q|] Hq].
    + destruct (submitQuizAttempt_cases db quizId userId answers q Hq)
        as [[_ E]|[(_ & _ & E)|(_ & _ & rows & _ & E)]];
        rewrite E in H; try discriminate; injection H as <- _;
        apply client_error_passes; auto.
    + rewrite (submitQuizAttempt_unknown db quizId userId answers Hq) in H.
      injection H as <- _. apply client_error_passes; auto.
  - unfold createQuizQuestion, bind in H.
    destruct (getQuizById_reads quizId false db) as [[q|] Hq]; rewrite Hq in H.
    + destruct ((d_correctOptionIndex data <? 0)
                || (Z.of_nat (List.length (d_options data)) <=? d_correctOptionIndex data));
        [|discriminate].
      injection H as <- _. apply client_error_passes; auto.
    + injection H as <- _. apply client_error_passes; auto.
  - unfold updateQuizQuestion, bind, quizQuestion_findUnique in H.
    destruct (find _ (quizQuestion db)) as [stored|].
    + destruct (update_check stored data); [|discriminate].
      injection H as <- _. apply client_error_passes; auto.
    + injection H as <- _. apply client_error_passes; auto.
  - unfold deleteQuizQuestion, bind, quizQuestion_findUnique in H.
    destruct (find _ (quizQuestion db)) as [stored|]; [discriminate|].
    injection H as <- _. apply client_error_passes; auto.
Qed.

Lemma X7_quiz_errors_are_400_or_404_witness :
  let err := ApiError "All questions must be answered" 400 NoDetails in
  submitQuizAttempt "quiz-1" "u1" three_of_four db_four = (inl err, db_four) /\
  message (errorMiddleware (Some "production") err) = error_message err.
Proof.
  intros err. split; [reflexivity|].
  refine (proj2 (X7_quiz_errors_are_400_or_404 (Some "production")
                   db_four db_four err _)).
  left. exists "quiz-1", "u1", three_of_four. reflexivity.
Defined.

End MoreSubmissions.

(** ** Datastore refusals as responses *)

Section Refusals.
Import Schema EnrollmentScenario.



End Refusals.

(** ** Pagination *)

Section PaginationOptions.
Import Pagination.
Import QArith Qround.
Local Open Scope Z_scope.

Lemma Qfloor_positive (q : Q) : (0 < q)%Q -> 0 <= Qfloor q.
Proof.
  intros Hq. change 0 with (Qfloor (inject_Z 0)).
  apply Qfloor_resp_le. apply Qlt_le_weak. exact Hq.
Qed.

Lemma Qfloor_zero (q : Q) : (0 < q)%Q -> (Qfloor q = 0 <-> (q < 1)%Q).
Proof.
  intros Hq. split.
  - intros E. pose proof (Qlt_floor q) as H. rewrite E in H. exact H.
  - intros H1. pose proof (Qfloor_positive q Hq) as H0.
    assert (Hlt : (inject_Z (Qfloor q) < inject_Z 1)%Q).
    { eapply Qle_lt_trans; [apply Qfloor_le|exact H1]. }
    rewrite <- Zlt_Qlt in Hlt. lia.
Qed.

(** What [x && x > 0 ? Math.floor(x) : fallback] gives, for a fallback
    that is at least 1. *)
Lemma floor_if_positive_spec (x : option Q) (fallback : Z) :
  1 <= fallback ->
  0 <= floor_if_positive x fallback /\
  (floor_if_positive x fallback = 0 <->
   exists q, x = Some q /\ (0 < q)%Q /\ (q < 1)%Q) /\
  (x = None -> floor_if_positive x fallback = fallback) /\
  (forall n, x = Some (inject_Z n) ->
     floor_if_positive x fallback = if 0 <? n then n else fallback).
Proof.
  intros Hf. unfold floor_if_positive. destruct x as [q|].
  - destruct (Qle_bool q 0) eqn:E.
    + apply Qle_bool_iff in E. split; [lia|]. split; [|split].
      * split; [lia|].
        intros (q' & Hq' & Hpos & _). injection Hq' as <-.
        exfalso. apply (Qlt_irrefl 0). eapply Qlt_le_trans; eassumption.
      * discriminate.
      * intros n Hn. injection Hn as ->.
        assert (n <= 0) by (rewrite Zle_Qle; exact E).
        replace (0 <? n) with false by (symmetry; apply Z.ltb_ge; lia).
        reflexivity.
    + assert (Hpos : (0 < q)%Q).
      { apply Qnot_le_lt. intros Hle. apply Qle_bool_iff in Hle. congruence. }
      split; [apply Qfloor_positive; assumption|]. split; [|split].
      * split.
        -- intros E0. exists q. split; [reflexivity|]. split; [assumption|].
           apply Qfloor_zero; assumption.
        -- intros (q' & Hq' & _ & Hlt). injection Hq' as <-.
           apply Qfloor_zero; assumption.
      * discriminate.
      * intros n Hn. injection Hn as ->. rewrite Qfloor_Z.
        assert (0 < n) by (rewrite Zlt_Qlt; exact Hpos).
        replace (0 <? n) with true by (symmetry; apply Z.ltb_lt; lia).
        reflexivity.
  - split; [lia|]. split; [|split].
    + split; [lia|]. intros (q & Hq & _). discriminate.
    + reflexivity.
    + discriminate.
Qed.

(** X9: the normalised page is never negative and the normalised limit lies
    between 0 and 100.  A whole number above 0 is kept as the page, and as
    the limit up to the cap of 100; a missing value, NaN, 0 and negative
    numbers give page 1 and limit 10.  Page 0 and limit 0 do arise, exactly
    from a number strictly between 0 and 1, which passes the test [> 0]
    and is floored to 0. *)
Theorem X9_normalized_pagination (options : Options) :
  let r := normalizePaginationOptions options in
  (0 <= page r /\ 0 <= limit r <= 100) /\
  (page r = 0 <-> exists q, o_page options = Some q /\ (0 < q)%Q /\ (q < 1)%Q) /\
  (limit r = 0 <-> exists q, o_limit options = Some q /\ (0 < q)%Q /\ (q < 1)%Q) /\
  (o_page options = None -> page r = 1) /\
  (o_limit options = None -> limit r = 10) /\
  (forall n, o_page options = Some (inject_Z n) ->
     page r = if 0 <? n then n else 1) /\
  (forall n, o_limit options = Some (inject_Z n) ->
     limit r = if 0 <? n then Z.min n 100 else 10).
Proof.
  unfold normalizePaginationOptions. cbn [page limit].
  destruct (floor_if_positive_spec (o_page options) DEFAULT_PAGE)
    as (P0 & P1 & P2 & P3); [unfold DEFAULT_PAGE; lia|].
  destruct (floor_if_positive_spec (o_limit options) DEFAULT_LIMIT)
    as (L0 & L1 & L2 & L3); [unfold DEFAULT_LIMIT; lia|].
  unfold MAX_LIMIT, DEFAULT_PAGE, DEFAULT_LIMIT in *.
  split; [lia|]. split; [exact P1|]. split.
  { rewrite <- L1. lia. }
  split; [exact P2|]. split.
  { intros H. rewrite (L2 H). reflexivity. }
  split; [exact P3|].
  intros n H. rewrite (L3 n H). destruct (0 <? n); reflexivity.
Qed.

Lemma X9_normalized_pagination_witness :
  let options := mkOptions (Some (1 # 2)%Q) (Some (inject_Z 250)) in
  exists q, o_page options = Some q /\ (0 < q)%Q /\ (q < 1)%Q /\
    page (normalizePaginationOptions options) = 0 /\
    limit (normalizePaginationOptions options) = 100.
Proof.
  intros options. exists (1 # 2)%Q.
  assert (H : exists q, o_page options = Some q /\ (0 < q)%Q /\ (q < 1)%Q).
  { exists (1 # 2)%Q. repeat split. }
  split; [reflexivity|]. split; [reflexivity|]. split; [reflexivity|].
  split.
  - exact (proj2 (proj1 (proj2 (X9_normalized_pagination options))) H).
  - exact (proj2 (proj2 (proj2 (proj2 (proj2 (proj2
             (X9_normalized_pagination options)))))) 250 eq_refl).
Defined.

End PaginationOptions.

(** ** The number of pages *)

Section PageCount.
Import Pagination.

(** [shr_fexp], spelled out: the mantissa is divided by the power of two
    that brings the exponent to the format's. *)
Lemma shr_fexp_spec (m e : Z) (l : location) :
  0 <= m ->
  let n := Z.max 0 (Z.max (Zdigits2 m + e - 53) (-1074) - e) in
  exists mrs,
    shr_fexp prec emax m e l = (mrs, e + n) /\ shr_m mrs = m / 2 ^ n.
Proof.
  intros Hm n. unfold shr_fexp, shr. rewrite fexp_eq.
  destruct (Z.max (Zdigits2 m + e - 53) (-1074) - e) as [|p|p] eqn:En;
    subst n; simpl Z.max.
  - eexists. split; [f_equal; lia|].
    rewrite shr_m_of_loc, Z.div_1_r. reflexivity.
  - eexists. split; [reflexivity|].
    pose proof (shifted_iter p (shr_record_of_loc m l)) as Hsh.
    unfold shifted in Hsh. rewrite shr_m_of_loc in Hsh.
    destruct (Hsh Hm) as [Hq _]. exact Hq.
  - eexists. split; [f_equal; lia|].
    rewrite shr_m_of_loc, Z.div_1_r. reflexivity.
Qed.

Lemma round_nearest_even_range (m : Z) (l : location) :
  m <= round_nearest_even m l <= m + 1.
Proof.
  destruct l as [|[]]; cbn [round_nearest_even]; try lia.
  destruct (Z.even m); lia.
Qed.

Lemma Zdigits2_eq (m d : Z) :
  0 < d -> 2 ^ (d - 1) <= m < 2 ^ d -> Zdigits2 m = d.
Proof.
  intros Hd [Hlo Hhi].
  assert (Hm : 0 < m).
  { assert (0 < 2 ^ (d - 1)) by (apply Z.pow_pos_nonneg; lia). lia. }
  rewrite Zdigits2_log2 by assumption.
  rewrite (Z.log2_unique m (d - 1)); [lia|lia|].
  replace (Z.succ (d - 1)) with d by lia. lia.
Qed.

(** Rounding a mantissa of 53 or 54 bits loses less than four units of its
    last place, and raises the exponent by at most 2. *)
Lemma binary_round_aux_floor (mx ex : Z) (lx : location) :
  2 ^ 52 <= mx < 2 ^ 54 -> -1074 <= ex <= 969 ->
  exists m e,
    binary_round_aux prec emax false mx ex lx = S754_finite false m e /\
    ex <= e <= ex + 2 /\
    mx - 3 <= Z.pos m * 2 ^ (e - ex).
Proof.
  intros [Hlo Hhi] Hex. unfold binary_round_aux.
  assert (Hmx : 0 <= mx) by lia.
  destruct (shr_fexp_spec mx ex lx Hmx) as (mrs' & -> & Hm').
  set (n1 := Z.max 0 (Z.max (Zdigits2 mx + ex - 53) (-1074) - ex)) in *.
  assert (Hn1 : (n1 = 0 /\ mx < 2 ^ 53) \/ (n1 = 1 /\ 2 ^ 53 <= mx)).
  { destruct (Z_lt_le_dec mx (2 ^ 53)) as [H|H].
    - left. split; [|assumption]. unfold n1.
      rewrite (Zdigits2_eq mx 53) by lia. lia.
    - right. split; [|assumption]. unfold n1.
      rewrite (Zdigits2_eq mx 54) by lia. lia. }
  assert (Hm'r : 2 ^ 52 <= shr_m mrs' < 2 ^ 53 /\ mx - 1 <= shr_m mrs' * 2 ^ n1).
  { rewrite Hm'. destruct Hn1 as [[-> H]|[-> H]].
    - rewrite Z.div_1_r. change (2 ^ 0) with 1. lia.
    - change (2 ^ 1) with 2.
      pose proof (Z.div_mod mx 2 ltac:(lia)).
      pose proof (Z.mod_pos_bound mx 2 ltac:(lia)).
      change (2 ^ 54) with (2 * 2 ^ 53) in Hhi.
      change (2 ^ 53) with (2 * 2 ^ 52) in H. lia. }
  destruct Hm'r as [Hm'r Hm'lo].
  pose proof (round_nearest_even_range (shr_m mrs') (loc_of_shr_record mrs')) as Hr.
  set (m1 := round_nearest_even (shr_m mrs') (loc_of_shr_record mrs')) in *.
  assert (Hm1 : 0 <= m1) by lia.
  pose proof (shr_fexp_spec m1 (ex + n1) loc_Exact Hm1) as Hspec.
  cbv zeta in Hspec. destruct Hspec as (mrs'' & E'' & Hm''). rewrite E''.
  set (n2 := Z.max 0 (Z.max (Zdigits2 m1 + (ex + n1) - 53) (-1074) - (ex + n1))) in *.
  assert (Hn2 : (n2 = 0 /\ m1 < 2 ^ 53) \/ (n2 = 1 /\ m1 = 2 ^ 53)).
  { destruct (Z_lt_le_dec m1 (2 ^ 53)) as [H|H].
    - left. split; [|assumption]. unfold n2.
      rewrite (Zdigits2_eq m1 53) by lia. lia.
    - right. assert (E : m1 = 2 ^ 53) by lia. split; [|assumption].
      unfold n2. rewrite (Zdigits2_eq m1 54) by lia. lia. }
  assert (Hfin : 2 ^ 52 <= shr_m mrs'' /\ m1 - 1 <= shr_m mrs'' * 2 ^ n2).
  { rewrite Hm''. destruct Hn2 as [[-> H]|[-> H]].
    - rewrite Z.div_1_r. change (2 ^ 0) with 1. lia.
    - rewrite H. change (2 ^ 53 / 2 ^ 1) with (2 ^ 52). lia. }
  destruct Hfin as [Hfin Hfinlo].
  destruct (shr_m mrs'') as [|m|m] eqn:Em; try lia.
  replace (ex + n1 + n2 <=? emax - prec) with true
    by (symmetry; apply Z.leb_le; unfold emax, prec; lia).
  exists m, (ex + n1 + n2). split; [reflexivity|]. split; [lia|].
  replace (ex + n1 + n2 - ex) with (n1 + n2) by lia.
  rewrite Z.pow_add_r by lia.
  assert (H1 : 1 <= 2 ^ n1 <= 2)
    by (destruct Hn1 as [[-> _]|[-> _]]; simpl; lia).
  assert (H2 : 1 <= 2 ^ n2 <= 2)
    by (destruct Hn2 as [[-> _]|[-> _]]; simpl; lia).
  nia.
Qed.

(** The quotient of two integers as doubles lies, like the exact quotient,
    between [K - 1] (excluded) and [K] (included), as long as the dividend
    is below 2^51. *)
Lemma div_between (a b K : Z) :
  0 < a < 2 ^ 51 -> 0 < b < 2 ^ 53 -> (K - 1) * b < a <= K * b ->
  exists m e,
    div (of_int a) (of_int b) = S754_finite false m e /\
    e <= 0 /\ (K - 1) * 2 ^ (- e) < Z.pos m <= K * 2 ^ (- e).
Proof.
  intros Ha Hb HK.
  assert (HK0 : 0 < K < 2 ^ 53) by nia.
  destruct (of_int_spec a) as (m1 & e1 & Ea & He1 & Hm1 & Hd1); [lia|].
  destruct (of_int_spec b) as (m2 & e2 & Eb & He2 & Hm2 & Hd2); [lia|].
  pose proof (Zdigits2_bounds (Z.pos m1) ltac:(lia)) as B1.
  rewrite Hd1 in B1. change (53 - 1) with 52 in B1.
  pose proof (Zdigits2_bounds (Z.pos m2) ltac:(lia)) as B2.
  rewrite Hd2 in B2. change (53 - 1) with 52 in B2.
  assert (He1' : e1 <= -2).
  { destruct (Z_le_gt_dec e1 (-2)) as [H|H]; [assumption|exfalso].
    assert (E : e1 = -1 \/ e1 = 0) by lia.
    destruct E as [E|E]; rewrite E in Hm1; simpl in Hm1; lia. }
  rewrite Ea, Eb. unfold div, SFdiv.
  rewrite SFdiv_core_full_width by assumption. cbn [xorb].
  set (N := Z.pos m1 * 2 ^ 53).
  set (ex := e1 - e2 - 53).
  set (D := 2 ^ (53 - e1)).
  set (C := 2 ^ (0 - ex)).
  assert (HD : 2 ^ 55 <= D).
  { unfold D. apply Z.pow_le_mono_r; lia. }
  assert (HC : 0 < C) by (apply Z.pow_pos_nonneg; unfold ex; lia).
  assert (HN : N = a * D).
  { unfold N, D. rewrite Hm1.
    replace (53 - e1) with (- e1 + 53) by lia.
    rewrite Z.pow_add_r by lia. ring. }
  assert (HCm : Z.pos m2 * C = b * D).
  { unfold C, D, ex. rewrite Hm2.
    rewrite <- Z.mul_assoc, <- Z.pow_add_r by lia.
    f_equal. f_equal. lia. }
  assert (Hq : 2 ^ 52 <= N / Z.pos m2 < 2 ^ 54).
  { unfold N. split.
    - apply Z.div_le_lower_bound; lia.
    - apply Z.div_lt_upper_bound; lia. }
  destruct (binary_round_aux_floor (N / Z.pos m2) ex
              (new_location (Z.pos m2) (N mod Z.pos m2)) Hq ltac:(unfold ex; lia))
    as (m & e & E & He & Hlo).
  assert (Hle : SF_le (binary_round_aux prec emax false (N / Z.pos m2) ex
                         (new_location (Z.pos m2) (N mod Z.pos m2))) K 0).
  { assert (Hnum : N <= Z.pos m2 * (K * C)).
    { replace (Z.pos m2 * (K * C)) with (K * (Z.pos m2 * C)) by ring.
      rewrite HCm, HN. nia. }
    apply binary_round_aux_le.
    - unfold representable. lia.
    - unfold ex. lia.
    - lia.
    - fold C. apply Z.div_le_upper_bound; lia.
    - intros Hloc. fold C. apply Z.div_lt_upper_bound; [lia|].
      destruct (Z.eq_dec (N mod Z.pos m2) 0) as [Hr|Hr].
      + exfalso. apply Hloc. rewrite Hr. apply new_location_0.
      + assert (N <> Z.pos m2 * (K * C)).
        { intros Heq. apply Hr. rewrite Heq, Z.mul_comm. apply Z.mod_mul. lia. }
        lia. }
  rewrite E in Hle |- *. destruct Hle as [He0 Hup].
  exists m, e. split; [reflexivity|]. split; [assumption|].
  replace (- e) with (0 - e) by lia. split; [|assumption].
  set (P := 2 ^ (e - ex)) in *. set (R := 2 ^ (0 - e)) in *.
  assert (HP : 0 < P) by (apply Z.pow_pos_nonneg; lia).
  assert (HR : 0 < R) by (apply Z.pow_pos_nonneg; lia).
  assert (HCRP : C = R * P).
  { unfold C, R, P. rewrite <- Z.pow_add_r by lia. f_equal. lia. }
  assert (Hfour : (K - 1) * C + 4 <= N / Z.pos m2).
  { apply Z.div_le_lower_bound; [lia|].
    replace (Z.pos m2 * ((K - 1) * C + 4))
      with ((K - 1) * (Z.pos m2 * C) + 4 * Z.pos m2) by ring.
    rewrite HCm, HN.
    assert ((K - 1) * b + 1 <= a) by lia.
    assert (((K - 1) * b + 1) * D <= a * D)
      by (apply Z.mul_le_mono_nonneg_r; lia).
    replace ((K - 1) * (b * D)) with ((K - 1) * b * D) by ring.
    lia. }
  assert (Hlt : (K - 1) * R * P < Z.pos m * P).
  { replace ((K - 1) * R * P) with ((K - 1) * (R * P)) by ring.
    rewrite <- HCRP. lia. }
  apply Z.mul_lt_mono_pos_r in Hlt; assumption.
Qed.

(** [Math.ceil] of a double that lies between [K - 1] (excluded) and [K]
    (included) is [K]. *)
Lemma Math_ceil_between (m : positive) (e K : Z) :
  e <= 0 -> (K - 1) * 2 ^ (- e) < Z.pos m <= K * 2 ^ (- e) ->
  Math_ceil (S754_finite false m e) = Some K.
Proof.
  intros He [Hlo Hhi]. unfold Math_ceil. f_equal.
  destruct (0 <=? e) eqn:E0.
  - apply Z.leb_le in E0. assert (e = 0) by lia. subst e.
    simpl in *. lia.
  - set (R := 2 ^ (- e)) in *.
    assert (HR : 0 < R) by (apply Z.pow_pos_nonneg; lia).
    rewrite <- (Z.div_unique (- Z.pos m) R (- K) (K * R - Z.pos m)); lia.
Qed.

(** The number of pages of a listing is the ceiling of total / limit. *)
Lemma pages_ceiling (total limit : Z) :
  0 <= total < 2 ^ 51 -> 0 < limit < 2 ^ 53 ->
  exists n,
    Math_ceil (div (of_int total) (of_int limit)) = Some n /\
    (n - 1) * limit < total <= n * limit.
Proof.
  intros Ht Hl.
  destruct (Z.eq_dec total 0) as [->|Hne].
  - exists 0. rewrite of_int_0.
    destruct (of_int_spec limit) as (m2 & e2 & -> & _); [lia|].
    split; [reflexivity|lia].
  - set (K := (total + limit - 1) / limit).
    pose proof (Z.div_mod (total + limit - 1) limit ltac:(lia)) as Hdm.
    pose proof (Z.mod_pos_bound (total + limit - 1) limit ltac:(lia)) as Hmb.
    fold K in Hdm.
    assert (HK : (K - 1) * limit < total <= K * limit) by lia.
    destruct (div_between total limit K ltac:(lia) Hl HK)
      as (m & e & -> & He & Hm).
    exists K. split; [|assumption].
    apply Math_ceil_between; assumption.
Qed.

End PageCount.

Section PageCountOfAListing.
Import Pagination.

(** X10: the [pages] of a paginated response are the exact number of pages,
    the least [n] with [total <= n * limit], although the quotient is
    computed in doubles and rounded: for every limit from 1 up to 2^53 and
    every total below 2^51. *)
Theorem X10_pages_is_the_ceiling {T : Type} (rows : list T) (count : Z)
  (options : PaginationOptions) :
  0 <= count < 2 ^ 51 -> 0 < limit options < 2 ^ 53 ->
  exists n,
    pages (createPaginatedResponse rows count options) = Some n /\
    (n - 1) * limit options < count <= n * limit options.
Proof.
  intros Hc Hl. unfold createPaginatedResponse. cbn [pages].
  apply pages_ceiling; assumption.
Qed.

Lemma X10_pages_is_the_ceiling_witness :
  exists n,
    pages (createPaginatedResponse (@nil unit) 25 (mkPaginationOptions 1 10))
    = Some n /\ n = 3.
Proof.
  destruct (X10_pages_is_the_ceiling (@nil unit) 25 (mkPaginationOptions 1 10))
    as (n & E & H); [lia|cbn [limit]; lia|].
  exists n. split; [exact E|]. cbn [limit] in H. lia.
Defined.

End PageCountOfAListing.

(** ** Listing the attempts of a quiz *)

Section Attempts.
Import Pagination QuizQueries.
Import QArith Qround.
Local Open Scope Z_scope.

Variable newest_first : list QuizAttempt -> list QuizAttempt.
Variable negative_skip : Error.

(** [getQuizAttempts], run. *)
Lemma getQuizAttempts_run (quizId : string) (params : GetQuizAttemptsQuery)
  (db : Db) :
  let o := normalizePaginationOptions
             (mkOptions (query_page params) (query_limit params)) in
  let matching := filter (attempt_matches quizId params) (quizAttempt db) in
  getQuizAttempts newest_first negative_skip quizId params db =
  match find (fun r => String.eqb (quiz_id r) quizId && negb (isDeleted r))
          (quiz db) with
  | None => (inl (ApiError "Quiz not found" 404 NoDetails), db)
  | Some _ =>
      if (page o - 1) * limit o <? 0 then (inl negative_skip, db)
      else
        (inr (createPaginatedResponse
                (firstn (Z.to_nat (limit o))
                   (skipn (Z.to_nat ((page o - 1) * limit o))
                      (newest_first matching)))
                (Z.of_nat (List.length matching)) o),
         db)
  end.
Proof.
  intros o matching. unfold o, matching.
  cbv beta iota zeta delta [getQuizAttempts QuizService.bind getQuizById
    quiz_findFirst QuizService.ret QuizService.throw getPrismaSkipTake
    quizAttempt_count quizAttempt_findMany].
  destruct (find _ (quiz db)) as [r|]; [|reflexivity].
  cbv beta iota.
  destruct (_ <? 0); reflexivity.
Qed.

Lemma attempt_matches_spec (quizId : string) (params : GetQuizAttemptsQuery)
  (a : QuizAttempt) :
  attempt_matches quizId params a = true ->
  attempt_quizId a = quizId /\
  (forall u, query_userId params = Some u -> u <> EmptyString ->
     attempt_userId a = u) /\
  (forall p, query_passed params = Some p -> passed a = p).
Proof.
  unfold attempt_matches. intros H.
  apply andb_true_iff in H. destruct H as [H Hp].
  apply andb_true_iff in H. destruct H as [Hq Hu].
  split; [apply String.eqb_eq; assumption|]. split.
  - intros u Eu Hne. rewrite Eu in Hu.
    destruct (String.eqb u EmptyString) eqn:E.
    + apply String.eqb_eq in E. contradiction.
    + apply String.eqb_eq. assumption.
  - intros p Ep. rewrite Ep in Hp. apply Bool.eqb_prop. assumption.
Qed.

Lemma firstn_skipn_In {A : Type} (n k : nat) (l : list A) (x : A) :
  In x (firstn n (skipn k l)) -> In x l.
Proof.
  intros H.
  rewrite <- (firstn_skipn k l). apply in_or_app. right.
  rewrite <- (firstn_skipn n (skipn k l)). apply in_or_app. left. exact H.
Qed.


(** Division by the double 0 gives an infinity or NaN. *)
Lemma pages_none (x : spec_float) :
  Math_ceil (JsNumber.div x (of_int 0)) = None.
Proof. rewrite of_int_0. destruct x as [[]|[]| |[] m e]; reflexivity. Qed.

(** A whole number of at least 1 is its own floor. *)
Lemma floor_if_positive_whole (n fallback : Z) :
  1 <= n -> floor_if_positive (Some (inject_Z n)) fallback = n.
Proof.
  intros Hn. unfold floor_if_positive.
  destruct (Qle_bool (inject_Z n) 0) eqn:E.
  - apply Qle_bool_iff in E. change 0%Q with (inject_Z 0) in E.
    rewrite <- Zle_Qle in E. lia.
  - apply Qfloor_Z.
Qed.

Lemma normalized_limit_range (options : Options) :
  0 <= limit (normalizePaginationOptions options) <= 100.
Proof.
  unfold normalizePaginationOptions. cbn [limit].
  destruct (floor_if_positive_spec (o_limit options) DEFAULT_LIMIT) as (L0 & _);
    [unfold DEFAULT_LIMIT; lia|].
  unfold MAX_LIMIT. lia.
Qed.

(** X11: a page of attempts.  The listing writes nothing; [total] counts
    the attempts of the quiz that match the filter, whatever the page; the
    page holds at most [limit] rows, [limit] being at most 100; and every
    row on it is a stored attempt of this quiz, by the learner asked for
    when [userId] is given and not empty, with the outcome asked for when
    [passed] is given. *)
Theorem X11_a_page_of_attempts (quizId : string) (params : GetQuizAttemptsQuery)
  (db db' : Db) (response : PaginatedResponse QuizAttempt) :
  (forall l a, In a (newest_first l) -> In a l) ->
  getQuizAttempts newest_first negative_skip quizId params db
  = (inr response, db') ->
  db' = db /\
  total response
  = Z.of_nat (List.length (filter (attempt_matches quizId params) (quizAttempt db))) /\
  Z.of_nat (List.length (data response)) <= response_limit response <= 100 /\
  Forall (fun a =>
            In a (quizAttempt db) /\ attempt_quizId a = quizId /\
            (forall u, query_userId params = Some u -> u <> EmptyString ->
               attempt_userId a = u) /\
            (forall p, query_passed params = Some p -> passed a = p))
    (data response).
Proof.
  intros Hsub. rewrite getQuizAttempts_run.
  destruct (find _ (quiz db)) as [r|]; [|discriminate].
  set (o := normalizePaginationOptions _).
  destruct (_ <? 0); [discriminate|].
  intros H. injection H as <- <-.
  pose proof (normalized_limit_range
                (mkOptions (query_page params) (query_limit params))) as Hl.
  fold o in Hl.
  unfold createPaginatedResponse.
  cbn [total data response_limit].
  split; [reflexivity|]. split; [reflexivity|]. split.
  - split; [|lia].
    pose proof (firstn_le_length (Z.to_nat (limit o))
      (skipn (Z.to_nat ((page o - 1) * limit o))
         (newest_first (filter (attempt_matches quizId params) (quizAttempt db)))))
      as H.
    apply Nat2Z.inj_le in H. rewrite Z2Nat.id in H by lia. exact H.
  - apply Forall_forall. intros a Ha.
    apply firstn_skipn_In, Hsub, filter_In in Ha. destruct Ha as [Hin Hm].
    split; [assumption|]. apply attempt_matches_spec. assumption.
Qed.



(** X13: a limit strictly between 0 and 1 is floored to 0.  The listing
    then succeeds with no rows, whatever finite page is asked for, and its page
    count is no number at all (the quotient by 0 is an infinity or NaN,
    [null] in the JSON answer), while [total] still counts the matching
    attempts. *)
Theorem X13_limit_below_one (quizId : string) (params : GetQuizAttemptsQuery)
  (db : Db) (q : Q) :
  find (fun r => String.eqb (quiz_id r) quizId && negb (isDeleted r)) (quiz db)
  <> None ->
  query_limit params = Some q -> (0 < q)%Q -> (q < 1)%Q ->
  exists response,
    getQuizAttempts newest_first negative_skip quizId params db
    = (inr response, db) /\
    data response = [] /\ response_limit response = 0 /\
    pages response = None /\
    total response
    = Z.of_nat (List.length (filter (attempt_matches quizId params) (quizAttempt db))).
Proof.
  intros Hfind Hlimit H0 H1. rewrite getQuizAttempts_run.
  destruct (find _ (quiz db)) as [r|]; [|congruence].
  assert (Hl : limit (normalizePaginationOptions
                        (mkOptions (query_page params) (query_limit params))) = 0).
  { unfold normalizePaginationOptions. cbn [limit o_limit]. rewrite Hlimit.
    unfold floor_if_positive.
    destruct (Qle_bool q 0) eqn:E.
    - apply Qle_bool_iff in E. exfalso.
      apply (Qlt_irrefl 0). eapply Qlt_le_trans; eassumption.
    - rewrite (proj2 (Qfloor_zero q H0) H1). reflexivity. }
  set (o := normalizePaginationOptions _) in *.
  rewrite Hl, Z.mul_0_r. cbn [Z.ltb Z.compare Z.to_nat firstn].
  eexists. split; [reflexivity|].
  unfold createPaginatedResponse. cbn [data response_limit pages total].
  rewrite Hl. split; [reflexivity|]. split; [reflexivity|].
  split; [apply pages_none|reflexivity].
Qed.

(** X14: what the query is given as [skip] and [take].  [take] is the
    normalised limit, between 0 and 100; [skip] is [(page - 1) * take] for
    a whole page from 1 up to 2^46.  [skip] is negative exactly when the
    page asked for lies strictly between 0 and 1 and the limit does not,
    and it is then [- take]. *)
Theorem X14_skip_and_take (options : Options) :
  let st := getPrismaSkipTake (normalizePaginationOptions options) in
  (0 <= snd st <= 100) /\
  (forall p, 1 <= p < 2 ^ 46 -> o_page options = Some (inject_Z p) ->
     fst st = (p - 1) * snd st /\ 0 <= fst st) /\
  (fst st < 0 <->
   (exists q, o_page options = Some q /\ (0 < q)%Q /\ (q < 1)%Q) /\
   ~ (exists q, o_limit options = Some q /\ (0 < q)%Q /\ (q < 1)%Q)) /\
  (fst st < 0 -> fst st = - snd st).
Proof.
  pose proof (normalized_limit_range options) as Hl.
  unfold getPrismaSkipTake, normalizePaginationOptions in *.
  cbn [page limit fst snd] in *.
  destruct (floor_if_positive_spec (o_page options) DEFAULT_PAGE)
    as (P0 & P1 & _ & _); [unfold DEFAULT_PAGE; lia|].
  destruct (floor_if_positive_spec (o_limit options) DEFAULT_LIMIT)
    as (L0 & L1 & _ & _); [unfold DEFAULT_LIMIT; lia|].
  set (pg := floor_if_positive (o_page options) DEFAULT_PAGE) in *.
  set (lm := floor_if_positive (o_limit options) DEFAULT_LIMIT) in *.
  unfold MAX_LIMIT in *.
  split; [exact Hl|]. split; [|split].
  - intros p Hp E. unfold pg. rewrite E, floor_if_positive_whole by lia.
    split; [reflexivity|nia].
  - rewrite <- P1, <- L1. split.
    + intros H. split; [nia|]. intros E. rewrite E in H. simpl in H. lia.
    + intros [E Hne]. rewrite E. lia.
  - intros H. assert (pg = 0) by nia. lia.
Qed.

End Attempts.

Lemma X11_a_page_of_attempts_witness :
  let params := QuizQueries.mkGetQuizAttemptsQuery (Some "u1") None None None in
  let a1 := mkQuizAttempt "u1" "quiz-1" 50 false [] in
  let a2 := mkQuizAttempt "u2" "quiz-1" 100 true [] in
  let db := QuizService.mkDb (quiz Scenario.db_5_5) [] [a1; a2] in
  exists response,
    QuizQueries.getQuizAttempts (@rev QuizAttempt) Schema.P2025 "quiz-1" params db
    = (inr response, db) /\
    Pagination.total response = 1 /\
    Forall (fun a => attempt_userId a = "u1") (Pagination.data response).
Proof.
  intros params a1 a2 db. eexists. split; [vm_compute; reflexivity|].
  destruct (X11_a_page_of_attempts (@rev QuizAttempt) Schema.P2025
              "quiz-1" params db db _
              (fun l a H => proj2 (in_rev l a) H) eq_refl)
    as (_ & Ht & _ & Hall).
  split; [exact Ht|].
  eapply Forall_impl; [|exact Hall].
  intros a (_ & _ & Hu & _). apply Hu; [reflexivity|discriminate].
Defined.


Lemma X14_skip_and_take_witness :
  fst (Pagination.getPrismaSkipTake
         (Pagination.normalizePaginationOptions
            (Pagination.mkOptions (Some (QArith_base.Qmake 1 2)) None))) = -10.
Proof.
  pose proof (X14_skip_and_take
                (Pagination.mkOptions (Some (QArith_base.Qmake 1 2)) None))
    as (_ & _ & Hiff & Hneg).
  rewrite Hneg; [reflexivity|].
  apply Hiff. split.
  - exists (QArith_base.Qmake 1 2). repeat split.
  - intros (q & H & _). discriminate.
Defined.

Lemma X13_limit_below_one_witness :
  let params :=
    QuizQueries.mkGetQuizAttemptsQuery None None None
      (Some (QArith_base.Qmake 1 2)) in
  let a1 := mkQuizAttempt "u1" "quiz-1" 50 false [] in
  let db := QuizService.mkDb (quiz Scenario.db_5_5) [] [a1] in
  exists response,
    QuizQueries.getQuizAttempts (@rev QuizAttempt) Schema.P2025 "quiz-1" params db
    = (inr response, db) /\
    Pagination.data response = [] /\ Pagination.response_limit response = 0 /\
    Pagination.pages response = None /\ Pagination.total response = 1.
Proof.
  intros params a1 db.
  refine (X13_limit_below_one (@rev QuizAttempt) Schema.P2025 "quiz-1" params db
            (QArith_base.Qmake 1 2) _ eq_refl _ _).
  - vm_compute. discriminate.
  - reflexivity.
  - reflexivity.
Defined.

(** ** Updates of one row by its primary key *)

Section KeyedFind.
Context {A : Type} (key : A -> string) (id : string).

Lemma find_absent (p : A -> bool) (l : list A) :
  ~ In id (map key l) ->
  find (fun x => String.eqb (key x) id && p x) l = None.
Proof.
  induction l as [|x l IH]; simpl; [reflexivity|].
  intros Hn. destruct (String.eqb (key x) id) eqn:E.
  - apply String.eqb_eq in E. tauto.
  - simpl. apply IH. tauto.
Qed.

Lemma find_keyed (p : A -> bool) (l : list A) (m : A) :
  find (fun x => String.eqb (key x) id && p x) l = Some m ->
  In m l /\ key m = id /\ p m = true.
Proof.
  intros H. apply find_some in H. destruct H as [Hin H].
  apply andb_true_iff in H. destruct H as [H1 H2].
  apply String.eqb_eq in H1. auto.
Qed.

Lemma find_first (l : list A) (m : A) :
  NoDup (map key l) -> In m l -> key m = id ->
  find (fun x => String.eqb (key x) id) l = Some m.
Proof.
  induction l as [|x l IH]; simpl; [tauto|].
  intros Hnd [->|Hin] Hk.
  - rewrite Hk, String.eqb_refl. reflexivity.
  - inversion Hnd as [|? ? Hx Hnd']; subst.
    destruct (String.eqb (key x) (key m)) eqn:E.
    + apply String.eqb_eq in E. exfalso. apply Hx. rewrite E.
      apply in_map. assumption.
    + apply IH; auto.
Qed.

Lemma find_missing (l : list A) :
  ~ In id (map key l) -> find (fun x => String.eqb (key x) id) l = None.
Proof.
  induction l as [|x l IH]; simpl; [reflexivity|].
  intros Hn. destruct (String.eqb (key x) id) eqn:E.
  - apply String.eqb_eq in E. tauto.
  - apply IH. tauto.
Qed.

Lemma find_present (l : list A) :
  In id (map key l) ->
  exists m, find (fun x => String.eqb (key x) id) l = Some m /\
            In m l /\ key m = id.
Proof.
  intros Hin. destruct (find (fun x => String.eqb (key x) id) l) as [m|] eqn:E.
  - exists m. apply find_some in E. destruct E as [H1 H2].
    apply String.eqb_eq in H2. auto.
  - exfalso. apply in_map_iff in Hin. destruct Hin as (x & Hk & Hx).
    pose proof (find_none _ _ E x Hx) as Hn. simpl in Hn.
    apply String.eqb_neq in Hn. contradiction.
Qed.

End KeyedFind.

Section KeyedUpdate.
Context {A : Type} (key : A -> string) (id : string) (change : A -> A).

(** The function that replaces the first row of the key [id]. *)
Variable rep : list A -> list A.
Hypothesis rep_nil : rep [] = [].
Hypothesis rep_cons : forall x l,
  rep (x :: l) = if String.eqb (key x) id then change x :: l else x :: rep l.
Hypothesis change_key : forall x, key (change x) = key x.

Lemma rep_keys (l : list A) : map key (rep l) = map key l.
Proof using rep_nil rep_cons change_key.
  induction l as [|x l IH]; [rewrite rep_nil; reflexivity|].
  rewrite rep_cons. destruct (String.eqb (key x) id); simpl.
  - rewrite change_key. reflexivity.
  - rewrite IH. reflexivity.
Qed.

Lemma rep_find_same (p : A -> bool) (l : list A) (m : A) :
  NoDup (map key l) ->
  find (fun x => String.eqb (key x) id && p x) l = Some m ->
  find (fun x => String.eqb (key x) id && p x) (rep l)
  = if p (change m) then Some (change m) else None.
Proof using rep_nil rep_cons change_key.
  induction l as [|x l IH]; [discriminate|].
  intros Hnd Hfind. inversion Hnd as [|? ? Hx Hnd']; subst.
  rewrite rep_cons. simpl in Hfind.
  destruct (String.eqb (key x) id) eqn:E.
  - apply String.eqb_eq in E.
    assert (Hm : m = x).
    { destruct (p x); simpl in Hfind; [congruence|].
      apply (find_keyed key id) in Hfind. destruct Hfind as (Hin & Hk & _).
      exfalso. apply Hx. rewrite E, <- Hk. apply in_map. assumption. }
    subst m. simpl. rewrite change_key, E, String.eqb_refl. simpl.
    destruct (p (change x)); [reflexivity|].
    apply find_absent. rewrite <- E. assumption.
  - simpl in Hfind. simpl. rewrite E. simpl. apply IH; assumption.
Qed.

Lemma rep_find_other (p : A -> bool) (id' : string) (l : list A) :
  id' <> id ->
  find (fun x => String.eqb (key x) id' && p x) (rep l)
  = find (fun x => String.eqb (key x) id' && p x) l.
Proof using rep_nil rep_cons change_key.
  intros Hne. induction l as [|x l IH]; [rewrite rep_nil; reflexivity|].
  rewrite rep_cons. destruct (String.eqb (key x) id) eqn:E; simpl.
  - apply String.eqb_eq in E. rewrite change_key, E.
    replace (String.eqb id id') with false
      by (symmetry; apply String.eqb_neq; congruence).
    reflexivity.
  - rewrite IH. reflexivity.
Qed.

Lemma rep_In (l : list A) (y : A) :
  In y (rep l) ->
  In y l \/ exists x, In x l /\ key x = id /\ y = change x.
Proof using rep_nil rep_cons change_key.
  induction l as [|x l IH]; [rewrite rep_nil; tauto|].
  rewrite rep_cons. destruct (String.eqb (key x) id) eqn:E; simpl.
  - apply String.eqb_eq in E. intros [<-|H]; [|tauto].
    right. exists x. auto.
  - intros [<-|H]; [tauto|]. destruct (IH H) as [H'|(x' & H1 & H2)].
    + tauto.
    + right. exists x'. tauto.
Qed.

Lemma rep_In_other (l : list A) (y : A) :
  In y l -> key y <> id -> In y (rep l).
Proof using rep_nil rep_cons change_key.
  induction l as [|x l IH]; [intros []|].
  rewrite rep_cons. intros [->|Hin] Hk.
  - replace (String.eqb (key y) id) with false
      by (symmetry; apply String.eqb_neq; assumption).
    left. reflexivity.
  - destruct (String.eqb (key x) id); simpl; auto.
Qed.

Lemma rep_find_gone (p : A -> bool) (l : list A) :
  (forall x, p (change x) = false) ->
  NoDup (map key l) ->
  find (fun x => String.eqb (key x) id && p x) (rep l) = None.
Proof using rep_nil rep_cons change_key.
  intros Hp. induction l as [|x l IH]; [rewrite rep_nil; reflexivity|].
  intros Hnd. inversion Hnd as [|? ? Hx Hnd']; subst.
  rewrite rep_cons. destruct (String.eqb (key x) id) eqn:E; simpl.
  - rewrite Hp, andb_false_r. apply String.eqb_eq in E.
    apply find_absent. rewrite <- E. assumption.
  - rewrite E. simpl. apply IH. assumption.
Qed.

Lemma rep_In_key (l : list A) (y : A) :
  NoDup (map key l) -> In y (rep l) -> key y = id ->
  exists x, In x l /\ y = change x.
Proof using rep_nil rep_cons change_key.
  induction l as [|x l IH]; [rewrite rep_nil; intros _ []|].
  intros Hnd. inversion Hnd as [|? ? Hx Hnd']; subst.
  rewrite rep_cons. destruct (String.eqb (key x) id) eqn:E; simpl.
  - apply String.eqb_eq in E. intros [<-|Hin] Hk.
    + exists x. auto.
    + exfalso. apply Hx. rewrite E, <- Hk. apply in_map. assumption.
  - intros [<-|Hin] Hk.
    + apply String.eqb_neq in E. contradiction.
    + destruct (IH Hnd' Hin Hk) as (x' & Hx' & ->). exists x'. auto.
Qed.

Lemma rep_In_changed (l : list A) (m : A) :
  NoDup (map key l) -> In m l -> key m = id -> In (change m) (rep l).
Proof using rep_nil rep_cons change_key.
  induction l as [|x l IH]; [intros _ []|].
  intros Hnd. inversion Hnd as [|? ? Hx Hnd']; subst.
  rewrite rep_cons. intros [->|Hin] Hk.
  - rewrite Hk, String.eqb_refl. left. reflexivity.
  - destruct (String.eqb (key x) id) eqn:E.
    + apply String.eqb_eq in E. exfalso. apply Hx. rewrite E, <- Hk.
      apply in_map. assumption.
    + right. apply IH; assumption.
Qed.

End KeyedUpdate.

(** ** Removing a quiz, and the questions of a quiz *)

Section QuizRemoval.
Import QuizQueries.

Lemma insert_by_Sorted {A : Type} (le : A -> A -> bool) (x : A) (l : list A) :
  (forall a b, le a b = true \/ le b a = true) ->
  Sorted (fun a b => le a b = true) l ->
  Sorted (fun a b => le a b = true) (insert_by le x l).
Proof.
  intros Htot Hs. induction Hs as [|y l Hs IH Hhd]; simpl.
  - repeat constructor.
  - destruct (le x y) eqn:E.
    + constructor; [constructor; assumption|constructor; assumption].
    + constructor; [assumption|].
      destruct l as [|z l]; simpl.
      * constructor. destruct (Htot x y); congruence.
      * destruct (le x z); constructor.
        -- destruct (Htot x y); congruence.
        -- inversion Hhd; assumption.
Qed.

Lemma order_by_Sorted {A : Type} (le : A -> A -> bool) (l : list A) :
  (forall a b, le a b = true \/ le b a = true) ->
  Sorted (fun a b => le a b = true) (order_by le l).
Proof.
  intros Htot. induction l as [|x l IH]; simpl.
  - constructor.
  - apply insert_by_Sorted; assumption.
Qed.

(** [getQuizById], run. *)
Lemma getQuizById_run (id : string) (includeQuestions : bool) (db : Db) :
  getQuizById id includeQuestions db =
  (inr
     match find (fun r => String.eqb (quiz_id r) id && negb (isDeleted r))
             (quiz db) with
     | Some r =>
         Some (mkQuiz r
                 (if includeQuestions then
                    order_by (fun a b => String.leb (question_id a) (question_id b))
                      (filter (fun q => String.eqb (quizId q) (quiz_id r))
                         (quizQuestion db))
                  else []))
     | None => None
     end,
   db).
Proof.
  cbv beta iota zeta delta [getQuizById QuizService.bind quiz_findFirst
    quizQuestion_findMany QuizService.ret].
  destruct (find _ (quiz db)) as [r|]; [|reflexivity].
  destruct includeQuestions; reflexivity.
Qed.

(** X15: a deleted quiz is gone for every operation that looks it up.
    The quiz ids being unique, deleting a quiz that exists marks it and
    returns the marked row; its questions and attempts stay stored;
    afterwards the quiz is not found by its id, submissions to it and a
    second deletion are answered 404, and every other quiz is found as
    before. *)
Theorem X15_deleted_quiz_is_gone (id : string) (db : Db) (r : QuizRow) :
  NoDup (map quiz_id (quiz db)) ->
  find (fun r => String.eqb (quiz_id r) id && negb (isDeleted r)) (quiz db)
  = Some r ->
  exists db',
    deleteQuiz id db = (inr (mark_deleted r), db') /\
    quizQuestion db' = quizQuestion db /\
    quizAttempt db' = quizAttempt db /\
    map quiz_id (quiz db') = map quiz_id (quiz db) /\
    (forall includeQuestions,
       getQuizById id includeQuestions db' = (inr None, db')) /\
    (forall id' includeQuestions, id' <> id ->
       fst (getQuizById id' includeQuestions db')
       = fst (getQuizById id' includeQuestions db)) /\
    (forall userId answers,
       submitQuizAttempt id userId answers db'
       = (inl (ApiError "Quiz not found" 404 NoDetails), db')) /\
    deleteQuiz id db' = (inl (ApiError "Quiz not found" 404 NoDetails), db').
Proof.
  intros Hnd Hfind.
  destruct (find_keyed quiz_id id (fun r => negb (isDeleted r)) _ _ Hfind)
    as (Hin & Hk & _).
  pose proof (find_first quiz_id id (quiz db) r Hnd Hin Hk) as Hfirst.
  set (db' := QuizService.mkDb (replace_quiz id mark_deleted (quiz db))
                (quizQuestion db) (quizAttempt db)).
  assert (Hgone : find (fun r => String.eqb (quiz_id r) id && negb (isDeleted r))
                    (quiz db') = None).
  { unfold db'. cbn [quiz].
    rewrite (rep_find_same quiz_id id mark_deleted (replace_quiz id mark_deleted)
               eq_refl (fun _ _ => eq_refl) (fun _ => eq_refl)
               (fun r => negb (isDeleted r)) (quiz db) r Hnd Hfind).
    reflexivity. }
  assert (Hget : forall b, getQuizById id b db' = (inr None, db')).
  { intros b. rewrite getQuizById_run, Hgone. reflexivity. }
  exists db'. split.
  { unfold deleteQuiz, QuizService.bind. rewrite getQuizById_run, Hfind.
    unfold quiz_update. rewrite Hfirst. reflexivity. }
  split; [reflexivity|]. split; [reflexivity|]. split.
  { unfold db'. cbn [quiz].
    apply (rep_keys quiz_id id mark_deleted (replace_quiz id mark_deleted)
             eq_refl (fun _ _ => eq_refl) (fun _ => eq_refl)). }
  split; [exact Hget|]. split.
  { intros id' b Hne. rewrite !getQuizById_run. cbn [fst].
    unfold db'. cbn [quiz quizQuestion].
    rewrite (rep_find_other quiz_id id mark_deleted (replace_quiz id mark_deleted)
               eq_refl (fun _ _ => eq_refl) (fun _ => eq_refl)
               (fun r => negb (isDeleted r)) id' (quiz db) Hne).
    reflexivity. }
  split.
  { intros userId answers. apply submitQuizAttempt_unknown. apply Hget. }
  unfold deleteQuiz, QuizService.bind. rewrite Hget. reflexivity.
Qed.

Lemma X15_deleted_quiz_is_gone_witness :
  exists db',
    deleteQuiz "quiz-1" Scenario.db_5_5
    = (inr (mark_deleted (mkQuizRow "quiz-1" "module-1" 50 false)), db') /\
    quizQuestion db' = quizQuestion Scenario.db_5_5 /\
    deleteQuiz "quiz-1" db'
    = (inl (ApiError "Quiz not found" 404 NoDetails), db').
Proof.
  assert (Hnd : NoDup (map quiz_id (quiz Scenario.db_5_5))).
  { vm_compute. repeat constructor. intros []. }
  destruct (X15_deleted_quiz_is_gone "quiz-1" Scenario.db_5_5
              (mkQuizRow "quiz-1" "module-1" 50 false) Hnd eq_refl)
    as (db' & H1 & H2 & _ & _ & _ & _ & _ & H8).
  exists db'. auto.
Defined.

(** X16: the questions of a quiz.  Without a quiz of this id that is not
    deleted the answer is 404; otherwise the listing writes nothing and
    returns exactly the stored questions of the quiz, each once, in
    ascending order of their ids, the same list that [getQuizById] attaches
    to the quiz and that a submission is graded against. *)
Theorem X16_questions_of_a_quiz (id : string) (db : Db) :
  (find (fun r => String.eqb (quiz_id r) id && negb (isDeleted r)) (quiz db)
   = None ->
   getQuizQuestions id db = (inl (ApiError "Quiz not found" 404 NoDetails), db))
  /\
  (forall r,
     find (fun r => String.eqb (quiz_id r) id && negb (isDeleted r)) (quiz db)
     = Some r ->
     exists qs,
       getQuizQuestions id db = (inr qs, db) /\
       Sorted (fun a b => String.leb (question_id a) (question_id b) = true) qs /\
       Permutation qs
         (filter (fun q => String.eqb (quizId q) id) (quizQuestion db)) /\
       getQuizById id true db = (inr (Some (mkQuiz r qs)), db)).
Proof.
  split.
  - intros Hfind. unfold getQuizQuestions, QuizService.bind.
    rewrite getQuizById_run, Hfind. reflexivity.
  - intros r Hfind.
    destruct (find_keyed quiz_id id (fun r => negb (isDeleted r)) _ _ Hfind)
      as (_ & Hk & _).
    eexists. split.
    { unfold getQuizQuestions, QuizService.bind.
      rewrite getQuizById_run, Hfind. reflexivity. }
    split.
    { apply order_by_Sorted. intros a b. apply String.leb_total. }
    split.
    { apply order_by_Permutation. }
    rewrite getQuizById_run, Hfind, Hk. reflexivity.
Qed.

End QuizRemoval.

Lemma X16_questions_of_a_quiz_witness :
  exists qs,
    QuizQueries.getQuizQuestions "quiz-1" Scenario.db_5_5
    = (inr qs, Scenario.db_5_5) /\
    Sorted (fun a b => String.leb (question_id a) (question_id b) = true) qs.
Proof.
  destruct (proj2 (X16_questions_of_a_quiz "quiz-1" Scenario.db_5_5) _ eq_refl)
    as (qs & H1 & H2 & _).
  exists qs. auto.
Defined.

(** ** Administration of modules *)

Section ModuleAdministration.
Import ModuleService ModuleAdmin.

Lemma status_eqb_eq (a b : ModuleStatus) : status_eqb a b = true <-> a = b.
Proof.
  destruct a, b; simpl; split; try congruence; try discriminate.
  - intros H. apply String.eqb_eq in H. congruence.
  - intros H. injection H as ->. apply String.eqb_refl.
Qed.

(** [updateStatus], run. *)
Lemma updateStatus_run (id : string) (s : ModuleStatus) (db : Db) :
  updateStatus id s db =
  match find (fun m => String.eqb (module_id m) id && negb (isDeleted m))
          (module (core db)) with
  | None => (inl (ApiError "Module not found" 404 NoDetails), db)
  | Some m =>
      if status_eqb s ACTIVE && negb (status_eqb (ModuleService.status m) ACTIVE)
         && (Nat.eqb (contentCount id db) 0 && Nat.eqb (quizCount id db) 0)
      then
        (inl (ApiError
                "Module not ready to be activated: Module must have at least one content item or quiz"
                400 NoDetails), db)
      else module_update id (set_status s) db
  end.
Proof.
  cbv beta iota zeta delta [updateStatus bind getModuleById throw ret
    isReadyToActivate].
  destruct (find _ (module (core db))) as [m|]; [|reflexivity].
  destruct (status_eqb s ACTIVE && negb (status_eqb (ModuleService.status m) ACTIVE));
    [|reflexivity].
  cbv beta iota. rewrite andb_true_l.
  destruct (Nat.eqb (contentCount id db) 0 && Nat.eqb (quizCount id db) 0);
    reflexivity.
Qed.

(** X17: a module is activated only with material.  For a module that
    exists, the ids being unique: a change of status to ACTIVE of a module
    that is not ACTIVE, with no content and no quiz that is not deleted, is
    refused with 400 and changes nothing.  Every other change of status is
    carried out without that check (a change away from ACTIVE, or to ACTIVE
    of a module that is ACTIVE already, even without material): the module
    is returned and found afterwards with the new status, nothing else is
    written, and the module is among those the unlock query reads exactly
    when the new status is ACTIVE. *)
Theorem X17_activation_needs_material (id : string) (s : ModuleStatus)
  (db : Db) (m : ModuleRow) :
  NoDup (map module_id (module (core db))) ->
  find (fun m => String.eqb (module_id m) id && negb (isDeleted m))
    (module (core db)) = Some m ->
  (s = ACTIVE -> ModuleService.status m <> ACTIVE ->
   contentCount id db = 0%nat -> quizCount id db = 0%nat ->
   updateStatus id s db =
   (inl (ApiError
           "Module not ready to be activated: Module must have at least one content item or quiz"
           400 NoDetails), db))
  /\
  (s <> ACTIVE \/ ModuleService.status m = ACTIVE \/
   contentCount id db <> 0%nat \/ quizCount id db <> 0%nat ->
   exists db',
     updateStatus id s db = (inr (set_status s m), db') /\
     getModuleById id db' = (inr (Some (set_status s m)), db') /\
     content db' = content db /\ quiz db' = quiz db /\
     notification db' = notification db /\
     userCourseEnrollment (core db') = userCourseEnrollment (core db) /\
     map module_id (module (core db')) = map module_id (module (core db)) /\
     (In (set_status s m) (course_modules (core db') (courseId m)) <-> s = ACTIVE)).
Proof.
  intros Hnd Hfind.
  destruct (find_keyed module_id id (fun m => negb (isDeleted m)) _ _ Hfind)
    as (Hin & Hk & Hlive).
  pose proof (find_first module_id id _ m Hnd Hin Hk) as Hfirst.
  split.
  - intros -> Hst Hc Hq. rewrite updateStatus_run, Hfind, Hc, Hq.
    replace (status_eqb (ModuleService.status m) ACTIVE) with false.
    + reflexivity.
    + symmetry. apply not_true_is_false. rewrite status_eqb_eq. assumption.
  - intros Hfree. rewrite updateStatus_run, Hfind.
    replace (status_eqb s ACTIVE && negb (status_eqb (ModuleService.status m) ACTIVE)
             && (Nat.eqb (contentCount id db) 0 && Nat.eqb (quizCount id db) 0))
      with false.
    + unfold module_update. rewrite Hfirst.
      eexists. split; [reflexivity|].
      unfold getModuleById. cbn [core module content quiz notification
                                   userCourseEnrollment].
      rewrite (rep_find_same module_id id (set_status s)
                 (replace_module id (set_status s))
                 eq_refl (fun _ _ => eq_refl) (fun _ => eq_refl)
                 (fun m => negb (isDeleted m)) _ m Hnd Hfind).
      change (isDeleted (set_status s m)) with (isDeleted m). rewrite Hlive.
      split; [reflexivity|]. split; [reflexivity|]. split; [reflexivity|].
      split; [reflexivity|]. split; [reflexivity|]. split.
      { apply (rep_keys module_id id (set_status s)
                 (replace_module id (set_status s))
                 eq_refl (fun _ _ => eq_refl) (fun _ => eq_refl)). }
      unfold course_modules. rewrite order_by_In, filter_In.
      cbn [module courseId isDeleted ModuleService.status set_status].
      split.
      * intros [_ H]. rewrite !andb_true_iff in H.
        destruct s; simpl in H; try reflexivity; destruct H; discriminate.
      * intros ->. split.
        -- apply (rep_In_changed module_id id (set_status ACTIVE)
                    (replace_module id (set_status ACTIVE))
                    eq_refl (fun _ _ => eq_refl) (fun _ => eq_refl)
                    _ m Hnd Hin Hk).
        -- rewrite String.eqb_refl, Hlive. reflexivity.
    + symmetry. apply not_true_is_false. intros H.
      rewrite !andb_true_iff, negb_true_iff, !Nat.eqb_eq, status_eqb_eq in H.
      destruct H as [[H1 H2] [H3 H4]].
      destruct Hfree as [Hf|[Hf|[Hf|Hf]]]; try contradiction.
      apply status_eqb_eq in Hf. congruence.
Qed.

Lemma X17_activation_needs_material_witness :
  let db := ModuleAdmin.mkDb (ModuleService.mkDb [UnlockScenario.draft] [])
              [] [] [] in
  updateStatus "m2" ACTIVE db =
  (inl (ApiError
          "Module not ready to be activated: Module must have at least one content item or quiz"
          400 NoDetails), db).
Proof.
  intros db.
  refine (proj1 (X17_activation_needs_material "m2" ACTIVE db
                   UnlockScenario.draft _ eq_refl) eq_refl _ eq_refl eq_refl).
  - vm_compute. repeat constructor. intros [].
  - discriminate.
Defined.

(** The notification of an unlocked module, for one learner. *)
Lemma sendModuleUnlockNotification_run module_title course_title refused
  (user : string) (m : ModuleRow) (db : Db) :
  exists n,
    notification_userId n = user /\
    notification_type n = "CONTENT_UNLOCK" /\ isRead n = false /\
    linkUrl n = ("/courses/" ++ courseId m ++ "/modules/" ++ module_id m)%string /\
    sendModuleUnlockNotification module_title course_title refused user m db
    = match refused n with
      | Some err => (inl err, db)
      | None =>
          (inr n, mkDb (core db) (content db) (quiz db) (notification db ++ [n]))
      end.
Proof.
  eexists. split; [|split; [|split; [|split]]].
  5: { unfold sendModuleUnlockNotification, sendNotification. reflexivity. }
  all: reflexivity.
Qed.

(** The loop over the enrollments: it never fails, it only adds
    notifications, one at most for each enrollment and in their order. *)
Lemma notify_all_run module_title course_title refused (m : ModuleRow)
  (es : list Enrollment) (c : Z) (db : Db) :
  exists sent,
    notify_all module_title course_title refused m es c db
    = (inr (c + Z.of_nat (List.length sent)),
       mkDb (core db) (content db) (quiz db) (notification db ++ sent)) /\
    (List.length sent <= List.length es)%nat /\
    Forall (fun n =>
              notification_type n = "CONTENT_UNLOCK" /\ isRead n = false /\
              refused n = None /\
              linkUrl n
              = ("/courses/" ++ courseId m ++ "/modules/" ++ module_id m)%string /\
              In (notification_userId n) (map userId es)) sent /\
    ((forall n, refused n = None) ->
     map notification_userId sent = map userId es).
Proof.
  revert c db. induction es as [|e es IH]; intros c db.
  - exists []. simpl. rewrite app_nil_r, Z.add_0_r. destruct db.
    repeat split; auto.
  - cbn [notify_all]. unfold bind, try_catch.
    destruct (sendModuleUnlockNotification_run module_title course_title
                refused (userId e) m db) as (n & Hu & Ht & Hr & Hl & ->).
    destruct (refused n) as [err|] eqn:Href.
    + destruct (IH c db) as (sent & -> & Hlen & Hall & Hmap).
      exists sent. split; [reflexivity|]. split; [simpl; lia|]. split.
      * eapply Forall_impl; [|exact Hall]. simpl. intuition.
      * intros Hnone. rewrite Hnone in Href. discriminate.
    + destruct (IH (c + 1)
                  (mkDb (core db) (content db) (quiz db) (notification db ++ [n])))
        as (sent & -> & Hlen & Hall & Hmap).
      exists (n :: sent). cbn [core content quiz notification].
      rewrite <- app_assoc. cbn [app List.length].
      split; [f_equal; f_equal; lia|]. split; [lia|]. split.
      * constructor.
        -- simpl. auto 6.
        -- eapply Forall_impl; [|exact Hall]. simpl. intuition.
      * intros Hnone. simpl. rewrite Hu, (Hmap Hnone). reflexivity.
Qed.

(** X18: the notifications of an unlocked module.  For a module that
    exists the sending never fails, whatever the datastore refuses: it
    returns the number of notifications it stored, which is at most the
    number of active enrollments of the module's course, and equal to it
    when nothing is refused.  It only adds notifications, each unread, of
    type CONTENT_UNLOCK, linking to the module, accepted by the datastore
    and addressed to a learner with an active enrollment in the course. *)
Theorem X18_unlock_notifications module_title course_title refused
  (id : string) (db : Db) (m : ModuleRow) :
  find (fun m => String.eqb (module_id m) id && negb (isDeleted m))
    (module (core db)) = Some m ->
  exists sent db',
    sendModuleUnlockNotifications module_title course_title refused id db
    = (inr (Z.of_nat (List.length sent)), db') /\
    notification db' = notification db ++ sent /\
    core db' = core db /\ content db' = content db /\ quiz db' = quiz db /\
    (List.length sent <= List.length (active_enrollments (courseId m) db))%nat /\
    Forall (fun n =>
              notification_type n = "CONTENT_UNLOCK" /\ isRead n = false /\
              refused n = None /\
              linkUrl n = ("/courses/" ++ courseId m ++ "/modules/" ++ id)%string /\
              In (notification_userId n)
                (map userId (active_enrollments (courseId m) db))) sent /\
    ((forall n, refused n = None) ->
     map notification_userId sent
     = map userId (active_enrollments (courseId m) db)).
Proof.
  intros Hfind.
  destruct (find_keyed module_id id (fun m => negb (isDeleted m)) _ _ Hfind)
    as (_ & Hk & _).
  unfold sendModuleUnlockNotifications, bind, getModuleById. rewrite Hfind.
  destruct (notify_all_run module_title course_title refused m
              (active_enrollments (courseId m) db) 0 db)
    as (sent & -> & Hlen & Hall & Hmap).
  rewrite Hk in Hall.
  exists sent. eexists. split; [reflexivity|].
  cbn [core content quiz notification]. auto 10.
Qed.

Lemma X18_unlock_notifications_witness :
  let db := ModuleAdmin.mkDb
              (ModuleService.mkDb [UnlockScenario.week_one]
                 [UnlockScenario.enrolled_day_0])
              [] [] [] in
  exists sent db',
    sendModuleUnlockNotifications (fun _ => "Basics") (fun _ => "Course")
      (fun _ => None) "m1" db
    = (inr (Z.of_nat (List.length sent)), db') /\
    map notification_userId sent = ["u1"].
Proof.
  intros db.
  destruct (X18_unlock_notifications (fun _ => "Basics") (fun _ => "Course")
              (fun _ => None) "m1" db UnlockScenario.week_one eq_refl)
    as (sent & db' & H1 & _ & _ & _ & _ & _ & _ & H8).
  exists sent, db'. split; [exact H1|]. exact (H8 (fun _ => eq_refl)).
Defined.

(** X19: the request that changes the status of a module fails exactly
    when the change of status fails, with the same error and the same
    state.  When the change succeeds the request answers with the updated
    module, whatever happens to the notifications: these are sent for
    ACTIVE only, they only add notifications, and for any other status the
    state is that left by the change. *)
Theorem X19_status_request module_title course_title refused
  (id : string) (s : ModuleStatus) (db : Db) :
  (forall err db1,
     updateStatus id s db = (inl err, db1) ->
     updateModuleStatus module_title course_title refused id s db
     = (inl err, db1))
  /\
  (forall m db1,
     updateStatus id s db = (inr m, db1) ->
     exists db2,
       updateModuleStatus module_title course_title refused id s db
       = (inr m, db2) /\
       core db2 = core db1 /\ content db2 = content db1 /\
       quiz db2 = quiz db1 /\
       (exists sent, notification db2 = notification db1 ++ sent) /\
       (s <> ACTIVE -> db2 = db1)).
Proof.
  split.
  - intros err db1 H. unfold updateModuleStatus, bind. rewrite H. reflexivity.
  - intros m db1 H. unfold updateModuleStatus, bind at 1. rewrite H.
    destruct (status_eqb s ACTIVE) eqn:E.
    + apply status_eqb_eq in E.
      unfold bind, try_catch, sendModuleUnlockNotifications, bind,
        getModuleById, throw, ret.
      destruct (find _ (module (core db1))) as [m1|].
      * destruct (notify_all_run module_title course_title refused m1
                    (active_enrollments (courseId m1) db1) 0 db1)
          as (sent & -> & _).
        eexists. split; [reflexivity|].
        cbn [core content quiz notification].
        split; [reflexivity|]. split; [reflexivity|]. split; [reflexivity|].
        split; [exists sent; reflexivity|]. congruence.
      * exists db1. split; [reflexivity|].
        split; [reflexivity|]. split; [reflexivity|]. split; [reflexivity|].
        split; [exists []; rewrite app_nil_r; reflexivity|]. reflexivity.
    + exists db1. split; [reflexivity|].
      split; [reflexivity|]. split; [reflexivity|]. split; [reflexivity|].
      split; [exists []; rewrite app_nil_r; reflexivity|]. reflexivity.
Qed.

Lemma X19_status_request_witness :
  let db := ModuleAdmin.mkDb
              (ModuleService.mkDb [UnlockScenario.week_one]
                 [UnlockScenario.enrolled_day_0])
              [] [] [] in
  exists db2,
    updateModuleStatus (fun _ => "Basics") (fun _ => "Course")
      (fun _ => Some (OtherError "Error" "no connection")) "m1" ACTIVE db
    = (inr UnlockScenario.week_one, db2) /\
    core db2 = core db.
Proof.
  intros db.
  destruct (proj2 (X19_status_request (fun _ => "Basics") (fun _ => "Course")
                     (fun _ => Some (OtherError "Error" "no connection"))
                     "m1" ACTIVE db) UnlockScenario.week_one db eq_refl)
    as (db2 & H1 & H2 & _).
  exists db2. split; [exact H1|exact H2].
Defined.

(** X20: deleting a module looks at nothing first.  When no module has
    the id the datastore's error P2025 comes back, which the middleware
    answers with 404, and nothing is written.  Otherwise the deletion
    succeeds, also of a module that is deleted already; afterwards the
    module is not found by its id and the unlock query reads it for no
    course, while every other module is found as before and contents,
    quizzes, notifications and enrollments stay as they were. *)
Theorem X20_deleted_module (NODE_ENV : option string) (id : string) (db : Db) :
  NoDup (map module_id (module (core db))) ->
  (~ In id (map module_id (module (core db))) ->
   exists err,
     deleteModule id db = (inl err, db) /\
     Http.status (errorMiddleware NODE_ENV err) = 404)
  /\
  (In id (map module_id (module (core db))) ->
   exists db',
     deleteModule id db = (inr tt, db') /\
     getModuleById id db' = (inr None, db') /\
     (forall course m,
        In m (course_modules (core db') course) -> module_id m <> id) /\
     (forall id', id' <> id ->
        fst (getModuleById id' db') = fst (getModuleById id' db)) /\
     content db' = content db /\ quiz db' = quiz db /\
     notification db' = notification db /\
     userCourseEnrollment (core db') = userCourseEnrollment (core db) /\
     exists db'', deleteModule id db' = (inr tt, db'')).
Proof.
  intros Hnd. split.
  - intros Hout. exists Schema.P2025. split; [|reflexivity].
    unfold deleteModule, bind, module_update.
    rewrite (find_missing module_id id _ Hout). reflexivity.
  - intros Hin.
    destruct (find_present module_id id _ Hin) as (m & Hfind & Hm & Hk).
    pose proof (rep_keys module_id id set_deleted (replace_module id set_deleted)
                  eq_refl (fun _ _ => eq_refl) (fun _ => eq_refl)
                  (module (core db))) as Hkeys.
    eexists. split.
    { unfold deleteModule, bind, module_update. rewrite Hfind. reflexivity. }
    cbn [core module content quiz notification userCourseEnrollment].
    split.
    { unfold getModuleById. cbn [core module].
      rewrite (rep_find_gone module_id id set_deleted (replace_module id set_deleted)
                 eq_refl (fun _ _ => eq_refl) (fun _ => eq_refl)
                 (fun m => negb (isDeleted m)) _ (fun _ => eq_refl) Hnd).
      reflexivity. }
    split.
    { intros course y Hy Hky. unfold course_modules in Hy.
      rewrite order_by_In, filter_In in Hy. cbn [module] in Hy.
      destruct Hy as [Hy Hcond].
      destruct (rep_In_key module_id id set_deleted (replace_module id set_deleted)
                  eq_refl (fun _ _ => eq_refl) (fun _ => eq_refl)
                  _ y Hnd Hy Hky) as (x & _ & ->).
      simpl in Hcond. rewrite andb_false_r in Hcond. discriminate. }
    split.
    { intros id' Hne. unfold getModuleById. cbn [fst core module].
      rewrite (rep_find_other module_id id set_deleted (replace_module id set_deleted)
                 eq_refl (fun _ _ => eq_refl) (fun _ => eq_refl)
                 (fun m => negb (isDeleted m)) id' _ Hne).
      reflexivity. }
    split; [reflexivity|]. split; [reflexivity|]. split; [reflexivity|].
    split; [reflexivity|].
    unfold deleteModule, bind, module_update. cbn [core module].
    rewrite <- Hkeys in Hin.
    destruct (find_present module_id id _ Hin) as (m' & -> & _).
    eexists. reflexivity.
Qed.

Lemma X20_deleted_module_witness :
  let db := ModuleAdmin.mkDb
              (ModuleService.mkDb [UnlockScenario.week_one]
                 [UnlockScenario.enrolled_day_0])
              [] [] [] in
  (exists err,
     deleteModule "m9" db = (inl err, db) /\
     Http.status (errorMiddleware None err) = 404) /\
  (exists db',
     deleteModule "m1" db = (inr tt, db') /\
     getModuleById "m1" db' = (inr None, db')).
Proof.
  intros db.
  assert (Hnd : NoDup (map module_id (module (core db)))).
  { vm_compute. repeat constructor. intros []. }
  split.
  - apply (proj1 (X20_deleted_module None "m9" db Hnd)).
    vm_compute. intros [H|[]]. discriminate.
  - destruct (proj2 (X20_deleted_module None "m1" db Hnd)) as (db' & H1 & H2 & _).
    + vm_compute. auto.
    + exists db'. auto.
Defined.

End ModuleAdministration.

(** ** Edits of single questions, and the ends of the passing scale *)

Section QuestionEdits.
Import Scenario.

(** X21: an update changes one question only.  The question ids being
    unique, a successful update returns the stored question with the
    members of the request put in; id and quiz stay; the row is stored
    under the same id at the same place; every other question, every quiz
    and every attempt is left as it was. *)
Theorem X21_update_changes_one_question (id : string) (data : QuestionUpdate)
  (db db' : Db) (updated : QuizQuestion) :
  NoDup (map question_id (quizQuestion db)) ->
  updateQuizQuestion id data db = (inr updated, db') ->
  exists stored,
    In stored (quizQuestion db) /\ question_id stored = id /\
    updated = apply_update data stored /\
    question_id updated = id /\ quizId updated = quizId stored /\
    map question_id (quizQuestion db') = map question_id (quizQuestion db) /\
    quizQuestion_findUnique id db' = (inr (Some updated), db') /\
    (forall x, question_id x <> id ->
       (In x (quizQuestion db') <-> In x (quizQuestion db))) /\
    quiz db' = quiz db /\ quizAttempt db' = quizAttempt db.
Proof.
  intros Hnd.
  unfold updateQuizQuestion, bind, quizQuestion_findUnique.
  destruct (find _ (quizQuestion db)) as [stored|] eqn:Hfind; [|discriminate].
  destruct (update_check stored data); [discriminate|].
  unfold quizQuestion_update. intros H. injection H as <- <-.
  apply find_some in Hfind. destruct Hfind as [Hin Hk].
  apply String.eqb_eq in Hk.
  pose proof (rep_keys question_id id (apply_update data)
                (update_where id (apply_update data))
                eq_refl (fun _ _ => eq_refl) (fun _ => eq_refl)
                (quizQuestion db)) as Hkeys.
  pose proof (rep_In_changed question_id id (apply_update data)
                (update_where id (apply_update data))
                eq_refl (fun _ _ => eq_refl) (fun _ => eq_refl)
                (quizQuestion db) stored Hnd Hin Hk) as Hnew.
  exists stored. cbn [quiz quizQuestion quizAttempt].
  split; [assumption|]. split; [assumption|]. split; [reflexivity|].
  split; [exact Hk|]. split; [reflexivity|]. split; [exact Hkeys|]. split.
  { f_equal. f_equal. apply find_first; [rewrite Hkeys; assumption|assumption|].
    exact Hk. }
  split; [|split; reflexivity].
  intros x Hx. split.
  - intros H.
    destruct (rep_In question_id id (apply_update data)
                (update_where id (apply_update data))
                eq_refl (fun _ _ => eq_refl) (fun _ => eq_refl) _ x H)
      as [H'|(x' & _ & Hk' & ->)]; [assumption|].
    exfalso. apply Hx. exact Hk'.
  - intros H.
    apply (rep_In_other question_id id (apply_update data)
             (update_where id (apply_update data))
             eq_refl (fun _ _ => eq_refl) (fun _ => eq_refl) _ x H Hx).
Qed.

Lemma X21_update_changes_one_question_witness :
  exists updated db',
    updateQuizQuestion "q1" (mkQuestionUpdate None None None None (Some 9)) db_5_5
    = (inr updated, db') /\
    question_id updated = "q1" /\
    In (mk_question "q2" "quiz-1" 5) (quizQuestion db').
Proof.
  eexists. eexists. split; [cbv; reflexivity|].
  assert (Hnd : NoDup (map question_id (quizQuestion db_5_5))).
  { vm_compute. repeat constructor; [intros [H|[]]; discriminate|intros []]. }
  destruct (X21_update_changes_one_question "q1"
              (mkQuestionUpdate None None None None (Some 9)) db_5_5 _ _ Hnd eq_refl)
    as (stored & _ & _ & _ & Hid & _ & _ & _ & Hothers & _).
  split; [exact Hid|].
  apply Hothers; [discriminate|]. vm_compute. auto.
Defined.

(** X22: a question that was deleted is gone, and only it.  After a
    successful deletion the stored questions are those of before whose id
    is another, quizzes and attempts are untouched, and a further update
    or deletion under this id is answered 404. *)
Theorem X22_deleted_question (id : string) (db db' : Db) (deleted : QuizQuestion) :
  deleteQuizQuestion id db = (inr deleted, db') ->
  In deleted (quizQuestion db) /\ question_id deleted = id /\
  (forall x, In x (quizQuestion db') <->
             In x (quizQuestion db) /\ question_id x <> id) /\
  quiz db' = quiz db /\ quizAttempt db' = quizAttempt db /\
  deleteQuizQuestion id db'
  = (inl (ApiError "Question not found" 404 NoDetails), db') /\
  (forall data,
     updateQuizQuestion id data db'
     = (inl (ApiError "Question not found" 404 NoDetails), db')).
Proof.
  unfold deleteQuizQuestion at 1. unfold bind, quizQuestion_findUnique.
  destruct (find _ (quizQuestion db)) as [stored|] eqn:Hfind; [|discriminate].
  unfold quizQuestion_delete. intros H. injection H as <- <-.
  apply find_some in Hfind. destruct Hfind as [Hin Hk].
  apply String.eqb_eq in Hk.
  assert (Hgone : find (fun q => String.eqb (question_id q) id)
                    (filter (fun q => negb (String.eqb (question_id q) id))
                       (quizQuestion db)) = None).
  { apply find_missing. intros H. apply in_map_iff in H.
    destruct H as (x & Hx & Hf). apply filter_In in Hf.
    destruct Hf as [_ Hf]. rewrite Hx, String.eqb_refl in Hf. discriminate. }
  cbn [quiz quizQuestion quizAttempt].
  split; [assumption|]. split; [assumption|]. split.
  { intros x. rewrite filter_In, negb_true_iff, String.eqb_neq. tauto. }
  split; [reflexivity|]. split; [reflexivity|]. split.
  - unfold deleteQuizQuestion, bind, quizQuestion_findUnique.
    cbn [quizQuestion]. rewrite Hgone. reflexivity.
  - intros data. unfold updateQuizQuestion, bind, quizQuestion_findUnique.
    cbn [quizQuestion]. rewrite Hgone. reflexivity.
Qed.

Lemma X22_deleted_question_witness :
  exists deleted db',
    deleteQuizQuestion "q1" db_5_5 = (inr deleted, db') /\
    question_id deleted = "q1" /\
    deleteQuizQuestion "q1" db'
    = (inl (ApiError "Question not found" 404 NoDetails), db').
Proof.
  eexists. eexists. split; [cbv; reflexivity|].
  destruct (X22_deleted_question "q1" db_5_5 _ _ eq_refl)
    as (_ & Hid & _ & _ & _ & Hagain & _).
  split; [exact Hid|exact Hagain].
Defined.

(** X23: the ends of the passing scale.  With points that are never
    negative and sum to less than 2^53, an accepted attempt at a quiz whose
    passing score is 0 or less is always stored as passed, and one at a
    quiz whose passing score is above 100 never is, whatever the
    answers. *)
Theorem X23_passing_score_extremes (db db' : Db) (quizId userId : string)
  (answers : list Answer) (q : Quiz) (attempt : QuizAttempt) :
  getQuizById quizId true db = (inr (Some q), db) ->
  (forall x, In x (questions q) -> 0 <= points x) ->
  totalPoints q answers < 2 ^ 53 ->
  submitQuizAttempt quizId userId answers db = (inr attempt, db') ->
  (passingScore (row q) <= 0 -> passed attempt = true) /\
  (100 < passingScore (row q) -> passed attempt = false).
Proof.
  intros Hq Hpos Hlt Hsub.
  destruct (accepted_attempt db quizId userId answers q attempt db' Hq Hsub)
    as (Hscore & Hpassed & _).
  pose proof (calculateQuizScore_range q answers Hpos Hlt) as Hrange.
  rewrite <- Hscore in Hrange. rewrite Hpassed. split; intros H.
  - apply Z.leb_le. lia.
  - apply Z.leb_gt. lia.
Qed.

Lemma X23_passing_score_extremes_witness :
  let db := QuizService.mkDb [mkQuizRow "quiz-1" "module-1" 101 false]
              [mk_question "q1" "quiz-1" 5] [] in
  exists attempt db',
    submitQuizAttempt "quiz-1" "u1" [mkAnswer "q1" 0] db = (inr attempt, db') /\
    score attempt = 100 /\ passed attempt = false.
Proof.
  intros db. eexists. eexists. split; [cbv; reflexivity|].
  split; [reflexivity|].
  refine (proj2 (X23_passing_score_extremes db _ "quiz-1" "u1" [mkAnswer "q1" 0]
                   (mkQuiz (mkQuizRow "quiz-1" "module-1" 101 false)
                      [mk_question "q1" "quiz-1" 5]) _
                   eq_refl _ _ eq_refl) _).
  - intros x [<-|[]]. simpl. lia.
  - vm_compute. reflexivity.
  - simpl. lia.
Defined.

End QuestionEdits.
